(** * Governance framework: risk gates, audit trail, RBAC, bias monitor, engine

    A shallow embedding of [app/governance/*.py] and of the models of
    [app/models/*.py] they use, followed by the properties proved about them.

    Conventions of the embedding.
    - A Python [float] is held as a rational ([Q]).  A comparison between
      two floats handed in by the caller (a confidence score and a threshold)
      compares these rationals.  Where the code computes with floats (the
      bias monitor: means, the disparity ratio, the confidence interval) the
      arithmetic is that of binary64: a value handed in stands for the
      binary64 number nearest to it, as a decimal literal does, and every
      result is rounded to the nearest binary64 number, ties to even.  The
      infinities and NaN are constructors of [pyfloat]; the sign of a zero is
      not kept.
    - [str(uuid.uuid4())] and [datetime.utcnow()] are inputs: every operation
      that builds a model object takes the [Stamp] (identifier and time) drawn
      for that object.  A drawn identifier is not assumed fresh; a dict store
      overwrites on a repeated key exactly as Python does.
    - A dict whose iteration order the code observes ([rules], [audit_logs]) is
      an insertion-ordered association list ([pydict]); the other dicts are
      [gmap]s.
    - Objects mutated through an alias (the action handed to the gate, to hooks
      and handlers; a stored request or log entry) are passed and returned
      explicitly, and written back to their store. *)

From Stdlib Require Import ZArith QArith Qabs String List Sorted Lia.
From stdpp Require Import base option list countable gmap strings pretty.

Open Scope string_scope.
Open Scope list_scope.

(** ** Python values *)

Module Py.

(** Truthiness of a [str]: the empty string is false.  An [Optional[str]] is
    tested by a match on [None] followed by this test. *)
Definition truthy_str (s : string) : bool :=
  match s with EmptyString => false | String _ _ => true end.

(** [x or y] on strings. *)
Definition str_or (x : option string) (y : string) : string :=
  match x with
  | Some s => if truthy_str s then s else y
  | None => y
  end.

(** [needle in hay] on strings. *)
Fixpoint contains (needle hay : string) : bool :=
  String.prefix needle hay ||
  match hay with
  | EmptyString => false
  | String _ rest => contains needle rest
  end.

(** [x in xs] on a list of strings. *)
Definition mem (x : string) (xs : list string) : bool :=
  existsb (String.eqb x) xs.

(** [s[:n]]. *)
Definition take_str (n : nat) (s : string) : string := String.substring 0 n s.

(** An insertion-ordered dict with string keys. *)
Definition pydict (V : Type) : Type := list (string * V).

Fixpoint get {V} (k : string) (d : pydict V) : option V :=
  match d with
  | [] => None
  | (k', v) :: d' => if String.eqb k k' then Some v else get k d'
  end.

(** [d[k] = v]: an existing key keeps its position. *)
Fixpoint set {V} (k : string) (v : V) (d : pydict V) : pydict V :=
  match d with
  | [] => [(k, v)]
  | (k', v') :: d' =>
      if String.eqb k k' then (k, v) :: d' else (k', v') :: set k v d'
  end.

Definition values {V} (d : pydict V) : list V := map snd d.
Definition keys {V} (d : pydict V) : list string := map fst d.

(** [dd[k].append(x)] on a [defaultdict(list)]. *)
Definition append_at `{Countable K} {A} (k : K) (x : A) (dd : gmap K (list A))
  : gmap K (list A) :=
  <[k := default [] (dd !! k) ++ [x]]> dd.

(** [float]: a finite value, [float('inf')], [-float('inf')] or NaN. *)
Inductive pyfloat : Type :=
| Fin (q : Q)
| Inf
| NegInf
| NaN.

Definition Qltb (x y : Q) : bool := negb (Qle_bool y x).

(** The integer nearest to [n / d], ties to the even one. *)
Definition round_half_even (n : Z) (d : positive) : Z :=
  let q := (n / Zpos d)%Z in
  let r := (n mod Zpos d)%Z in
  match (2 * r ?= Zpos d)%Z with
  | Lt => q
  | Gt => (q + 1)%Z
  | Eq => if Z.even q then q else (q + 1)%Z
  end.

(** [floor (log2 |q|)] for a non-zero [q]. *)
Definition binade (q : Q) : Z :=
  let e := (Z.log2 (Z.abs (Qnum q)) - Z.log2 (Zpos (Qden q)))%Z in
  if Qle_bool (2 ^ e) (Qabs q) then e else (e - 1)%Z.

(** The exponent of the binary64 unit in the last place at [q]: 53
    significant bits, and [2^-1074] throughout the subnormal range. *)
Definition ulp_exponent (q : Q) : Z := Z.max (binade q - 52) (-1074).

(** The binary64 number nearest to [q], ties to even: what a decimal literal
    denotes, and what an exact result is rounded to.  The exponent is not
    bounded above here; [rounded] adds the overflow. *)
Definition float_of (q : Q) : Q :=
  if Qeq_bool q 0 then 0%Q
  else
    let u := ulp_exponent q in
    let x := (q * 2 ^ (- u))%Q in
    Qred (inject_Z (round_half_even (Qnum x) (Qden x)) * 2 ^ u)%Q.

(** The float an operation returns when its exact result is [q]: the nearest
    binary64 number, an infinity beyond the largest one. *)
Definition rounded (q : Q) : pyfloat :=
  let v := float_of q in
  if Qle_bool (2 ^ 1024) v then Inf
  else if Qle_bool v (- 2 ^ 1024) then NegInf
  else Fin v.

(** [x < y] for a computed float on the left and a given one on the
    right. *)
Definition flt (x : pyfloat) (y : Q) : bool :=
  match x with
  | Fin q => Qltb q (float_of y)
  | NegInf => true
  | Inf | NaN => false
  end.

(** [x * y] on given floats. *)
Definition fmul (x y : Q) : pyfloat := rounded (float_of x * float_of y).

(** [x + y] and [x - y] on computed floats. *)
Definition fadd (x y : pyfloat) : pyfloat :=
  match x, y with
  | NaN, _ | _, NaN => NaN
  | Fin a, Fin b => rounded (a + b)
  | Inf, NegInf | NegInf, Inf => NaN
  | Inf, _ | _, Inf => Inf
  | NegInf, _ | _, NegInf => NegInf
  end.
Definition fneg (x : pyfloat) : pyfloat :=
  match x with
  | Fin a => Fin (- a)
  | Inf => NegInf
  | NegInf => Inf
  | NaN => NaN
  end.
Definition fsub (x y : pyfloat) : pyfloat := fadd x (fneg y).

(** The exceptions the modelled code can raise. *)
Inductive exn : Type :=
| ZeroDivisionError
| StatisticsError
| IndexError
| ValueError.

Definition result (A : Type) : Type := exn + A.

Definition ret {A} (x : A) : result A := inr x.
Definition raise {A} (e : exn) : result A := inl e.
Definition bind {A B} (m : result A) (k : A -> result B) : result B :=
  match m with
  | inl e => inl e
  | inr x => k x
  end.

(** [x / y] on computed floats: the quotient rounded; a zero divisor
    raises. *)
Definition fdiv (x y : Q) : result pyfloat :=
  if Qeq_bool y 0 then raise ZeroDivisionError else ret (rounded (x / y)).

Definition Qsum (xs : list Q) : Q := fold_right Qplus 0%Q xs.

(** [statistics.mean] on given floats: the library adds the data as exact
    fractions, divides, and converts the quotient to a float; it raises on no
    data.  A mean of floats lies between the least and the greatest of them,
    so the conversion cannot overflow. *)
Definition mean (xs : list Q) : result Q :=
  match xs with
  | [] => raise StatisticsError
  | _ => ret (float_of (Qsum (map float_of xs)
                        / inject_Z (Z.of_nat (length xs))))
  end.

(** [max(x, y)]. *)
Definition Qmax (x y : Q) : Q := if Qltb x y then y else x.

(** [sorted(xs, key=...)]: Python's sort is stable, which fixes the result;
    it is computed here by insertion.  [before x y] tells that [x], met
    earlier in the input, stays ahead of [y]. *)
Fixpoint insert_by {A} (before : A -> A -> bool) (x : A) (l : list A) : list A :=
  match l with
  | [] => [x]
  | y :: l' => if before x y then x :: y :: l' else y :: insert_by before x l'
  end.

Definition sorted_by {A} (before : A -> A -> bool) (l : list A) : list A :=
  fold_right (insert_by before) [] l.

(** [sorted(xs, key=k)] and [sorted(xs, key=k, reverse=True)] on integer
    keys; equal keys keep their input order in both. *)
Definition sorted_asc {A} (key : A -> Z) (l : list A) : list A :=
  sorted_by (fun x y => (key x <=? key y)%Z) l.
Definition sorted_desc {A} (key : A -> Z) (l : list A) : list A :=
  sorted_by (fun x y => (key y <=? key x)%Z) l.

(** [xs.remove(x)]: drops the first occurrence.  Python raises when there is
    none; the one call site tests [x in xs] first. *)
Fixpoint remove_first (x : string) (xs : list string) : list string :=
  match xs with
  | [] => []
  | y :: ys => if String.eqb x y then ys else y :: remove_first x ys
  end.

(** [d[k] += 1] on a [defaultdict(int)]. *)
Definition incr (k : string) (d : pydict nat) : pydict nat :=
  set k (default 0%nat (get k d) + 1)%nat d.

(** [dd[k].append(x)] on an insertion-ordered [defaultdict(list)]. *)
Definition push {A} (k : string) (x : A) (d : pydict (list A)) : pydict (list A) :=
  set k (default [] (get k d) ++ [x]) d.

End Py.

Notation "'let*' x ':=' m 'in' k" := (Py.bind m (fun x => k))
  (at level 10, x pattern, k at level 200).

(** The identifier and time drawn when a model object is built
    ([uuid.uuid4()], [datetime.utcnow()]). *)
Record Stamp : Type := mkStamp {
  uuid : string;
  utcnow : Z
}.

(** The values the code stores under [Any]: strings, numbers, booleans and
    [t.isoformat()] of a time [t]. *)
Inductive pyval : Type :=
| VStr (s : string)
| VInt (z : Z)
| VFloat (q : Q)
| VBool (b : bool)
| VIso (t : Z)
| VNone.

(** [dict[str, Any]] payloads. *)
Definition blob : Type := list (string * pyval).

(** ** Enumerations ([app/models/base.py]) *)

Inductive RiskLevel : Type := LOW | MEDIUM | HIGH | CRITICAL.

Inductive AgentType : Type :=
| ORCHESTRATOR | INTAKE | CARE_PLANNING | MEDICATION | DOCUMENTATION
| BILLING | COMPLIANCE | FAMILY_COMMUNICATION | SCHEDULING.

Inductive ActionStatus : Type :=
| PENDING | IN_PROGRESS | AWAITING_APPROVAL | APPROVED | REJECTED
| COMPLETED | FAILED | ESCALATED.

Inductive UserRole : Type :=
| SYSTEM_ADMIN | CLINICAL_DIRECTOR | NURSE_MANAGER | CARE_COORDINATOR
| BILLING_STAFF | FAMILY_PORTAL.

(** The [.value] of each [str] enum member. *)
Definition risk_value (r : RiskLevel) : string :=
  match r with
  | LOW => "LOW" | MEDIUM => "MEDIUM" | HIGH => "HIGH" | CRITICAL => "CRITICAL"
  end.

Definition agent_value (a : AgentType) : string :=
  match a with
  | ORCHESTRATOR => "ORCHESTRATOR" | INTAKE => "INTAKE"
  | CARE_PLANNING => "CARE_PLANNING" | MEDICATION => "MEDICATION"
  | DOCUMENTATION => "DOCUMENTATION" | BILLING => "BILLING"
  | COMPLIANCE => "COMPLIANCE" | FAMILY_COMMUNICATION => "FAMILY_COMMUNICATION"
  | SCHEDULING => "SCHEDULING"
  end.

Definition role_value (r : UserRole) : string :=
  match r with
  | SYSTEM_ADMIN => "SYSTEM_ADMIN" | CLINICAL_DIRECTOR => "CLINICAL_DIRECTOR"
  | NURSE_MANAGER => "NURSE_MANAGER" | CARE_COORDINATOR => "CARE_COORDINATOR"
  | BILLING_STAFF => "BILLING_STAFF" | FAMILY_PORTAL => "FAMILY_PORTAL"
  end.

(** [list(AgentType)], in declaration order. *)
Definition all_agent_types : list AgentType :=
  [ORCHESTRATOR; INTAKE; CARE_PLANNING; MEDICATION; DOCUMENTATION;
   BILLING; COMPLIANCE; FAMILY_COMMUNICATION; SCHEDULING].

#[global] Instance RiskLevel_eq_dec : EqDecision RiskLevel.
Proof. solve_decision. Defined.
#[global] Instance AgentType_eq_dec : EqDecision AgentType.
Proof. solve_decision. Defined.
#[global] Instance ActionStatus_eq_dec : EqDecision ActionStatus.
Proof. solve_decision. Defined.
#[global] Instance UserRole_eq_dec : EqDecision UserRole.
Proof. solve_decision. Defined.

Definition agent_index (a : AgentType) : nat :=
  match a with
  | ORCHESTRATOR => 0 | INTAKE => 1 | CARE_PLANNING => 2 | MEDICATION => 3
  | DOCUMENTATION => 4 | BILLING => 5 | COMPLIANCE => 6
  | FAMILY_COMMUNICATION => 7 | SCHEDULING => 8
  end.

Definition role_index (r : UserRole) : nat :=
  match r with
  | SYSTEM_ADMIN => 0 | CLINICAL_DIRECTOR => 1 | NURSE_MANAGER => 2
  | CARE_COORDINATOR => 3 | BILLING_STAFF => 4 | FAMILY_PORTAL => 5
  end.

#[global] Instance AgentType_countable : Countable AgentType.
Proof.
  refine (inj_countable' agent_index
            (fun n => nth n all_agent_types ORCHESTRATOR) _).
  intros []; reflexivity.
Defined.

#[global] Instance UserRole_countable : Countable UserRole.
Proof.
  refine (inj_countable' role_index
            (fun n => nth n [SYSTEM_ADMIN; CLINICAL_DIRECTOR; NURSE_MANAGER;
                             CARE_COORDINATOR; BILLING_STAFF; FAMILY_PORTAL]
                        SYSTEM_ADMIN) _).
  intros []; reflexivity.
Defined.

(** [RiskLevel(s)]: the member whose value is [s]; raises on any other
    string. *)
Definition risk_of_value (s : string) : Py.result RiskLevel :=
  if String.eqb s "LOW" then Py.ret LOW
  else if String.eqb s "MEDIUM" then Py.ret MEDIUM
  else if String.eqb s "HIGH" then Py.ret HIGH
  else if String.eqb s "CRITICAL" then Py.ret CRITICAL
  else Py.raise Py.ValueError.

(** Truthiness of a [RiskLevel]: a [str] enum member is its value. *)
Definition truthy_risk (r : RiskLevel) : bool := Py.truthy_str (risk_value r).

Definition status_value (st : ActionStatus) : string :=
  match st with
  | PENDING => "PENDING" | IN_PROGRESS => "IN_PROGRESS"
  | AWAITING_APPROVAL => "AWAITING_APPROVAL" | APPROVED => "APPROVED"
  | REJECTED => "REJECTED" | COMPLETED => "COMPLETED" | FAILED => "FAILED"
  | ESCALATED => "ESCALATED"
  end.

(** ** Models ([app/models/base.py], [governance.py], [audit.py]) *)

Record AgentAction : Type := mkAgentAction {
  action_id : string;
  action_agent_type : AgentType;
  action_type : string;
  parameters : blob;
  action_patient_id : option string;
  action_risk_level : RiskLevel;
  action_confidence_score : Q;
  action_rationale : string;
  action_status : ActionStatus;
  requires_approval : bool;
  action_approved_by : option string;
  action_timestamp : Z
}.

Definition set_action_status (st : ActionStatus) (a : AgentAction) : AgentAction :=
  mkAgentAction (action_id a) (action_agent_type a) (action_type a)
    (parameters a) (action_patient_id a) (action_risk_level a)
    (action_confidence_score a) (action_rationale a) st
    (requires_approval a) (action_approved_by a) (action_timestamp a).

Definition set_action_risk_level (r : RiskLevel) (a : AgentAction) : AgentAction :=
  mkAgentAction (action_id a) (action_agent_type a) (action_type a)
    (parameters a) (action_patient_id a) r
    (action_confidence_score a) (action_rationale a) (action_status a)
    (requires_approval a) (action_approved_by a) (action_timestamp a).

(** What a registered handler returns: a dict read through
    [.get("success", True)] and [.get("error", "FAILED")]. *)
Record HandlerResult : Type := mkHandlerResult {
  hr_success : option bool;
  hr_error : option string;
  hr_payload : blob
}.

(** The [result] dicts [AgentResponse] is built with. *)
Inductive ResponseResult : Type :=
| EscalationResult (escalation_id : string)
| ApprovalQueued (approval_request_id : string) (required : Z) (status : string)
| ExecutionResult (r : HandlerResult)
| ApprovalDecision (request_id : string) (status : string) (approved : bool).

Record AgentResponse : Type := mkAgentResponse {
  success : bool;
  action : AgentAction;
  result : option ResponseResult;
  error : option string;
  escalation_required : bool;
  escalation_reason : option string
}.

Record APICallLog : Type := mkAPICallLog {
  call_id : string;
  service_name : string;
  endpoint : string;
  method : string;
  request_payload : blob;
  response_payload : option blob;
  status_code : Z;
  latency_ms : Q;
  call_timestamp : Z;
  call_error : option string
}.

Record ApprovalRequest : Type := mkApprovalRequest {
  request_id : string;
  request_created_at : Z;
  request_action_id : string;
  request_agent_type : AgentType;
  request_action_type : string;
  request_patient_id : option string;
  request_risk_level : RiskLevel;
  request_confidence_score : Q;
  request_rationale : string;
  details : blob;
  required_approvers : Z;
  current_approvals : Z;
  approved_by : list string;
  rejected_by : option string;
  rejection_reason : option string;
  request_status : string;
  expires_at : option Z;
  priority : string
}.

Record GovernanceRule : Type := mkGovernanceRule {
  rule_id : string;
  rule_name : string;
  rule_description : string;
  rule_agent_types : list AgentType;
  rule_action_types : list string;
  rule_risk_level : RiskLevel;
  confidence_threshold : Q;
  rule_requires_approval : bool;
  rule_required_approvers : Z;
  approver_roles : list UserRole;
  auto_escalate : bool;
  escalation_timeout_seconds : Z;
  rule_enabled : bool;
  rule_created_at : Z;
  rule_updated_at : Z
}.

Record RBACPermission : Type := mkRBACPermission {
  permission_id : string;
  permission_role : UserRole;
  permission_agent_type : AgentType;
  allowed_actions : list string;
  read_access : bool;
  write_access : bool;
  approve_access : bool;
  admin_access : bool
}.

Record User : Type := mkUser {
  user_id : string;
  username : string;
  email : string;
  role : UserRole;
  department : option string;
  is_active : bool;
  user_created_at : Z;
  last_login : option Z;
  permissions_override : list string
}.

Record GovernanceConfig : Type := mkGovernanceConfig {
  config_id : string;
  confidence_threshold_default : Q;
  escalation_timeout_default : Z;
  max_retry_attempts : Z;
  audit_retention_days : Z;
  session_timeout_minutes : Z;
  require_mfa : bool;
  encryption_enabled : bool;
  bias_monitoring_enabled : bool;
  bias_threshold : Q;
  api_rate_limits : list (string * Z);
  config_updated_at : Z
}.

Record AuditLogEntry : Type := mkAuditLogEntry {
  log_id : string;
  log_timestamp : Z;
  agent_id : string;
  log_agent_type : AgentType;
  log_action_type : string;
  log_patient_id : option string;
  log_parameters : blob;
  log_rationale : string;
  log_confidence_score : Q;
  log_risk_level : RiskLevel;
  api_calls : list blob;
  human_override : bool;
  override_by : option string;
  override_reason : option string;
  outcome : string;
  log_status : ActionStatus;
  modifications : list blob;
  log_session_id : option string;
  log_user_id : option string;
  log_ip_address : option string
}.

Record AccessLog : Type := mkAccessLog {
  access_id : string;
  access_timestamp : Z;
  access_user_id : string;
  user_role : string;
  access_patient_id : string;
  resource_type : string;
  access_action : string;
  access_success : bool;
  access_reason : option string;
  access_ip_address : option string;
  access_session_id : option string
}.

Record EscalationLog : Type := mkEscalationLog {
  escalation_id : string;
  escalation_timestamp : Z;
  source_agent : AgentType;
  escalation_action_id : string;
  escalation_log_reason : string;
  escalation_confidence_score : Q;
  escalation_risk_level : RiskLevel;
  assigned_to : option string;
  resolved : bool;
  resolution_timestamp : option Z;
  resolution_action : option string;
  resolved_by : option string
}.

Record ComplianceEvent : Type := mkComplianceEvent {
  event_id : string;
  event_timestamp : Z;
  event_type : string;
  severity : string;
  description : string;
  affected_patients : list string;
  affected_agents : list AgentType;
  remediation_required : bool;
  remediation_status : option string;
  remediation_deadline : option Z;
  event_assigned_to : option string
}.

Record BiasMetric : Type := mkBiasMetric {
  metric_id : string;
  metric_timestamp : Z;
  metric_type : string;
  dimension : string;
  metric_agent_type : AgentType;
  metric_action_type : string;
  baseline_rate : Q;
  observed_rate : Q;
  disparity_ratio : Py.pyfloat;
  threshold_exceeded : bool;
  sample_size : nat;
  confidence_interval : Py.pyfloat * Py.pyfloat;
  metric_details : blob
}.

(** ** Layer 1: risk-tiered gates ([app/governance/risk_gates.py]) *)

Module RiskGateManager.

Record t : Type := mk {
  rules : Py.pydict GovernanceRule;
  pending_approvals : gmap string ApprovalRequest
}.

(** [GovernanceRule(name=..., description=..., risk_level=...,
    confidence_threshold=..., requires_approval=..., ...)] with the model's
    defaults for the fields left out. *)
Definition new_rule (st : Stamp) (name descr : string) (risk : RiskLevel)
    (threshold : Q) (needs_approval : bool) (required : Z) (escalate : bool)
  : GovernanceRule :=
  {| rule_id := uuid st; rule_name := name; rule_description := descr;
     rule_agent_types := []; rule_action_types := [];
     rule_risk_level := risk; confidence_threshold := threshold;
     rule_requires_approval := needs_approval;
     rule_required_approvers := required; approver_roles := [];
     auto_escalate := escalate; escalation_timeout_seconds := 300;
     rule_enabled := true;
     rule_created_at := utcnow st; rule_updated_at := utcnow st |}.

Definition default_rules (draw : nat -> Stamp) : list GovernanceRule :=
  [ new_rule (draw 0%nat) "low_risk_auto_execute"
      "Auto-execute low-risk administrative tasks"
      LOW 0.7 false 1 false;
    new_rule (draw 1%nat) "medium_risk_notify"
      "Execute with supervisor notification"
      MEDIUM 0.85 false 1 true;
    new_rule (draw 2%nat) "high_risk_approval"
      "Require human approval for high-risk actions"
      HIGH 0.90 true 1 true;
    new_rule (draw 3%nat) "critical_multi_approval"
      "Require multi-person approval for critical actions"
      CRITICAL 0.95 true 2 true ].

Definition add_rule (rule : GovernanceRule) (s : t) : t :=
  mk (Py.set (rule_id rule) rule (rules s)) (pending_approvals s).

Definition _initialize_default_rules (draw : nat -> Stamp) (s : t) : t :=
  fold_left (fun s rule => add_rule rule s) (default_rules draw) s.

Definition __init__ (draw : nat -> Stamp) : t :=
  _initialize_default_rules draw (mk [] ∅).

Definition high_risk_actions : list string :=
  ["medication_change"; "treatment_modification"; "discharge_decision";
   "emergency_intervention"; "biomarker_alert"; "adverse_event_report"].

Definition medium_risk_actions : list string :=
  ["care_plan_update"; "documentation_update"; "assessment_completion";
   "referral_creation"; "order_entry"].

Definition critical_actions : list string :=
  ["critical_biomarker_alert"; "emergency_escalation";
   "life_threatening_condition"; "code_blue_activation"].

Definition classify_risk (a : AgentAction) : RiskLevel :=
  if Py.mem (action_type a) critical_actions then CRITICAL
  else if Py.mem (action_type a) high_risk_actions then HIGH
  else if Py.mem (action_type a) medium_risk_actions then MEDIUM
  else LOW.

(** The first rule of the level in insertion order, else the first rule;
    [list(...)[0]] raises on an empty rule table. *)
Definition _get_rule_for_risk_level (s : t) (risk : RiskLevel)
  : Py.result GovernanceRule :=
  match List.find (fun r => bool_decide (rule_risk_level r = risk))
          (Py.values (rules s)) with
  | Some r => Py.ret r
  | None =>
      match Py.values (rules s) with
      | r :: _ => Py.ret r
      | [] => Py.raise Py.IndexError
      end
  end.

(** Stores the request under its id and sets the action's status. *)
Definition _create_approval_request (st : Stamp) (s : t) (a : AgentAction)
    (rule : GovernanceRule) (reason : string)
  : t * AgentAction * ApprovalRequest :=
  let prio :=
    if bool_decide (action_risk_level a = CRITICAL) then "URGENT" else "HIGH" in
  let request :=
    {| request_id := uuid st; request_created_at := utcnow st;
       request_action_id := action_id a;
       request_agent_type := action_agent_type a;
       request_action_type := action_type a;
       request_patient_id := action_patient_id a;
       request_risk_level := action_risk_level a;
       request_confidence_score := action_confidence_score a;
       request_rationale := reason +:+ ": " +:+ action_rationale a;
       details := parameters a;
       required_approvers := rule_required_approvers rule;
       current_approvals := 0; approved_by := [];
       rejected_by := None; rejection_reason := None;
       request_status := "PENDING"; expires_at := None;
       priority := prio |} in
  (mk (rules s) (<[request_id request := request]> (pending_approvals s)),
   set_action_status AWAITING_APPROVAL a,
   request).

(** Returns the manager, the action as mutated, and
    [(can_proceed, approval_request)]. *)
Definition evaluate_gate (st : Stamp) (s : t) (a : AgentAction)
  : Py.result (t * AgentAction * (bool * option ApprovalRequest)) :=
  let risk_level :=
    if truthy_risk (action_risk_level a) then action_risk_level a
    else classify_risk a in
  let a := set_action_risk_level risk_level a in
  let* rule := _get_rule_for_risk_level s risk_level in
  if Py.Qltb (action_confidence_score a) (confidence_threshold rule) then
    let '(s', a', request) :=
      _create_approval_request st s a rule "LOW_CONFIDENCE" in
    Py.ret (s', a', (false, Some request))
  else if rule_requires_approval rule then
    let '(s', a', request) :=
      _create_approval_request st s a rule "RISK_LEVEL" in
    Py.ret (s', a', (false, Some request))
  else if bool_decide (risk_level = LOW) then
    Py.ret (s, set_action_status APPROVED a, (true, None))
  else if bool_decide (risk_level = MEDIUM) then
    Py.ret (s, set_action_status APPROVED a, (true, None))
  else
    let '(s', a', request) :=
      _create_approval_request st s a rule "RISK_LEVEL" in
    Py.ret (s', a', (false, Some request)).

(** Rewrites the fields of a request that [process_approval] assigns. *)
Definition update_request (r : ApprovalRequest) (n : Z) (by_ : list string)
    (rej : option string) (why : option string) (st : string) : ApprovalRequest :=
  mkApprovalRequest (request_id r) (request_created_at r) (request_action_id r)
    (request_agent_type r) (request_action_type r) (request_patient_id r)
    (request_risk_level r) (request_confidence_score r) (request_rationale r)
    (details r) (required_approvers r) n by_ rej why st
    (expires_at r) (priority r).

Definition set_approved_by (by_ : list string) (r : ApprovalRequest) :=
  update_request r (current_approvals r) by_ (rejected_by r)
    (rejection_reason r) (request_status r).
Definition set_current_approvals (n : Z) (r : ApprovalRequest) :=
  update_request r n (approved_by r) (rejected_by r)
    (rejection_reason r) (request_status r).
Definition set_request_status (st : string) (r : ApprovalRequest) :=
  update_request r (current_approvals r) (approved_by r) (rejected_by r)
    (rejection_reason r) st.
Definition set_rejected_by (who : option string) (r : ApprovalRequest) :=
  update_request r (current_approvals r) (approved_by r) who
    (rejection_reason r) (request_status r).
Definition set_rejection_reason (why : option string) (r : ApprovalRequest) :=
  update_request r (current_approvals r) (approved_by r) (rejected_by r)
    why (request_status r).

(** The request is the object stored under [rid]: each outcome writes the
    mutated request back. *)
Definition process_approval (s : t) (rid approver_id : string)
    (approved : bool) (reason : option string) : t * bool :=
  match pending_approvals s !! rid with
  | None => (s, false)
  | Some request =>
      let store r := mk (rules s) (<[rid := r]> (pending_approvals s)) in
      if approved then
        let request := set_approved_by (approved_by request ++ [approver_id]) request in
        let request := set_current_approvals (current_approvals request + 1) request in
        if (required_approvers request <=? current_approvals request)%Z then
          (store (set_request_status "APPROVED" request), true)
        else
          (store request, false)
      else
        let request := set_request_status "REJECTED" request in
        let request := set_rejected_by (Some approver_id) request in
        let request := set_rejection_reason reason request in
        (store request, false)
  end.

(** One call of [process_approval]: who decides, the decision, the reason. *)
Definition decision : Type := string * bool * option string.

(** A sequence of [process_approval] calls on one request. *)
Definition process_approvals (s : t) (rid : string) (calls : list decision) : t :=
  fold_left (fun s '(who, approved, why) =>
               fst (process_approval s rid who approved why)) calls s.

Definition status_of (s : t) (rid : string) : option string :=
  request_status <$> pending_approvals s !! rid.

Definition approvals_in (calls : list decision) : Z :=
  Z.of_nat (length (filter (fun c => snd (fst c) = true) calls)).

End RiskGateManager.

(** ** Layer 2: audit trail ([app/governance/audit_trail.py]) *)

Module AuditTrailManager.

Record t : Type := mk {
  audit_logs : Py.pydict AuditLogEntry;
  access_logs : gmap string AccessLog;
  escalation_logs : gmap string EscalationLog;
  api_call_logs : gmap string APICallLog;
  _log_index_by_patient : gmap string (list string);
  _log_index_by_agent : gmap AgentType (list string);
  _log_index_by_session : gmap string (list string)
}.

Definition __init__ : t := mk [] ∅ ∅ ∅ ∅ ∅ ∅.

Definition set_audit_logs (logs : Py.pydict AuditLogEntry) (s : t) : t :=
  mk logs (access_logs s) (escalation_logs s) (api_call_logs s)
    (_log_index_by_patient s) (_log_index_by_agent s) (_log_index_by_session s).

(** Rewrites the fields of an entry that later pipeline stages assign. *)
Definition update_entry (e : AuditLogEntry) (calls : list blob) (ov : bool)
    (ov_by ov_reason : option string) (out : string) (st : ActionStatus)
    (mods : list blob) : AuditLogEntry :=
  mkAuditLogEntry (log_id e) (log_timestamp e) (agent_id e) (log_agent_type e)
    (log_action_type e) (log_patient_id e) (log_parameters e) (log_rationale e)
    (log_confidence_score e) (log_risk_level e) calls ov ov_by ov_reason out st
    mods (log_session_id e) (log_user_id e) (log_ip_address e).

Definition log_action (st : Stamp) (s : t) (a : AgentAction)
    (session_id user_id ip_address : option string) : t * AuditLogEntry :=
  let entry :=
    {| log_id := uuid st; log_timestamp := utcnow st;
       agent_id := agent_value (action_agent_type a) +:+ "_"
                   +:+ Py.take_str 8 (action_id a);
       log_agent_type := action_agent_type a;
       log_action_type := action_type a;
       log_patient_id := action_patient_id a;
       log_parameters := parameters a;
       log_rationale := action_rationale a;
       log_confidence_score := action_confidence_score a;
       log_risk_level := action_risk_level a;
       api_calls := []; human_override := false;
       override_by := None; override_reason := None;
       outcome := ""; log_status := action_status a;
       modifications := [];
       log_session_id := session_id; log_user_id := user_id;
       log_ip_address := ip_address |} in
  let logs := Py.set (log_id entry) entry (audit_logs s) in
  let by_patient :=
    match action_patient_id a with
    | Some pid =>
        if Py.truthy_str pid
        then Py.append_at pid (log_id entry) (_log_index_by_patient s)
        else _log_index_by_patient s
    | None => _log_index_by_patient s
    end in
  let by_agent :=
    Py.append_at (action_agent_type a) (log_id entry) (_log_index_by_agent s) in
  let by_session :=
    match session_id with
    | Some sid =>
        if Py.truthy_str sid
        then Py.append_at sid (log_id entry) (_log_index_by_session s)
        else _log_index_by_session s
    | None => _log_index_by_session s
    end in
  (mk logs (access_logs s) (escalation_logs s) (api_call_logs s)
     by_patient by_agent by_session,
   entry).

(** The loop of [log_api_call]: the first entry, in insertion order, whose
    [agent_id] contains [action_id] or whose [log_id] is [action_id] gets the
    call record appended. *)
Fixpoint attach_api_call (call : blob) (action_id : string)
    (logs : Py.pydict AuditLogEntry) : Py.pydict AuditLogEntry :=
  match logs with
  | [] => []
  | (k, e) :: rest =>
      if Py.contains action_id (agent_id e) || String.eqb (log_id e) action_id
      then (k, update_entry e (api_calls e ++ [call]) (human_override e)
                 (override_by e) (override_reason e) (outcome e) (log_status e)
                 (modifications e)) :: rest
      else (k, e) :: attach_api_call call action_id rest
  end.

Definition log_api_call (s : t) (api_call : APICallLog) (action_id : string)
  : t * string :=
  let call : blob :=
    [("call_id", VStr (call_id api_call));
     ("service", VStr (service_name api_call));
     ("endpoint", VStr (endpoint api_call));
     ("status_code", VInt (status_code api_call));
     ("latency_ms", VFloat (latency_ms api_call));
     ("timestamp", VIso (call_timestamp api_call))] in
  (mk (attach_api_call call action_id (audit_logs s)) (access_logs s)
     (escalation_logs s)
     (<[call_id api_call := api_call]> (api_call_logs s))
     (_log_index_by_patient s) (_log_index_by_agent s) (_log_index_by_session s),
   call_id api_call).

Definition log_access (st : Stamp) (s : t) (user_id user_role patient_id
    resource_type action : string) (success : bool)
    (reason ip_address session_id : option string) : t * AccessLog :=
  let log :=
    {| access_id := uuid st; access_timestamp := utcnow st;
       access_user_id := user_id; user_role := user_role;
       access_patient_id := patient_id; resource_type := resource_type;
       access_action := action; access_success := success;
       access_reason := reason; access_ip_address := ip_address;
       access_session_id := session_id |} in
  (mk (audit_logs s) (<[access_id log := log]> (access_logs s))
     (escalation_logs s) (api_call_logs s)
     (_log_index_by_patient s) (_log_index_by_agent s) (_log_index_by_session s),
   log).

(** [risk_level] arrives as a string and is converted with [RiskLevel(...)],
    which raises before anything is stored. *)
Definition log_escalation (st : Stamp) (s : t) (source_agent : AgentType)
    (action_id reason : string) (confidence_score : Q) (risk_level : string)
    (assigned_to : option string) : Py.result (t * EscalationLog) :=
  let* risk := risk_of_value risk_level in
  let log :=
    {| escalation_id := uuid st; escalation_timestamp := utcnow st;
       source_agent := source_agent; escalation_action_id := action_id;
       escalation_log_reason := reason;
       escalation_confidence_score := confidence_score;
       escalation_risk_level := risk; assigned_to := assigned_to;
       resolved := false; resolution_timestamp := None;
       resolution_action := None; resolved_by := None |} in
  Py.ret
    (mk (audit_logs s) (access_logs s)
       (<[escalation_id log := log]> (escalation_logs s)) (api_call_logs s)
       (_log_index_by_patient s) (_log_index_by_agent s)
       (_log_index_by_session s),
     log).

Definition update_log_outcome (s : t) (lid outcome_ : string)
    (status : ActionStatus) (modifications_ : option (list blob)) : t * bool :=
  match Py.get lid (audit_logs s) with
  | None => (s, false)
  | Some entry =>
      let mods :=
        match modifications_ with
        | Some (m :: ms) => modifications entry ++ m :: ms
        | _ => modifications entry
        end in
      let entry := update_entry entry (api_calls entry) (human_override entry)
                     (override_by entry) (override_reason entry)
                     outcome_ status mods in
      (set_audit_logs (Py.set lid entry (audit_logs s)) s, true)
  end.

Definition record_human_override (now : Z) (s : t)
    (lid override_by_ override_reason_ : string) : t * bool :=
  match Py.get lid (audit_logs s) with
  | None => (s, false)
  | Some entry =>
      let note : blob :=
        [("type", VStr "HUMAN_OVERRIDE"); ("timestamp", VIso now);
         ("by", VStr override_by_); ("reason", VStr override_reason_)] in
      let entry := update_entry entry (api_calls entry) true
                     (Some override_by_) (Some override_reason_)
                     (outcome entry) (log_status entry)
                     (modifications entry ++ [note]) in
      (set_audit_logs (Py.set lid entry (audit_logs s)) s, true)
  end.

Definition resolve_escalation (now : Z) (s : t)
    (eid resolved_by_ resolution_action_ : string) : t * bool :=
  match escalation_logs s !! eid with
  | None => (s, false)
  | Some log =>
      let log :=
        mkEscalationLog (escalation_id log) (escalation_timestamp log)
          (source_agent log) (escalation_action_id log)
          (escalation_log_reason log) (escalation_confidence_score log)
          (escalation_risk_level log) (assigned_to log)
          true (Some now) (Some resolution_action_) (Some resolved_by_) in
      (mk (audit_logs s) (access_logs s) (<[eid := log]> (escalation_logs s))
         (api_call_logs s) (_log_index_by_patient s) (_log_index_by_agent s)
         (_log_index_by_session s),
       true)
  end.

(** The mutating operations of the manager, with their arguments. *)
Inductive op : Type :=
| LogAction (st : Stamp) (a : AgentAction)
    (session_id user_id ip_address : option string)
| LogApiCall (api_call : APICallLog) (action_id : string)
| LogAccess (st : Stamp) (user_id user_role patient_id resource_type
    action : string) (success : bool)
    (reason ip_address session_id : option string)
| LogEscalation (st : Stamp) (source_agent : AgentType)
    (action_id reason : string) (confidence_score : Q) (risk_level : string)
    (assigned_to : option string)
| UpdateLogOutcome (lid outcome_ : string) (status : ActionStatus)
    (modifications_ : option (list blob))
| RecordHumanOverride (now : Z) (lid override_by_ override_reason_ : string)
| ResolveEscalation (now : Z) (eid resolved_by_ resolution_action_ : string).

(** The state after one operation; a call that raises leaves it unchanged. *)
Definition step (s : t) (o : op) : t :=
  match o with
  | LogAction st a sid uid ip => fst (log_action st s a sid uid ip)
  | LogApiCall c aid => fst (log_api_call s c aid)
  | LogAccess st u r p rt a ok why ip sid =>
      fst (log_access st s u r p rt a ok why ip sid)
  | LogEscalation st ag aid why c r who =>
      match log_escalation st s ag aid why c r who with
      | inr (s', _) => s'
      | inl _ => s
      end
  | UpdateLogOutcome lid out st mods => fst (update_log_outcome s lid out st mods)
  | RecordHumanOverride now lid who why =>
      fst (record_human_override now s lid who why)
  | ResolveEscalation now eid who what =>
      fst (resolve_escalation now s eid who what)
  end.

Definition run (ops : list op) : t := fold_left step ops __init__.

(** The ids listed under a key of an index ([dd.get(k, [])]). *)
Definition listed `{Countable K} (k : K) (index : gmap K (list string))
  : list string := default [] (index !! k).

(** Every id an index lists is a key of [audit_logs]. *)
Definition indices_point_to_logs (s : t) : Prop :=
  (∀ pid lid, lid ∈ listed pid (_log_index_by_patient s) →
     is_Some (Py.get lid (audit_logs s))) ∧
  (∀ ag lid, lid ∈ listed ag (_log_index_by_agent s) →
     is_Some (Py.get lid (audit_logs s))) ∧
  (∀ sid lid, lid ∈ listed sid (_log_index_by_session s) →
     is_Some (Py.get lid (audit_logs s))).

(** Every stored entry is listed under its agent type, under its patient id
    and under its session id when it has one ([if action.patient_id:],
    [if session_id:]: a non-empty string). *)
Definition logs_are_indexed (s : t) : Prop :=
  ∀ lid e, Py.get lid (audit_logs s) = Some e →
    log_id e = lid ∧
    lid ∈ listed (log_agent_type e) (_log_index_by_agent s) ∧
    (∀ pid, log_patient_id e = Some pid → Py.truthy_str pid = true →
       lid ∈ listed pid (_log_index_by_patient s)) ∧
    (∀ sid, log_session_id e = Some sid → Py.truthy_str sid = true →
       lid ∈ listed sid (_log_index_by_session s)).

Definition index_integrity (s : t) : Prop :=
  indices_point_to_logs s ∧ logs_are_indexed s.

(** Every [log_action] call of [ops] left its mark in [s]: the id drawn for
    its entry is a key of [audit_logs] and is listed under the action's agent
    type, under the action's patient id and under the call's session id when
    there is one (a non-empty string). *)
Definition logged_actions_are_indexed (ops : list op) (s : t) : Prop :=
  ∀ st a session_id user_id ip_address,
    LogAction st a session_id user_id ip_address ∈ ops →
    is_Some (Py.get (uuid st) (audit_logs s)) ∧
    uuid st ∈ listed (action_agent_type a) (_log_index_by_agent s) ∧
    (∀ pid, action_patient_id a = Some pid → Py.truthy_str pid = true →
       uuid st ∈ listed pid (_log_index_by_patient s)) ∧
    (∀ sid, session_id = Some sid → Py.truthy_str sid = true →
       uuid st ∈ listed sid (_log_index_by_session s)).

(** [[self.audit_logs[lid] for lid in log_ids if lid in self.audit_logs]]. *)
Definition entries_of (s : t) (log_ids : list string) : list AuditLogEntry :=
  omap (fun lid => Py.get lid (audit_logs s)) log_ids.

(** Newest first. *)
Definition get_patient_audit_trail (s : t) (patient_id : string)
  : list AuditLogEntry :=
  Py.sorted_desc log_timestamp
    (entries_of s (listed patient_id (_log_index_by_patient s))).

(** Newest first. *)
Definition get_agent_audit_trail (s : t) (agent_type : AgentType)
  : list AuditLogEntry :=
  Py.sorted_desc log_timestamp
    (entries_of s (listed agent_type (_log_index_by_agent s))).

(** Oldest first. *)
Definition get_session_audit_trail (s : t) (session_id : string)
  : list AuditLogEntry :=
  Py.sorted_asc log_timestamp
    (entries_of s (listed session_id (_log_index_by_session s))).

(** One element of the ["entries"] list of an exported report. *)
Record ExportRow : Type := mkExportRow {
  row_log_id : string;
  row_timestamp : Z;
  row_agent_type : string;
  row_action_type : string;
  row_patient_id : option string;
  row_risk_level : string;
  row_confidence_score : Q;
  row_status : string;
  row_human_override : bool;
  api_calls_count : nat
}.

Definition export_row (l : AuditLogEntry) : ExportRow :=
  {| row_log_id := log_id l; row_timestamp := log_timestamp l;
     row_agent_type := agent_value (log_agent_type l);
     row_action_type := log_action_type l;
     row_patient_id := log_patient_id l;
     row_risk_level := risk_value (log_risk_level l);
     row_confidence_score := log_confidence_score l;
     row_status := status_value (log_status l);
     row_human_override := human_override l;
     api_calls_count := length (api_calls l) |}.

Record AuditReport : Type := mkAuditReport {
  report_generated : Z;
  total_entries : nat;
  date_range : option Z * option Z;
  report_filters : option string * option string;
  entries : list ExportRow
}.

(** The entries that pass the filters of [export_audit_report].  A date or an
    agent type filters when given; a patient id filters when it is a
    non-empty string ([if patient_id:]). *)
Definition exported_logs (s : t) (start_date end_date : option Z)
    (patient_id : option string) (agent_type : option AgentType)
  : list AuditLogEntry :=
  let logs := Py.values (audit_logs s) in
  let logs :=
    match start_date with
    | Some d => filter (fun l => (d ≤ log_timestamp l)%Z) logs
    | None => logs
    end in
  let logs :=
    match end_date with
    | Some d => filter (fun l => (log_timestamp l ≤ d)%Z) logs
    | None => logs
    end in
  let logs :=
    match patient_id with
    | Some pid =>
        if Py.truthy_str pid
        then filter (fun l => log_patient_id l = Some pid) logs
        else logs
    | None => logs
    end in
  match agent_type with
  | Some ag => filter (fun l => log_agent_type l = ag) logs
  | None => logs
  end.

Definition export_audit_report (now : Z) (s : t) (start_date end_date : option Z)
    (patient_id : option string) (agent_type : option AgentType) : AuditReport :=
  let logs := exported_logs s start_date end_date patient_id agent_type in
  {| report_generated := now;
     total_entries := length logs;
     date_range := (start_date, end_date);
     report_filters := (patient_id, agent_value <$> agent_type);
     entries := export_row <$> Py.sorted_asc log_timestamp logs |}.

Record Statistics : Type := mkStatistics {
  total_audit_logs : nat;
  total_access_logs : nat;
  total_escalations : nat;
  pending_escalations : nat;
  total_api_calls : nat;
  human_overrides : nat;
  by_agent_type : Py.pydict nat;
  by_risk_level : Py.pydict nat;
  by_status : Py.pydict nat
}.

(** One iteration of the counting loop of [get_statistics]. *)
Definition tally (acc : Py.pydict nat * Py.pydict nat * Py.pydict nat * nat)
    (log : AuditLogEntry) : Py.pydict nat * Py.pydict nat * Py.pydict nat * nat :=
  let '(by_agent, by_risk, by_status_, overrides) := acc in
  (Py.incr (agent_value (log_agent_type log)) by_agent,
   Py.incr (risk_value (log_risk_level log)) by_risk,
   Py.incr (status_value (log_status log)) by_status_,
   if human_override log then (overrides + 1)%nat else overrides).

(** [len(self.get_pending_escalations())]: the number of stored escalations
    not yet resolved. *)
Definition pending_escalation_count (s : t) : nat :=
  size (filter (fun kv => resolved kv.2 = false) (escalation_logs s)).

Definition get_statistics (s : t) : Statistics :=
  let '(by_agent, by_risk, by_status_, overrides) :=
    fold_left tally (Py.values (audit_logs s)) ([], [], [], 0%nat) in
  {| total_audit_logs := length (audit_logs s);
     total_access_logs := size (access_logs s);
     total_escalations := size (escalation_logs s);
     pending_escalations := pending_escalation_count s;
     total_api_calls := size (api_call_logs s);
     human_overrides := overrides;
     by_agent_type := by_agent;
     by_risk_level := by_risk;
     by_status := by_status_ |}.

End AuditTrailManager.

(** ** Layer 3: role-based access control ([app/governance/rbac.py]) *)

Module RBACManager.

Record t : Type := mk {
  users : gmap string User;
  permissions : gmap string RBACPermission;
  _permission_cache : gmap (UserRole * AgentType) RBACPermission
}.

(** One row of [permission_matrix]. *)
Record matrix_row : Type := mkRow {
  row_agents : list AgentType;
  row_read : bool;
  row_write : bool;
  row_approve : bool;
  row_admin : bool;
  row_actions : list string
}.

Definition permission_matrix : list (UserRole * matrix_row) :=
  [ (SYSTEM_ADMIN,
      mkRow all_agent_types true true true true ["*"]);
    (CLINICAL_DIRECTOR,
      mkRow [ORCHESTRATOR; INTAKE; CARE_PLANNING; MEDICATION; DOCUMENTATION;
             COMPLIANCE; FAMILY_COMMUNICATION; SCHEDULING]
        true true true false ["*"]);
    (NURSE_MANAGER,
      mkRow [INTAKE; CARE_PLANNING; DOCUMENTATION; FAMILY_COMMUNICATION;
             SCHEDULING]
        true true false false
        ["view_patient"; "update_care_plan"; "create_documentation";
         "send_communication"; "schedule_appointment"]);
    (CARE_COORDINATOR,
      mkRow [FAMILY_COMMUNICATION; SCHEDULING]
        true true false false
        ["view_schedule"; "create_appointment"; "send_reminder";
         "contact_family"; "update_contact_info"]);
    (BILLING_STAFF,
      mkRow [BILLING]
        true true false false
        ["view_claims"; "submit_claim"; "process_payment";
         "generate_invoice"; "view_documentation"]);
    (FAMILY_PORTAL,
      mkRow [FAMILY_COMMUNICATION; SCHEDULING]
        true false false false
        ["view_appointments"; "view_care_updates"; "send_message"]) ].

(** The (role, agent type) pairs in the order the nested loops visit them. *)
Definition matrix_cells : list (UserRole * AgentType * matrix_row) :=
  flat_map (fun '(r, row) => map (fun ag => (r, ag, row)) (row_agents row))
    permission_matrix.

(** [draw k] is the id of the [k]-th permission built. *)
Definition _initialize_default_permissions (draw : nat -> string) (s : t) : t :=
  fold_left
    (fun s '(k, (r, ag, row)) =>
       let perm :=
         {| permission_id := draw k; permission_role := r;
            permission_agent_type := ag; allowed_actions := row_actions row;
            read_access := row_read row; write_access := row_write row;
            approve_access := row_approve row; admin_access := row_admin row |} in
       mk (users s) (<[permission_id perm := perm]> (permissions s))
         (<[(r, ag) := perm]> (_permission_cache s)))
    (imap (fun k c => (k, c)) matrix_cells) s.

Definition __init__ (draw : nat -> string) : t :=
  _initialize_default_permissions draw (mk ∅ ∅ ∅).

Definition set_users (us : gmap string User) (s : t) : t :=
  mk us (permissions s) (_permission_cache s).

Definition register_user (s : t) (user : User) : t * string :=
  (set_users (<[user_id user := user]> (users s)) s, user_id user).

Definition get_user (s : t) (uid : string) : option User := users s !! uid.

Definition check_permission (s : t) (uid : string) (agent_type : AgentType)
    (action : string) (require_write require_approve : bool) : bool * string :=
  match users s !! uid with
  | None => (false, "User not found")
  | Some user =>
      if negb (is_active user) then (false, "User account is inactive")
      else if Py.mem action (permissions_override user) then
        (true, "Permission granted via override")
      else
        match _permission_cache s !! (role user, agent_type) with
        | None =>
            (false, "No permission defined for " +:+ role_value (role user)
                    +:+ " on " +:+ agent_value agent_type)
        | Some permission =>
            if negb (read_access permission) then
              (false, "No read access to this agent")
            else if require_write && negb (write_access permission) then
              (false, "Write access required but not granted")
            else if require_approve && negb (approve_access permission) then
              (false, "Approval access required but not granted")
            else if negb (Py.mem "*" (allowed_actions permission))
                    && negb (Py.mem action (allowed_actions permission)) then
              (false, "Action '" +:+ action +:+ "' not in allowed actions")
            else (true, "Permission granted")
        end
  end.

Definition check_patient_access (s : t) (uid patient_id access_type : string)
  : bool * string :=
  match users s !! uid with
  | None => (false, "User not found")
  | Some user =>
      if negb (is_active user) then (false, "User account is inactive")
      else if bool_decide (role user = SYSTEM_ADMIN) then (true, "Admin access")
      else if bool_decide (role user = CLINICAL_DIRECTOR) then
        (true, "Clinical director access")
      else if bool_decide (role user ∈ [NURSE_MANAGER; CARE_COORDINATOR]) then
        (true, "Care team access")
      else if bool_decide (role user = BILLING_STAFF) then
        if Py.mem access_type ["VIEW"; "BILLING"] then
          (true, "Billing access for claims processing")
        else (false, "Billing staff limited to billing-related access")
      else if bool_decide (role user = FAMILY_PORTAL) then
        (true, "Family portal access (limited view)")
      else (false, "Access denied")
  end.

Definition set_is_active (b : bool) (u : User) : User :=
  mkUser (user_id u) (username u) (email u) (role u) (department u) b
    (user_created_at u) (last_login u) (permissions_override u).

Definition set_permissions_override (ov : list string) (u : User) : User :=
  mkUser (user_id u) (username u) (email u) (role u) (department u)
    (is_active u) (user_created_at u) (last_login u) ov.

Definition grant_permission_override (s : t) (uid action granted_by : string)
  : t * bool :=
  match users s !! uid, users s !! granted_by with
  | Some user, Some granter =>
      if negb (bool_decide (role granter ∈ [SYSTEM_ADMIN; CLINICAL_DIRECTOR]))
      then (s, false)
      else if negb (Py.mem action (permissions_override user)) then
        (set_users
           (<[uid := set_permissions_override
                       (permissions_override user ++ [action]) user]> (users s))
           s,
         true)
      else (s, true)
  | _, _ => (s, false)
  end.

Definition deactivate_user (s : t) (uid : string) : t * bool :=
  match users s !! uid with
  | None => (s, false)
  | Some user => (set_users (<[uid := set_is_active false user]> (users s)) s, true)
  end.

Definition activate_user (s : t) (uid : string) : t * bool :=
  match users s !! uid with
  | None => (s, false)
  | Some user => (set_users (<[uid := set_is_active true user]> (users s)) s, true)
  end.

Definition revoke_permission_override (s : t) (uid action : string) : t * bool :=
  match users s !! uid with
  | None => (s, false)
  | Some user =>
      if Py.mem action (permissions_override user) then
        (set_users
           (<[uid := set_permissions_override
                       (Py.remove_first action (permissions_override user))
                       user]> (users s))
           s,
         true)
      else (s, false)
  end.

End RBACManager.

(** ** Layer 5: bias monitoring ([app/governance/bias_monitor.py]) *)

Module BiasMonitor.

(** One appended [record] dict of [action_records]. *)
Record record : Type := mkRecord {
  rec_timestamp : Z;
  rec_agent_type : string;
  rec_action_type : string;
  demographics : Py.pydict string;
  rec_outcome : string;
  outcome_value : option Q;
  metadata : blob
}.

Record t : Type := mk {
  disparate_impact_threshold : Q;
  metrics : gmap string BiasMetric;
  compliance_events : gmap string ComplianceEvent;
  action_records : gmap string (list record);
  demographic_outcomes : gmap string (gmap string (list Q))
}.

Definition __init__ (threshold : Q) : t := mk threshold ∅ ∅ ∅ ∅.

(** [f"{agent_type.value}_{action_type}"]. *)
Definition record_key (agent_type : AgentType) (action_type_ : string) : string :=
  agent_value agent_type +:+ "_" +:+ action_type_.

Definition record_action_outcome (now : Z) (s : t) (agent_type : AgentType)
    (action_type_ : string) (patient_demographics : Py.pydict string)
    (outcome_ : string) (value : option Q) (metadata_ : option blob) : t :=
  let rec_ :=
    {| rec_timestamp := now; rec_agent_type := agent_value agent_type;
       rec_action_type := action_type_; demographics := patient_demographics;
       rec_outcome := outcome_; outcome_value := value;
       metadata := default [] metadata_ |} in
  let key := record_key agent_type action_type_ in
  let by_group :=
    fold_left
      (fun outs '(dim, v) =>
         let outcome_key := key +:+ "_" +:+ dim +:+ "_" +:+ v in
         match value with
         | Some x =>
             <[key := Py.append_at outcome_key x (default ∅ (outs !! key))]> outs
         | None => outs
         end)
      patient_demographics (demographic_outcomes s) in
  mk (disparate_impact_threshold s) (metrics s) (compliance_events s)
    (Py.append_at key rec_ (action_records s)) by_group.

(** The value a record contributes: its [outcome_value], else 1.0 for a
    ["POSITIVE"] outcome and 0.0 otherwise. *)
Definition value_of (r : record) : Q :=
  match outcome_value r with
  | Some v => v
  | None => if String.eqb (rec_outcome r) "POSITIVE" then 1.0 else 0.0
  end.

(** One iteration of the loop that sorts the records of a key into
    [protected_outcomes] and [reference_outcomes]. *)
Definition split_step (dimension_ protected_group reference_group : string)
    (acc : list Q * list Q) (r : record) : list Q * list Q :=
  let '(protected_outcomes, reference_outcomes) := acc in
  let demo_value := Py.get dimension_ (demographics r) in
  if bool_decide (demo_value = Some protected_group)
  then (protected_outcomes ++ [value_of r], reference_outcomes)
  else if bool_decide (demo_value = Some reference_group)
  then (protected_outcomes, reference_outcomes ++ [value_of r])
  else (protected_outcomes, reference_outcomes).

Definition split_outcomes (dimension_ protected_group reference_group : string)
    (records : list record) : list Q * list Q :=
  fold_left (split_step dimension_ protected_group reference_group)
    records ([], []).

(** The samples of a group: the records whose [dimension] entry is the
    group. *)
Definition samples_of (dimension_ group : string) (records : list record)
  : list record :=
  filter (fun r => Py.get dimension_ (demographics r) = Some group) records.

(** The first loop of [calculate_demographic_parity]: the values of each
    group of a dimension, groups in order of first appearance; a record whose
    group is missing or empty is skipped ([if group:]). *)
Definition group_outcomes (dimension_ : string) (records : list record)
  : Py.pydict (list Q) :=
  fold_left
    (fun groups r =>
       match Py.get dimension_ (demographics r) with
       | Some group =>
           if Py.truthy_str group then Py.push group (value_of r) groups
           else groups
       | None => groups
       end)
    records [].

(** The second loop: [rates[group] = statistics.mean(outcomes)] for every
    group with outcomes. *)
Definition rates_of (groups : Py.pydict (list Q)) : Py.result (Py.pydict Q) :=
  fold_left
    (fun acc '(group, outcomes) =>
       let* rates := acc in
       match outcomes with
       | [] => Py.ret rates
       | _ => let* m := Py.mean outcomes in Py.ret (Py.set group m rates)
       end)
    groups (Py.ret []).

Definition calculate_demographic_parity (s : t) (agent_type : AgentType)
    (action_type_ dimension_ : string) : Py.result (Py.pydict Q) :=
  let records :=
    default [] (action_records s !! record_key agent_type action_type_) in
  rates_of (group_outcomes dimension_ records).

Definition update_compliance_event (s : t) (eid status : string)
    (assigned_to_ : option string) : t * bool :=
  match compliance_events s !! eid with
  | None => (s, false)
  | Some event =>
      let who :=
        match assigned_to_ with
        | Some w => if Py.truthy_str w then Some w else event_assigned_to event
        | None => event_assigned_to event
        end in
      let event :=
        mkComplianceEvent (event_id event) (event_timestamp event)
          (event_type event) (severity event) (description event)
          (affected_patients event) (affected_agents event)
          (remediation_required event) (Some status)
          (remediation_deadline event) who in
      (mk (disparate_impact_threshold s) (metrics s)
         (<[eid := event]> (compliance_events s)) (action_records s)
         (demographic_outcomes s),
       true)
  end.

Section FloatLibrary.

(** What the Python library supplies and the rationals cannot compute:
    [statistics.stdev] (a square root) and the two float formats used in the
    event description ([f"{x:.3f}"] and [f"{x}"]). *)
Variable stdev : list Q -> Py.result Q.
Variable format_3f : Py.pyfloat -> string.
Variable format_float : Q -> string.

Definition _create_compliance_event (st : Stamp) (s : t) (metric : BiasMetric)
  : t :=
  let event :=
    {| event_id := uuid st; event_timestamp := utcnow st;
       event_type := "BIAS_DETECTED"; severity := "WARNING";
       description :=
         "Disparate impact detected in " +:+ agent_value (metric_agent_type metric)
         +:+ " " +:+ metric_action_type metric +:+ " for " +:+ dimension metric
         +:+ ". Ratio: " +:+ format_3f (disparity_ratio metric)
         +:+ " (threshold: " +:+ format_float (disparate_impact_threshold s)
         +:+ ")";
       affected_patients := [];
       affected_agents := [metric_agent_type metric];
       remediation_required := true; remediation_status := Some "PENDING";
       remediation_deadline := None; event_assigned_to := None |} in
  mk (disparate_impact_threshold s) (metrics s)
    (<[event_id event := event]> (compliance_events s))
    (action_records s) (demographic_outcomes s).

(** [st_metric] and [st_event] are the draws for the metric and for the
    compliance event.  The result is the monitor and the returned metric, or
    the exception that escapes. *)
Definition calculate_disparate_impact (st_metric st_event : Stamp) (s : t)
    (agent_type : AgentType) (action_type_ dimension_ protected_group
    reference_group : string) : Py.result (t * option BiasMetric) :=
  let key := record_key agent_type action_type_ in
  let records := default [] (action_records s !! key) in
  if (length records <? 10)%nat then Py.ret (s, None)
  else
    let '(protected_outcomes, reference_outcomes) :=
      split_outcomes dimension_ protected_group reference_group records in
    if (length protected_outcomes <? 5)%nat
       || (length reference_outcomes <? 5)%nat
    then Py.ret (s, None)
    else
      let* protected_rate := Py.mean protected_outcomes in
      let* reference_rate := Py.mean reference_outcomes in
      let* ratio :=
        if Qeq_bool reference_rate 0 then
          Py.ret (if Qeq_bool protected_rate 0 then Py.Fin 1.0 else Py.Inf)
        else Py.fdiv protected_rate reference_rate in
      let exceeded := Py.flt ratio (disparate_impact_threshold s) in
      let interval :=
        match
          (let* protected_stdev :=
             if (1 <? length protected_outcomes)%nat
             then stdev protected_outcomes else Py.ret 0%Q in
           let* reference_stdev :=
             if (1 <? length reference_outcomes)%nat
             then stdev reference_outcomes else Py.ret 0%Q in
           let spread :=
             Py.fmul 1.96 (Py.Qmax protected_stdev reference_stdev) in
           Py.ret (Py.fsub ratio spread, Py.fadd ratio spread))
        with
        | inr ci => ci
        | inl _ => (ratio, ratio)
        end in
      let metric :=
        {| metric_id := uuid st_metric; metric_timestamp := utcnow st_metric;
           metric_type := "DISPARATE_IMPACT"; dimension := dimension_;
           metric_agent_type := agent_type; metric_action_type := action_type_;
           baseline_rate := reference_rate; observed_rate := protected_rate;
           disparity_ratio := ratio; threshold_exceeded := exceeded;
           sample_size := length protected_outcomes + length reference_outcomes;
           confidence_interval := interval;
           metric_details :=
             [("protected_group", VStr protected_group);
              ("reference_group", VStr reference_group);
              ("protected_count", VInt (Z.of_nat (length protected_outcomes)));
              ("reference_count", VInt (Z.of_nat (length reference_outcomes)))]
        |} in
      let s := mk (disparate_impact_threshold s)
                 (<[metric_id metric := metric]> (metrics s))
                 (compliance_events s) (action_records s)
                 (demographic_outcomes s) in
      let s := if exceeded then _create_compliance_event st_event s metric
               else s in
      Py.ret (s, Some metric).

End FloatLibrary.

End BiasMonitor.

(** ** The unified engine ([app/governance/governance_engine.py]) *)

Module GovernanceEngine.

(** A registered handler receives the action object, may mutate it, and
    returns a result dict or raises; [inl msg] is an exception [e] with
    [str(e) = msg]. *)
Definition handler : Type := AgentAction -> AgentAction * (string + HandlerResult).

(** A pre-execution hook receives the action object; what it raises is
    logged and dropped, what it mutated stays. *)
Definition pre_hook : Type := AgentAction -> AgentAction.

(** A post-execution hook receives the action and the result dict. *)
Definition post_hook : Type :=
  AgentAction -> HandlerResult -> AgentAction * HandlerResult.

(** The draws of one [process_action] call, one per object it may build. *)
Record Draws : Type := mkDraws {
  d_log : Stamp;
  d_access : Stamp;
  d_escalation : Stamp;
  d_request : Stamp
}.

Section Engine.

(** [app/governance/fallback.py] is not among the sources.  The fallback
    manager is a parameter: its state, and the two methods [process_action]
    calls, each free to mutate the manager and the action it is handed.
    [evaluate_action] returns [(should_escalate, trigger, reason)] and
    [trigger_escalation] returns the escalation id. *)
Context {FallbackManager EscalationTrigger : Type}.
Variable evaluate_action :
  FallbackManager -> AgentAction ->
  FallbackManager * AgentAction * (bool * option EscalationTrigger * option string).
Variable trigger_escalation :
  FallbackManager -> AgentAction -> EscalationTrigger -> string ->
  FallbackManager * AgentAction * string.

Record t : Type := mk {
  config : GovernanceConfig;
  risk_gates : RiskGateManager.t;
  audit_trail : AuditTrailManager.t;
  rbac : RBACManager.t;
  fallback : FallbackManager;
  bias_monitor : BiasMonitor.t;
  _action_handlers : gmap string handler;
  _pre_execution_hooks : list pre_hook;
  _post_execution_hooks : list post_hook
}.

(** [fb] is the fallback manager as [__init__] leaves it (built from the
    configured threshold, with the logging callback registered). *)
Definition __init__ (cfg : GovernanceConfig) (draw_rule : nat -> Stamp)
    (draw_permission : nat -> string) (fb : FallbackManager) : t :=
  mk cfg (RiskGateManager.__init__ draw_rule) AuditTrailManager.__init__
    (RBACManager.__init__ draw_permission) fb
    (BiasMonitor.__init__ (bias_threshold cfg)) ∅ [] [].

Definition set_audit_trail (trail : AuditTrailManager.t) (s : t) : t :=
  mk (config s) (risk_gates s) trail (rbac s) (fallback s) (bias_monitor s)
    (_action_handlers s) (_pre_execution_hooks s) (_post_execution_hooks s).

Definition set_risk_gates (gates : RiskGateManager.t) (s : t) : t :=
  mk (config s) gates (audit_trail s) (rbac s) (fallback s) (bias_monitor s)
    (_action_handlers s) (_pre_execution_hooks s) (_post_execution_hooks s).

Definition set_fallback (fb : FallbackManager) (s : t) : t :=
  mk (config s) (risk_gates s) (audit_trail s) (rbac s) fb (bias_monitor s)
    (_action_handlers s) (_pre_execution_hooks s) (_post_execution_hooks s).

Definition set_rbac (r : RBACManager.t) (s : t) : t :=
  mk (config s) (risk_gates s) (audit_trail s) r (fallback s) (bias_monitor s)
    (_action_handlers s) (_pre_execution_hooks s) (_post_execution_hooks s).

Definition handler_key (agent_type : AgentType) (action_type_ : string) : string :=
  agent_value agent_type +:+ "_" +:+ action_type_.

Definition register_action_handler (s : t) (agent_type : AgentType)
    (action_type_ : string) (h : handler) : t :=
  mk (config s) (risk_gates s) (audit_trail s) (rbac s) (fallback s)
    (bias_monitor s)
    (<[handler_key agent_type action_type_ := h]> (_action_handlers s))
    (_pre_execution_hooks s) (_post_execution_hooks s).

Definition add_pre_execution_hook (s : t) (hook : pre_hook) : t :=
  mk (config s) (risk_gates s) (audit_trail s) (rbac s) (fallback s)
    (bias_monitor s) (_action_handlers s)
    (_pre_execution_hooks s ++ [hook]) (_post_execution_hooks s).

Definition add_post_execution_hook (s : t) (hook : post_hook) : t :=
  mk (config s) (risk_gates s) (audit_trail s) (rbac s) (fallback s)
    (bias_monitor s) (_action_handlers s)
    (_pre_execution_hooks s) (_post_execution_hooks s ++ [hook]).

Definition _execute_action (s : t) (a : AgentAction)
  : AgentAction * HandlerResult :=
  match _action_handlers s !! handler_key (action_agent_type a) (action_type a) with
  | Some h =>
      match h a with
      | (a', inr r) => (a', r)
      | (a', inl msg) => (a', mkHandlerResult (Some false) (Some msg) [])
      end
  | None =>
      (a, mkHandlerResult (Some true) None
            [("message", VStr "Action processed (no specific handler)")])
  end.

(** The subject-access check of [process_action]: the denial reason when the
    action has a (non-empty) patient id and [check_patient_access] for
    ["WRITE"] refuses. *)
Definition patient_access_denial (s : t) (a : AgentAction) (uid : string)
  : option (string * string) :=
  match action_patient_id a with
  | Some pid =>
      if Py.truthy_str pid then
        let '(has_access, access_reason) :=
          RBACManager.check_patient_access (rbac s) uid pid "WRITE" in
        if negb has_access then Some (pid, access_reason) else None
      else None
  | None => None
  end.

Definition process_action (d : Draws) (s : t) (a : AgentAction) (uid : string)
    (session_id ip_address : option string) : Py.result (t * AgentResponse) :=
  let '(has_permission, reason) :=
    RBACManager.check_permission (rbac s) uid (action_agent_type a)
      (action_type a) true false in
  if negb has_permission then
    let a := set_action_status REJECTED a in
    let '(trail, _) :=
      AuditTrailManager.log_action (d_log d) (audit_trail s) a session_id
        (Some uid) ip_address in
    Py.ret (set_audit_trail trail s,
            mkAgentResponse false a None
              (Some ("Permission denied: " +:+ reason)) false None)
  else
    match patient_access_denial s a uid with
    | Some (pid, access_reason) =>
        let a := set_action_status REJECTED a in
        let role_ :=
          match RBACManager.get_user (rbac s) uid with
          | Some u => role_value (role u)
          | None => "UNKNOWN"
          end in
        let '(trail, _) :=
          AuditTrailManager.log_access (d_access d) (audit_trail s) uid role_
            pid (action_type a) "WRITE" false (Some access_reason) ip_address
            session_id in
        Py.ret (set_audit_trail trail s,
                mkAgentResponse false a None
                  (Some ("Patient access denied: " +:+ access_reason))
                  false None)
    | None =>
        let a := set_action_risk_level (RiskGateManager.classify_risk a) a in
        let '(fb, a, (should_escalate, trigger, escalation_reason_)) :=
          evaluate_action (fallback s) a in
        let s := set_fallback fb s in
        match should_escalate, trigger with
        | true, Some trg =>
            let why := Py.str_or escalation_reason_ "Automatic escalation" in
            let '(fb, a, eid) := trigger_escalation (fallback s) a trg why in
            let s := set_fallback fb s in
            let* (trail, _) :=
              AuditTrailManager.log_escalation (d_escalation d) (audit_trail s)
                (action_agent_type a) (action_id a) why
                (action_confidence_score a)
                (risk_value (action_risk_level a)) None in
            let '(trail, _) :=
              AuditTrailManager.log_action (d_log d) trail a session_id
                (Some uid) ip_address in
            Py.ret (set_audit_trail trail s,
                    mkAgentResponse false a (Some (EscalationResult eid)) None
                      true escalation_reason_)
        | _, _ =>
            let* (gates, a, (can_proceed, approval_request)) :=
              RiskGateManager.evaluate_gate (d_request d) (risk_gates s) a in
            let s := set_risk_gates gates s in
            let '(trail, audit_entry) :=
              AuditTrailManager.log_action (d_log d) (audit_trail s) a
                session_id (Some uid) ip_address in
            let s := set_audit_trail trail s in
            if negb can_proceed then
              match approval_request with
              | Some request =>
                  Py.ret (s,
                          mkAgentResponse false a
                            (Some (ApprovalQueued (request_id request)
                                     (required_approvers request)
                                     "AWAITING_APPROVAL"))
                            None false None)
              | None =>
                  Py.ret (s,
                          mkAgentResponse false a None
                            (Some "Action blocked by risk gate") false None)
              end
            else
              let a := fold_left (fun a hook => hook a)
                         (_pre_execution_hooks s) a in
              let '(a, res) := _execute_action s a in
              let '(a, res) :=
                fold_left (fun '(a, res) hook => hook a res)
                  (_post_execution_hooks s) (a, res) in
              if default true (hr_success res) then
                let a := set_action_status COMPLETED a in
                let '(trail, _) :=
                  AuditTrailManager.update_log_outcome (audit_trail s)
                    (log_id audit_entry) "SUCCESS" COMPLETED None in
                Py.ret (set_audit_trail trail s,
                        mkAgentResponse (default true (hr_success res)) a
                          (Some (ExecutionResult res)) None false None)
              else
                let a := set_action_status FAILED a in
                let '(trail, _) :=
                  AuditTrailManager.update_log_outcome (audit_trail s)
                    (log_id audit_entry) (default "FAILED" (hr_error res))
                    FAILED None in
                Py.ret (set_audit_trail trail s,
                        mkAgentResponse (default true (hr_success res)) a
                          (Some (ExecutionResult res)) None false None)
        end
    end.

(** The audit store of the engine. *)
Definition audit_entries (s : t) : Py.pydict AuditLogEntry :=
  AuditTrailManager.audit_logs (audit_trail s).

(** The call added exactly one entry to the audit store, and its status is
    the status of the action returned. *)
Definition one_matching_entry (s s' : t) (resp : AgentResponse) : Prop :=
  ∃ e, audit_entries s' = audit_entries s ++ [(log_id e, e)] ∧
       log_status e = action_status (action resp).

(** The subject-access denial branch is the one taken: the permission check
    passes and the patient-access check refuses. *)
Definition subject_access_denied (s : t) (a : AgentAction) (uid : string) : bool :=
  fst (RBACManager.check_permission (rbac s) uid (action_agent_type a)
         (action_type a) true false)
  && bool_decide (is_Some (patient_access_denial s a uid)).

(** The call added no audit entry and one failed-access record. *)
Definition one_access_denial (d : Draws) (s s' : t) (resp : AgentResponse)
  : Prop :=
  audit_entries s' = audit_entries s ∧
  action_status (action resp) = REJECTED ∧
  ∃ log, AuditTrailManager.access_logs (audit_trail s')
         = <[uuid (d_access d) := log]>
             (AuditTrailManager.access_logs (audit_trail s)) ∧
         access_success log = false.

End Engine.

Arguments t : clear implicits.

(** Approval resolution and human override: the methods of the engine besides
    [process_action].  They live in a module of their own because
    [human_override] is also the name of a field of [AuditLogEntry]. *)
Module Oversight.

Section Oversight.

Context {FallbackManager : Type}.
Implicit Types s : t FallbackManager.

(** [AgentAction(agent_type=..., action_type=...)] with the model's defaults;
    [st] is the draw for its id and time. *)
Definition placeholder_action (st : Stamp) : AgentAction :=
  {| action_id := uuid st; action_agent_type := ORCHESTRATOR;
     action_type := "process_approval"; parameters := [];
     action_patient_id := None; action_risk_level := LOW;
     action_confidence_score := 1.0; action_rationale := "";
     action_status := PENDING; requires_approval := false;
     action_approved_by := None; action_timestamp := utcnow st |}.

(** The action rebuilt from an approved request. *)
Definition original_action (st : Stamp) (request : ApprovalRequest) : AgentAction :=
  {| action_id := request_action_id request;
     action_agent_type := request_agent_type request;
     action_type := request_action_type request;
     parameters := details request;
     action_patient_id := request_patient_id request;
     action_risk_level := request_risk_level request;
     action_confidence_score := request_confidence_score request;
     action_rationale := ""; action_status := APPROVED;
     requires_approval := false; action_approved_by := None;
     action_timestamp := utcnow st |}.

Definition _check_approver_permission s (approver_id rid : string)
  : bool * string :=
  match RiskGateManager.pending_approvals (risk_gates s) !! rid with
  | None => (false, "Request not found")
  | Some request =>
      RBACManager.check_permission (rbac s) approver_id
        (request_agent_type request) "approve" false true
  end.

(** [st] is the draw for the one action object the call builds. *)
Definition process_approval (st : Stamp) s (rid approver_id : string)
    (approved : bool) (reason : option string)
  : t FallbackManager * AgentResponse :=
  let '(has_permission, perm_reason) :=
    _check_approver_permission s approver_id rid in
  if negb has_permission then
    (s, mkAgentResponse false (placeholder_action st) None
          (Some ("Approver not authorized: " +:+ perm_reason)) false None)
  else
    let '(gates, fully) :=
      RiskGateManager.process_approval (risk_gates s) rid approver_id
        approved reason in
    let s := set_risk_gates gates s in
    let request := RiskGateManager.pending_approvals (risk_gates s) !! rid in
    match request with
    | Some r =>
        if String.eqb (request_status r) "APPROVED" then
          let '(a, execution_result) :=
            _execute_action s (original_action st r) in
          (s, mkAgentResponse (default true (hr_success execution_result)) a
                (Some (ExecutionResult execution_result)) None false None)
        else
          (s, mkAgentResponse fully (placeholder_action st)
                (Some (ApprovalDecision rid (request_status r) approved))
                None false None)
    | None =>
        (s, mkAgentResponse fully (placeholder_action st)
              (Some (ApprovalDecision rid "NOT_FOUND" approved))
              None false None)
    end.

(** The first entry, in insertion order, whose [agent_id] contains
    [action_id] receives the override. *)
Definition human_override (now : Z) s
    (action_id_ override_by_ override_reason_ : string)
  : t FallbackManager * bool :=
  match List.find (fun kv => Py.contains action_id_ (agent_id kv.2))
          (AuditTrailManager.audit_logs (audit_trail s)) with
  | Some (lid, _) =>
      let '(trail, ok) :=
        AuditTrailManager.record_human_override now (audit_trail s) lid
          override_by_ override_reason_ in
      (set_audit_trail trail s, ok)
  | None => (s, false)
  end.

End Oversight.

End Oversight.

End GovernanceEngine.

(** * Statements and sample inputs *)

(** The postconditions below phrase what the specification promises of
    [process_approval]: after two approvals of a two-approver request, a third
    approving call is a no-op; and a rejection is never undone. *)
Module Statements.
Import RiskGateManager.

(** The fields of the request under [rid] that a no-op must leave alone. *)
Definition consensus_fields (s : t) (rid : string)
  : option (string * list string * Z) :=
  (fun r => (request_status r, approved_by r, current_approvals r))
    <$> pending_approvals s !! rid.

Definition third_approval_is_noop (s : t) (rid a1 a2 a3 : string) : Prop :=
  let s1 := fst (process_approval s rid a1 true None) in
  let s2 := fst (process_approval s1 rid a2 true None) in
  snd (process_approval s rid a1 true None) = false ∧
  snd (process_approval s1 rid a2 true None) = true ∧
  consensus_fields (fst (process_approval s2 rid a3 true None)) rid
  = consensus_fields s2 rid ∧
  snd (process_approval s2 rid a3 true None) = false.

Definition rejection_is_terminal (s : t) (rid : string) : Prop :=
  ∀ req who why calls,
    pending_approvals s !! rid = Some req →
    (current_approvals req < required_approvers req)%Z →
    status_of (process_approvals (fst (process_approval s rid who false why))
                 rid calls) rid
    = Some "REJECTED".

(** The four default rules were stored under four different ids. *)
Definition distinct_rule_ids (draw : nat -> Stamp) : Prop :=
  NoDup (map (fun k => uuid (draw k)) [0; 1; 2; 3]%nat).

End Statements.

Module Samples.

Definition rule_draw (k : nat) : Stamp := mkStamp ("rule-" +:+ pretty k) 0.
Definition permission_draw (k : nat) : string := "perm-" +:+ pretty k.

Definition new_action (id : string) (agent : AgentType) (kind : string)
    (patient : option string) (risk : RiskLevel) (confidence : Q) : AgentAction :=
  {| action_id := id; action_agent_type := agent; action_type := kind;
     parameters := []; action_patient_id := patient; action_risk_level := risk;
     action_confidence_score := confidence; action_rationale := "";
     action_status := PENDING; requires_approval := false;
     action_approved_by := None; action_timestamp := 0 |}.

Definition code_blue : AgentAction :=
  new_action "a1b2c3d4-0001" MEDICATION "code_blue_activation" None CRITICAL 1.0.

Definition medication_change : AgentAction :=
  new_action "a1b2c3d4-0002" MEDICATION "medication_change" None HIGH 0.99.


Definition check_availability : AgentAction :=
  new_action "a1b2c3d4-0003" SCHEDULING "check_availability" None LOW 0.95.

Definition default_gates : RiskGateManager.t :=
  RiskGateManager.__init__ rule_draw.

(** The gate manager after [evaluate_gate] queued [a] under request id
    [rid]. *)
Definition gated (rid : string) (a : AgentAction) : RiskGateManager.t :=
  match RiskGateManager.evaluate_gate (mkStamp rid 0) default_gates a with
  | inr (s, _, _) => s
  | inl _ => default_gates
  end.

(** An RBAC manager with an administrator and a nurse manager; the nurse was
    granted an override for ["approve_discharge"] and then deactivated. *)
Definition new_user (id name : string) (r : UserRole) : User :=
  {| user_id := id; username := name; email := name +:+ "@example.org";
     role := r; department := None; is_active := true; user_created_at := 0;
     last_login := None; permissions_override := [] |}.

Definition staffed_rbac : RBACManager.t :=
  let s := RBACManager.__init__ permission_draw in
  let s := fst (RBACManager.register_user s (new_user "u-admin" "root" SYSTEM_ADMIN)) in
  let s := fst (RBACManager.register_user s (new_user "u-nurse" "nina" NURSE_MANAGER)) in
  let s := fst (RBACManager.register_user s (new_user "u-bill" "bob" BILLING_STAFF)) in
  fst (RBACManager.grant_permission_override s "u-nurse" "approve_discharge" "u-admin").

Definition deactivated_rbac : RBACManager.t :=
  fst (RBACManager.deactivate_user staffed_rbac "u-nurse").

(** An audit trail holding one entry, for a scheduling action of patient
    ["PAT001"] in session ["sess-1"]. *)
Definition one_entry_trail : AuditTrailManager.t :=
  AuditTrailManager.run
    [AuditTrailManager.LogAction (mkStamp "log-1" 0)
       (new_action "a1b2c3d4-0004" SCHEDULING "check_availability"
          (Some "PAT001") LOW 0.95)
       (Some "sess-1") (Some "u-nurse") None].

(** A bias monitor with [n] recorded outcomes of ["register_patient"] by the
    intake agent for each listed gender group, all with the same outcome. *)
Definition record_group (group outcome_ : string) (value : option Q) (n : nat)
    (s : BiasMonitor.t) : BiasMonitor.t :=
  Nat.iter n
    (fun s => BiasMonitor.record_action_outcome 0 s INTAKE "register_patient"
                [("gender", group)] outcome_ value None)
    s.

(** Six negative outcomes in each of two groups: both rates are 0. *)
Definition all_negative : BiasMonitor.t :=
  record_group "M" "NEGATIVE" None 6
    (record_group "F" "NEGATIVE" None 6 (BiasMonitor.__init__ 0.8)).

(** Twelve outcomes, only four of them in group ["F"]. *)
Definition few_protected : BiasMonitor.t :=
  record_group "M" "POSITIVE" None 8
    (record_group "F" "POSITIVE" None 4 (BiasMonitor.__init__ 0.8)).

(** Twelve outcomes: six at 0.5 in group ["F"], six at 0.9 in group ["M"]. *)
Definition skewed : BiasMonitor.t :=
  record_group "M" "POSITIVE" (Some 0.9%Q) 6
    (record_group "F" "POSITIVE" (Some 0.5%Q) 6 (BiasMonitor.__init__ 0.8)).

(** Six outcomes at 0.72 in group ["F"], six at 0.9 in group ["M"]. *)
Definition near_threshold : BiasMonitor.t :=
  record_group "M" "POSITIVE" (Some 0.9%Q) 6
    (record_group "F" "POSITIVE" (Some 0.72%Q) 6 (BiasMonitor.__init__ 0.8)).

(** Group ["F"] with four outcomes at 0.8 and three one unit in the last
    place below it; seven outcomes at 1.0 in group ["M"]. *)
Definition rounded_up : BiasMonitor.t :=
  record_group "M" "POSITIVE" (Some 1.0%Q) 7
    (record_group "F" "POSITIVE" (Some 0.7999999999999999%Q) 3
       (record_group "F" "POSITIVE" (Some 0.8%Q) 4 (BiasMonitor.__init__ 0.8))).

(** Stand-ins for the float library on the sample data: the standard
    deviation is taken as 0; the formats are not examined. *)
Definition flat_stdev (xs : list Q) : Py.result Q := Py.ret 0%Q.
Definition no_format_3f (x : Py.pyfloat) : string := "?".
Definition no_format (x : Q) : string := "?".

(** Modelled from the spec: the fallback manager of
    [app/governance/fallback.py], which is not among the sources.  Evaluation
    escalates on a confidence below the configured threshold; triggering
    records the escalation, marks the action ESCALATED and returns the
    escalation id. *)
Record fallback_state : Type := mkFallback {
  fallback_threshold : Q;
  escalations : list string
}.

Inductive escalation_trigger : Type := LOW_CONFIDENCE | SAFETY_CONCERN.

Definition evaluate_action (fb : fallback_state) (a : AgentAction)
  : fallback_state * AgentAction
    * (bool * option escalation_trigger * option string) :=
  if Py.Qltb (action_confidence_score a) (fallback_threshold fb)
  then (fb, a, (true, Some LOW_CONFIDENCE, Some "Confidence below threshold"))
  else (fb, a, (false, None, None)).

Definition trigger_escalation (fb : fallback_state) (a : AgentAction)
    (trigger : escalation_trigger) (reason : string)
  : fallback_state * AgentAction * string :=
  let eid := "esc-" +:+ action_id a in
  (mkFallback (fallback_threshold fb) (escalations fb ++ [eid]),
   set_action_status ESCALATED a, eid).

(** [GovernanceConfig()] with the model's defaults. *)
Definition default_config : GovernanceConfig :=
  {| config_id := "config-1"; confidence_threshold_default := 0.85;
     escalation_timeout_default := 300; max_retry_attempts := 3;
     audit_retention_days := 2555; session_timeout_minutes := 30;
     require_mfa := true; encryption_enabled := true;
     bias_monitoring_enabled := true; bias_threshold := 0.8;
     api_rate_limits := [("elevenlabs", 100); ("canary_speech", 50);
                         ("twilio", 200); ("aws_comprehend", 100);
                         ("john_snow_labs", 50)]%Z;
     config_updated_at := 0 |}.

(** A fresh engine with the three sample users registered. *)
Definition engine : GovernanceEngine.t fallback_state :=
  GovernanceEngine.set_rbac staffed_rbac
    (GovernanceEngine.__init__ default_config rule_draw permission_draw
       (mkFallback 0.85 [])).

Definition draws : GovernanceEngine.Draws :=
  GovernanceEngine.mkDraws (mkStamp "log-1" 0) (mkStamp "access-1" 0)
    (mkStamp "esc-1" 0) (mkStamp "req-1" 0).

(** A claim submission on a patient's account, by the billing clerk. *)
Definition submit_claim : AgentAction :=
  new_action "a1b2c3d4-0005" BILLING "submit_claim" (Some "PAT001") LOW 0.95.

(** An appointment for a patient, by the nurse manager. *)
Definition schedule_appointment : AgentAction :=
  new_action "a1b2c3d4-0006" SCHEDULING "schedule_appointment" (Some "PAT001")
    LOW 0.95.

(** The same appointment proposed with little confidence. *)
Definition unsure_appointment : AgentAction :=
  new_action "a1b2c3d4-0007" SCHEDULING "schedule_appointment" (Some "PAT001")
    LOW 0.5.

(** The sample engine with a scheduling handler that raises. *)
Definition engine_with_failing_handler : GovernanceEngine.t fallback_state :=
  GovernanceEngine.register_action_handler engine SCHEDULING
    "schedule_appointment" (fun a => (a, inl "calendar unavailable")).

(** The status of the action returned by [process_action], and the statuses
    of the audit entries stored afterwards. *)
Definition outcome_of (s : GovernanceEngine.t fallback_state) (a : AgentAction)
    (uid : string) : option (ActionStatus * list ActionStatus) :=
  match GovernanceEngine.process_action evaluate_action trigger_escalation
          draws s a uid (Some "sess-1") None with
  | inr (s', resp) =>
      Some (action_status (action resp),
            map log_status (Py.values (GovernanceEngine.audit_entries s')))
  | inl _ => None
  end.

(** A custom rule that would let every LOW action through. *)
Definition lenient_low_rule : GovernanceRule :=
  RiskGateManager.new_rule (mkStamp "custom-1" 5) "low_risk_always"
    "Let every low-risk action through" LOW 0.0 false 1 false.

(** The RBAC manager with the three sample users and no override yet. *)
Definition registered_rbac : RBACManager.t :=
  let s := RBACManager.__init__ permission_draw in
  let s := fst (RBACManager.register_user s (new_user "u-admin" "root" SYSTEM_ADMIN)) in
  let s := fst (RBACManager.register_user s (new_user "u-nurse" "nina" NURSE_MANAGER)) in
  fst (RBACManager.register_user s (new_user "u-bill" "bob" BILLING_STAFF)).

(** A sequence of audit operations: two entries for patient ["PAT001"] (the
    later one logged first), one for ["PAT002"], an access record, an
    outcome update and a human override. *)
Definition busy_ops : list AuditTrailManager.op :=
  [ AuditTrailManager.LogAction (mkStamp "log-1" 30)
      (new_action "a1b2c3d4-0011" SCHEDULING "schedule_appointment"
         (Some "PAT001") LOW 0.95)
      (Some "sess-1") (Some "u-nurse") None;
    AuditTrailManager.LogAction (mkStamp "log-2" 10)
      (new_action "a1b2c3d4-0012" DOCUMENTATION "create_documentation"
         (Some "PAT001") LOW 0.9)
      (Some "sess-1") (Some "u-nurse") None;
    AuditTrailManager.LogAccess (mkStamp "access-1" 12) "u-bill" "BILLING_STAFF"
      "PAT002" "submit_claim" "WRITE" false (Some "limited") None None;
    AuditTrailManager.LogAction (mkStamp "log-3" 20)
      (new_action "a1b2c3d4-0013" SCHEDULING "schedule_appointment"
         (Some "PAT002") LOW 0.8)
      None (Some "u-nurse") None;
    AuditTrailManager.UpdateLogOutcome "log-1" "SUCCESS" COMPLETED None;
    AuditTrailManager.RecordHumanOverride 40 "log-2" "u-admin" "reviewed" ].

Definition busy_trail : AuditTrailManager.t := AuditTrailManager.run busy_ops.

(** An eligibility look-up at a payer, as an agent logs it. *)
Definition eligibility_call : APICallLog :=
  {| call_id := "call-1"; service_name := "payer_gateway";
     endpoint := "/eligibility"; method := "POST"; request_payload := [];
     response_payload := None; status_code := 200; latency_ms := 120;
     call_timestamp := 50; call_error := None |}.

(** An action id as [uuid4] prints it: 36 characters. *)
Definition action_uuid : string := "3f2b8c1e-7a4d-4e6f-9b0a-5c1d2e3f4a5b".

(** An action whose id was chosen by the caller and has four characters. *)
Definition walk_in : AgentAction :=
  new_action "a-17" SCHEDULING "schedule_appointment" (Some "PAT003") LOW 0.9.

(** The sample engine holding the audit entries of [busy_ops]. *)
Definition audited_engine : GovernanceEngine.t fallback_state :=
  GovernanceEngine.set_audit_trail busy_trail engine.

(** [busy_ops] followed by one escalation, logged under ["esc-1"]. *)
Definition escalated_trail : AuditTrailManager.t :=
  AuditTrailManager.run
    (busy_ops ++
     [AuditTrailManager.LogEscalation (mkStamp "esc-1" 70) SCHEDULING
        "a1b2c3d4-0013" "Confidence below threshold" 0.6 "MEDIUM" None]).

(** The sample engine with [medication_change] queued under ["req-2"]. *)
Definition engine_awaiting_approval : GovernanceEngine.t fallback_state :=
  GovernanceEngine.set_risk_gates (gated "req-2" medication_change) engine.

End Samples.

(** * Properties *)

(** ** Insertion-ordered dicts *)

Section PyDict.
Context {V : Type}.
Implicit Types (d : Py.pydict V) (k : string) (v : V).

Lemma pydict_get_set_eq d k v : Py.get k (Py.set k v d) = Some v.
Proof.
  induction d as [|[k' v'] d IH]; simpl.
  - by rewrite String.eqb_refl.
  - destruct (String.eqb k k') eqn:E; simpl; rewrite ?String.eqb_refl, ?E; done.
Qed.

Lemma pydict_get_set_ne d k k' v :
  k ≠ k' → Py.get k' (Py.set k v d) = Py.get k' d.
Proof.
  intros Hne. assert (String.eqb k' k = false) as Hk
    by (apply String.eqb_neq; congruence).
  induction d as [|[k0 v0] d IH]; simpl.
  - by rewrite Hk.
  - destruct (String.eqb k k0) eqn:E; simpl.
    + apply String.eqb_eq in E as <-. by rewrite Hk.
    + by rewrite IH.
Qed.

Lemma pydict_set_fresh d k v : Py.get k d = None → Py.set k v d = d ++ [(k, v)].
Proof.
  induction d as [|[k' v'] d IH]; simpl; [done|].
  destruct (String.eqb k k'); [done|]. intros H. by rewrite IH.
Qed.

Lemma pydict_get_app_fresh d k v :
  Py.get k d = None → Py.get k (d ++ [(k, v)]) = Some v.
Proof.
  intros H. rewrite <- (pydict_set_fresh d k v H). apply pydict_get_set_eq.
Qed.

Lemma pydict_set_app_last d k v v' :
  Py.get k d = None → Py.set k v' (d ++ [(k, v)]) = d ++ [(k, v')].
Proof.
  induction d as [|[k0 v0] d IH]; simpl.
  - by rewrite String.eqb_refl.
  - destruct (String.eqb k k0); [done|]. intros H. by rewrite IH.
Qed.

Lemma pydict_set_is_Some d k k' v :
  is_Some (Py.get k' d) → is_Some (Py.get k' (Py.set k v d)).
Proof.
  intros H. destruct (decide (k = k')) as [->|Hne].
  - rewrite pydict_get_set_eq. eauto.
  - by rewrite pydict_get_set_ne.
Qed.

End PyDict.

(** ** Risk gates *)

Section RiskGates.
Import RiskGateManager.

Lemma set_action_risk_level_same a :
  set_action_risk_level (action_risk_level a) a = a.
Proof. by destruct a. Qed.

Lemma truthy_risk_true r : truthy_risk r = true.
Proof. by destruct r. Qed.

(** Rule lookup succeeds on every non-empty rule table. *)
Lemma get_rule_total s risk :
  rules s ≠ [] → ∃ rule, _get_rule_for_risk_level s risk = inr rule.
Proof.
  intros Hne. unfold _get_rule_for_risk_level.
  destruct (find _ _); [eauto|].
  destruct (rules s) as [|[k r] rest]; [done|]. simpl. eauto.
Qed.




End RiskGates.

Section RiskGatesDefault.
Import RiskGateManager Statements.

Lemma default_rules_table draw :
  distinct_rule_ids draw →
  rules (__init__ draw) = map (fun r => (rule_id r, r)) (default_rules draw).
Proof.
  unfold distinct_rule_ids. cbn [map].
  rewrite !NoDup_cons, !not_elem_of_cons.
  intros ((H01 & H02 & H03 & _) & (H12 & H13 & _) & (H23 & _) & _).
  unfold __init__, _initialize_default_rules, default_rules, add_rule.
  cbn -[String.eqb].
  repeat (match goal with
          | |- context [String.eqb ?x ?y] =>
              replace (String.eqb x y) with false
                by (symmetry; apply String.eqb_neq; congruence)
          end; cbn -[String.eqb]).
  reflexivity.
Qed.

Lemma Qltb_false_of_le x y : (y <= x)%Q → Py.Qltb x y = false.
Proof.
  intros H. unfold Py.Qltb. apply Qle_bool_iff in H. by rewrite H.
Qed.

(** C5. Under the default rule set, the rule looked up for LOW is the LOW
    rule, and an action with risk level LOW whose confidence is at least that
    rule's threshold passes the gate: [can_proceed = True], no approval
    request, nothing queued, the action's status set to APPROVED. *)
Theorem low_risk_confident_proceeds draw st s a rule :
  distinct_rule_ids draw →
  rules s = rules (__init__ draw) →
  _get_rule_for_risk_level s LOW = inr rule →
  action_risk_level a = LOW →
  (confidence_threshold rule <= action_confidence_score a)%Q →
  rule_risk_level rule = LOW ∧
  evaluate_gate st s a = inr (s, set_action_status APPROVED a, (true, None)).
Proof.
  intros Hids Hrules Hrule Hrisk Hconf.
  assert (rule = new_rule (draw 0%nat) "low_risk_auto_execute"
                   "Auto-execute low-risk administrative tasks"
                   LOW 0.7 false 1 false) as ->.
  { unfold _get_rule_for_risk_level in Hrule.
    rewrite Hrules, (default_rules_table draw Hids) in Hrule.
    cbn in Hrule. by injection Hrule as <-. }
  split; [done|]. unfold evaluate_gate.
  rewrite truthy_risk_true, set_action_risk_level_same, Hrisk, Hrule.
  cbn [Py.bind]. rewrite (Qltb_false_of_le _ _ Hconf). reflexivity.
Qed.

Lemma low_risk_confident_proceeds_witness :
  Samples.check_availability.(action_risk_level) = LOW ∧
  evaluate_gate (mkStamp "req-0" 0) Samples.default_gates
    Samples.check_availability
  = inr (Samples.default_gates,
         set_action_status APPROVED Samples.check_availability, (true, None)).
Proof.
  split; [reflexivity|].
  refine (proj2 (low_risk_confident_proceeds Samples.rule_draw _
                   Samples.default_gates Samples.check_availability
                   (new_rule (Samples.rule_draw 0%nat) "low_risk_auto_execute"
                      "Auto-execute low-risk administrative tasks"
                      LOW 0.7 false 1 false) _ _ _ _ _)).
  - unfold distinct_rule_ids. apply (bool_decide_unpack _). vm_compute. reflexivity.
  - reflexivity.
  - vm_compute. reflexivity.
  - reflexivity.
  - vm_compute. discriminate.
Defined.



End RiskGatesDefault.

(** ** Approval consensus *)

Section Approvals.
Import RiskGateManager Statements.

Lemma process_approval_approve s rid req who why :
  pending_approvals s !! rid = Some req →
  process_approval s rid who true why =
  (mk (rules s)
      (<[rid := update_request req (current_approvals req + 1)
                  (approved_by req ++ [who]) (rejected_by req)
                  (rejection_reason req)
                  (if (required_approvers req <=? current_approvals req + 1)%Z
                   then "APPROVED" else request_status req)]>
         (pending_approvals s)),
   (required_approvers req <=? current_approvals req + 1)%Z).
Proof.
  intros H. unfold process_approval. rewrite H. cbn.
  by destruct (required_approvers req <=? current_approvals req + 1)%Z.
Qed.

Lemma process_approval_reject s rid req who why :
  pending_approvals s !! rid = Some req →
  process_approval s rid who false why =
  (mk (rules s)
      (<[rid := update_request req (current_approvals req) (approved_by req)
                  (Some who) why "REJECTED"]> (pending_approvals s)),
   false).
Proof. intros H. unfold process_approval. by rewrite H. Qed.

Lemma approvals_in_cons who approved why calls :
  approvals_in ((who, approved, why) :: calls)
  = ((if approved then 1 else 0) + approvals_in calls)%Z.
Proof.
  unfold approvals_in. rewrite filter_cons. cbn.
  destruct approved; case_decide; try done.
  cbn [length]. by rewrite Nat2Z.inj_succ, Z.add_1_l.
Qed.

Lemma approvals_in_nonneg calls : (0 ≤ approvals_in calls)%Z.
Proof. unfold approvals_in. lia. Qed.

(** A rejected request stays rejected through every call sequence that does
    not bring the counter to the threshold. *)
Lemma rejected_stays_below_threshold calls : ∀ s rid req,
  pending_approvals s !! rid = Some req →
  request_status req = "REJECTED" →
  (current_approvals req + approvals_in calls < required_approvers req)%Z →
  status_of (process_approvals s rid calls) rid = Some "REJECTED".
Proof.
  induction calls as [|[[who approved] why] calls IH]; intros s rid req Hreq Hst Hlt.
  - unfold status_of. cbn. by rewrite Hreq, <- Hst.
  - rewrite approvals_in_cons in Hlt. pose proof (approvals_in_nonneg calls).
    unfold process_approvals. cbn [fold_left]. destruct approved.
    + rewrite (process_approval_approve _ _ _ _ _ Hreq). cbn [fst].
      eapply IH; [apply lookup_insert_eq| |]; cbn.
      * destruct (Z.leb_spec (required_approvers req) (current_approvals req + 1));
          [lia|done].
      * lia.
    + rewrite (process_approval_reject _ _ _ _ _ Hreq). cbn [fst].
      eapply IH; [apply lookup_insert_eq|done|]. cbn. lia.
Qed.

(** C2, as the code has it.  On a fresh two-approver request the first
    approval reports [False] and leaves the status as it was, the second
    reports [True] and sets APPROVED; a third approving call keeps the status
    APPROVED but is counted like any other: the approver is appended, the
    counter becomes 3 and the call reports [True] again. *)
Theorem two_approvals_then_third_counts s rid req a1 a2 a3 why1 why2 why3 :
  pending_approvals s !! rid = Some req →
  required_approvers req = 2%Z →
  current_approvals req = 0%Z →
  let s1 := fst (process_approval s rid a1 true why1) in
  let s2 := fst (process_approval s1 rid a2 true why2) in
  let s3 := fst (process_approval s2 rid a3 true why3) in
  snd (process_approval s rid a1 true why1) = false ∧
  status_of s1 rid = Some (request_status req) ∧
  snd (process_approval s1 rid a2 true why2) = true ∧
  status_of s2 rid = Some "APPROVED" ∧
  snd (process_approval s2 rid a3 true why3) = true ∧
  pending_approvals s3 !! rid
  = Some (update_request req 3 (approved_by req ++ [a1; a2; a3])
            (rejected_by req) (rejection_reason req) "APPROVED").
Proof.
  intros Hreq Hneed Hcur. cbn zeta.
  rewrite (process_approval_approve _ _ _ _ _ Hreq), Hneed, Hcur. cbn.
  erewrite process_approval_approve by apply lookup_insert_eq. cbn.
  rewrite Hneed. cbn.
  erewrite process_approval_approve by apply lookup_insert_eq. cbn.
  rewrite Hneed. cbn.
  rewrite <- !app_assoc. unfold status_of.
  split_and!; cbn [pending_approvals]; rewrite ?lookup_insert_eq; reflexivity.
Qed.

(** C3, as the code has it.  A rejecting call sets the status to REJECTED,
    and the status is still REJECTED after every further sequence of calls
    whose approvals leave the counter below [required_approvers]. *)
Theorem rejection_holds_below_threshold s rid req who why calls :
  pending_approvals s !! rid = Some req →
  let s1 := fst (process_approval s rid who false why) in
  status_of s1 rid = Some "REJECTED" ∧
  ((current_approvals req + approvals_in calls < required_approvers req)%Z →
   status_of (process_approvals s1 rid calls) rid = Some "REJECTED").
Proof.
  intros Hreq. cbn zeta.
  rewrite (process_approval_reject _ _ _ _ _ Hreq). cbn [fst]. split.
  - unfold status_of. cbn. by rewrite lookup_insert_eq.
  - intros Hlt. eapply rejected_stays_below_threshold;
      [apply lookup_insert_eq|done|exact Hlt].
Qed.

End Approvals.

Section ApprovalExamples.
Import RiskGateManager Statements.

(** The request queued for the code-blue action needs two approvers and has
    none yet. *)
Lemma code_blue_request :
  ∃ req, pending_approvals (Samples.gated "req-1" Samples.code_blue) !! "req-1"
         = Some req ∧
         required_approvers req = 2%Z ∧ current_approvals req = 0%Z ∧
         request_status req = "PENDING".
Proof. eexists. split_and!; [vm_compute; reflexivity|reflexivity..]. Qed.

(** The request queued for the medication change needs one approver. *)
Lemma medication_change_request :
  ∃ req, pending_approvals (Samples.gated "req-2" Samples.medication_change)
           !! "req-2" = Some req ∧
         required_approvers req = 1%Z ∧ current_approvals req = 0%Z.
Proof. eexists. split_and!; [vm_compute; reflexivity|reflexivity..]. Qed.

Lemma two_approvals_then_third_counts_witness :
  status_of
    (fst (process_approval
            (fst (process_approval (Samples.gated "req-1" Samples.code_blue)
                    "req-1" "alice" true None))
            "req-1" "bob" true None))
    "req-1" = Some "APPROVED" ∧
  snd (process_approval
         (fst (process_approval
                 (fst (process_approval (Samples.gated "req-1" Samples.code_blue)
                         "req-1" "alice" true None))
                 "req-1" "bob" true None))
         "req-1" "carol" true None) = true.
Proof.
  destruct code_blue_request as (req & Hreq & Hneed & Hcur & _).
  destruct (two_approvals_then_third_counts _ _ _ "alice" "bob" "carol"
              None None None Hreq Hneed Hcur)
    as (_ & _ & _ & Hst & Hthird & _).
  exact (conj Hst Hthird).
Defined.

(** C2 fails as stated: on the two-approver request queued for the code-blue
    action, the third approving call changes the approver list and the
    counter and reports "fully approved" again. *)
Lemma third_approval_is_not_noop :
  ¬ third_approval_is_noop (Samples.gated "req-1" Samples.code_blue)
      "req-1" "alice" "bob" "carol".
Proof.
  intros (_ & _ & _ & Hthird). vm_compute in Hthird. discriminate Hthird.
Qed.

Lemma rejection_holds_below_threshold_witness :
  status_of
    (process_approvals
       (fst (process_approval (Samples.gated "req-1" Samples.code_blue)
               "req-1" "alice" false (Some "not indicated")))
       "req-1" [("bob", true, None); ("carol", false, None)])
    "req-1" = Some "REJECTED".
Proof.
  destruct code_blue_request as (req & Hreq & Hneed & Hcur & _).
  apply (proj2 (rejection_holds_below_threshold _ _ _ "alice"
                  (Some "not indicated")
                  [("bob", true, None); ("carol", false, None)] Hreq)).
  rewrite Hneed, Hcur. vm_compute. reflexivity.
Defined.

(** C3 fails as stated: on the one-approver request queued for the
    medication change, a rejection followed by one approval leaves the
    request APPROVED. *)
Lemma rejection_is_not_terminal :
  ¬ rejection_is_terminal (Samples.gated "req-2" Samples.medication_change)
      "req-2".
Proof.
  intros H. destruct medication_change_request as (req & Hreq & Hneed & Hcur).
  specialize (H req "alice" None [("bob", true, None)] Hreq).
  rewrite Hneed, Hcur in H. specialize (H eq_refl).
  vm_compute in H. discriminate H.
Qed.

End ApprovalExamples.

(** ** Access control *)

Section AccessControl.
Import RBACManager.

(** C6. A user whose [is_active] flag is false is refused by
    [check_permission] and by [check_patient_access], for every agent type,
    action, capability requirement, patient and access type; the override
    list is not consulted. *)
Theorem inactive_user_is_denied s uid user agent_type action_ require_write
    require_approve patient_id access_type :
  users s !! uid = Some user →
  is_active user = false →
  fst (check_permission s uid agent_type action_ require_write require_approve)
  = false ∧
  fst (check_patient_access s uid patient_id access_type) = false.
Proof.
  intros Hu Hoff. unfold check_permission, check_patient_access.
  by rewrite Hu, Hoff.
Qed.

Lemma inactive_user_is_denied_witness :
  (∃ user, users Samples.deactivated_rbac !! "u-nurse" = Some user ∧
           is_active user = false ∧
           Py.mem "approve_discharge" (permissions_override user) = true) ∧
  fst (check_permission Samples.staffed_rbac "u-nurse" CARE_PLANNING
         "approve_discharge" true false) = true ∧
  fst (check_permission Samples.deactivated_rbac "u-nurse" CARE_PLANNING
         "approve_discharge" true false) = false ∧
  fst (check_patient_access Samples.deactivated_rbac "u-nurse" "PAT001" "VIEW")
  = false.
Proof.
  assert (∃ user, users Samples.deactivated_rbac !! "u-nurse" = Some user ∧
                  is_active user = false ∧
                  Py.mem "approve_discharge" (permissions_override user) = true)
    as Hex by (eexists; split_and!; [vm_compute; reflexivity|reflexivity..]).
  split; [exact Hex|]. destruct Hex as (user & Hu & Hoff & _).
  split; [vm_compute; reflexivity|].
  exact (inactive_user_is_denied Samples.deactivated_rbac "u-nurse" user
           CARE_PLANNING "approve_discharge" true false "PAT001" "VIEW" Hu Hoff).
Defined.

End AccessControl.

(** ** Audit trail *)

Section AuditTrail.
Import AuditTrailManager.

(** C9. For a log id that is not a key of the audit store,
    [update_log_outcome] and [record_human_override] return [False] and leave
    the whole manager (store, indices, other logs) as it was. *)
Theorem unknown_log_id_changes_nothing s lid outcome_ status mods now who why :
  Py.get lid (audit_logs s) = None →
  update_log_outcome s lid outcome_ status mods = (s, false) ∧
  record_human_override now s lid who why = (s, false).
Proof.
  intros Hnone. unfold update_log_outcome, record_human_override.
  by rewrite Hnone.
Qed.

Lemma unknown_log_id_changes_nothing_witness :
  Py.get "log-9" (audit_logs Samples.one_entry_trail) = None ∧
  update_log_outcome Samples.one_entry_trail "log-9" "SUCCESS" COMPLETED None
  = (Samples.one_entry_trail, false) ∧
  record_human_override 7 Samples.one_entry_trail "log-9" "u-admin" "review"
  = (Samples.one_entry_trail, false).
Proof.
  assert (Py.get "log-9" (audit_logs Samples.one_entry_trail) = None) as Hnone
    by reflexivity.
  split; [exact Hnone|].
  exact (unknown_log_id_changes_nothing Samples.one_entry_trail "log-9"
           "SUCCESS" COMPLETED None 7 "u-admin" "review" Hnone).
Defined.

End AuditTrail.

(** ** Index integrity of the audit trail *)

Section IndexIntegrity.
Import AuditTrailManager.

Section Listed.
Context `{Countable K}.
Implicit Types (k : K) (x : string) (index : gmap K (list string)).

Lemma listed_append_at_eq k x index :
  listed k (Py.append_at k x index) = listed k index ++ [x].
Proof. unfold listed, Py.append_at. by rewrite lookup_insert_eq. Qed.

Lemma listed_append_at_ne k k' x index :
  k ≠ k' → listed k' (Py.append_at k x index) = listed k' index.
Proof. intros Hne. unfold listed, Py.append_at. by rewrite lookup_insert_ne. Qed.

Lemma elem_of_listed_append_at k k' x y index :
  y ∈ listed k' (Py.append_at k x index) ↔
  y ∈ listed k' index ∨ (k = k' ∧ y = x).
Proof.
  destruct (decide (k = k')) as [->|Hne].
  - rewrite listed_append_at_eq, elem_of_app, list_elem_of_singleton. tauto.
  - rewrite listed_append_at_ne by done. tauto.
Qed.

End Listed.

(** The fields of an entry the indices are computed from. *)
Definition same_identity (e e' : AuditLogEntry) : Prop :=
  log_id e = log_id e' ∧ log_agent_type e = log_agent_type e' ∧
  log_patient_id e = log_patient_id e' ∧ log_session_id e = log_session_id e'.

(** [logs'] has the keys of [logs], each with an entry of the same
    identity. *)
Definition refreshes (logs logs' : Py.pydict AuditLogEntry) : Prop :=
  ∀ lid,
    (is_Some (Py.get lid logs) → is_Some (Py.get lid logs')) ∧
    (∀ e', Py.get lid logs' = Some e' →
       ∃ e, Py.get lid logs = Some e ∧ same_identity e e').

Lemma update_entry_identity e calls ov ov_by ov_reason out st mods :
  same_identity e (update_entry e calls ov ov_by ov_reason out st mods).
Proof. done. Qed.

Lemma refreshes_set logs lid e e' :
  Py.get lid logs = Some e → same_identity e e' →
  refreshes logs (Py.set lid e' logs).
Proof.
  intros Hget Hid lid'. destruct (decide (lid = lid')) as [<-|Hne].
  - rewrite pydict_get_set_eq. split; [eauto|].
    intros ? [= <-]. eauto.
  - rewrite pydict_get_set_ne by done. split; [done|].
    intros e0 He0. exists e0. by split.
Qed.

Lemma refreshes_attach call aid logs :
  refreshes logs (attach_api_call call aid logs).
Proof.
  induction logs as [|[k e] logs IH]; intros lid; cbn.
  - split; [done|]. intros ? [=].
  - destruct (Py.contains aid (agent_id e) || String.eqb (log_id e) aid); cbn;
      destruct (String.eqb lid k).
    + split; [eauto|]. intros ? [= <-]. eauto using update_entry_identity.
    + split; [done|]. intros e0 He0. exists e0. by split.
    + split; [eauto|]. intros ? [= <-]. exists e. by split.
    + apply IH.
Qed.

(** Rewriting entries in place, with the indices untouched, keeps the
    invariant. *)
Lemma integrity_refresh s logs' :
  index_integrity s → refreshes (audit_logs s) logs' →
  index_integrity (set_audit_logs logs' s).
Proof.
  intros [(Hp & Ha & Hs) Hidx] Href. split.
  - split_and!; cbn; intros k lid Hin; apply Href; eauto.
  - intros lid e' Hget. cbn in *.
    destruct (proj2 (Href lid) e' Hget) as (e & He & Hid & Hag & Hpat & Hses).
    destruct (Hidx lid e He) as (Hl & Hagent & Hpatient & Hsession).
    rewrite <- Hid, <- Hag, <- Hpat, <- Hses. done.
Qed.

Lemma log_action_integrity st s a session_id user_id ip_address :
  index_integrity s →
  index_integrity (fst (log_action st s a session_id user_id ip_address)).
Proof.
  intros [(Hp & Ha & Hs) Hidx]. unfold log_action. cbn [fst].
  set (lid := uuid st). split.
  - split_and!; cbn; intros k l Hin.
    + assert (l ∈ listed k (_log_index_by_patient s) ∨ l = lid) as [?| ->].
      { destruct (action_patient_id a) as [pid|]; [|by left].
        destruct (Py.truthy_str pid); [|by left].
        apply elem_of_listed_append_at in Hin as [?|[_ ->]]; [by left|by right]. }
      * apply pydict_set_is_Some. eauto.
      * rewrite pydict_get_set_eq. eauto.
    + apply elem_of_listed_append_at in Hin as [?|[_ ->]].
      * apply pydict_set_is_Some. eauto.
      * rewrite pydict_get_set_eq. eauto.
    + assert (l ∈ listed k (_log_index_by_session s) ∨ l = lid) as [?| ->].
      { destruct session_id as [sid|]; [|by left].
        destruct (Py.truthy_str sid); [|by left].
        apply elem_of_listed_append_at in Hin as [?|[_ ->]]; [by left|by right]. }
      * apply pydict_set_is_Some. eauto.
      * rewrite pydict_get_set_eq. eauto.
  - intros l e Hget. cbn in Hget |- *.
    destruct (decide (lid = l)) as [<-|Hne].
    + rewrite pydict_get_set_eq in Hget. injection Hget as <-. cbn.
      split_and!; [done| | |].
      * apply elem_of_listed_append_at. by right.
      * intros pid -> ->. apply elem_of_listed_append_at. by right.
      * intros sid -> ->. apply elem_of_listed_append_at. by right.
    + rewrite pydict_get_set_ne in Hget by done.
      destruct (Hidx l e Hget) as (Hl & Hagent & Hpatient & Hsession).
      split_and!; [done| | |].
      * apply elem_of_listed_append_at. by left.
      * intros pid Hpid Hty. specialize (Hpatient pid Hpid Hty).
        destruct (action_patient_id a) as [pid'|]; [|done].
        destruct (Py.truthy_str pid'); [|done].
        apply elem_of_listed_append_at. by left.
      * intros sid Hsid Hty. specialize (Hsession sid Hsid Hty).
        destruct session_id as [sid'|]; [|done].
        destruct (Py.truthy_str sid'); [|done].
        apply elem_of_listed_append_at. by left.
Qed.

Lemma step_integrity s o : index_integrity s → index_integrity (step s o).
Proof.
  intros Hinv. destruct o; cbn [step].
  - by apply log_action_integrity.
  - apply (integrity_refresh s _ Hinv (refreshes_attach _ _ _)).
  - exact Hinv.
  - unfold log_escalation. destruct (risk_of_value risk_level); exact Hinv.
  - unfold update_log_outcome.
    destruct (Py.get lid (audit_logs s)) as [e|] eqn:He; [|exact Hinv].
    apply (integrity_refresh s _ Hinv). eapply refreshes_set; [exact He|done].
  - unfold record_human_override.
    destruct (Py.get lid (audit_logs s)) as [e|] eqn:He; [|exact Hinv].
    apply (integrity_refresh s _ Hinv). eapply refreshes_set; [exact He|done].
  - unfold resolve_escalation.
    destruct (escalation_logs s !! eid); exact Hinv.
Qed.

Lemma init_integrity : index_integrity __init__.
Proof.
  split; [split_and!; cbn; intros k l Hin|intros l e [=]];
    unfold listed in Hin; rewrite lookup_empty in Hin; by apply elem_of_nil in Hin.
Qed.

(** What an operation leaves in place: the keys of [audit_logs] and the ids
    the indices list. *)
Definition keeps_marks (s s' : t) : Prop :=
  (∀ lid, is_Some (Py.get lid (audit_logs s)) →
          is_Some (Py.get lid (audit_logs s'))) ∧
  (∀ pid lid, lid ∈ listed pid (_log_index_by_patient s) →
              lid ∈ listed pid (_log_index_by_patient s')) ∧
  (∀ ag lid, lid ∈ listed ag (_log_index_by_agent s) →
             lid ∈ listed ag (_log_index_by_agent s')) ∧
  (∀ sid lid, lid ∈ listed sid (_log_index_by_session s) →
              lid ∈ listed sid (_log_index_by_session s')).

Lemma keeps_marks_refresh s logs' :
  refreshes (audit_logs s) logs' → keeps_marks s (set_audit_logs logs' s).
Proof. intros Href. split_and!; [intros lid; apply Href|done..]. Qed.

Lemma step_keeps_marks s o : keeps_marks s (step s o).
Proof.
  destruct o; cbn [step].
  - unfold log_action. cbn [fst]. split_and!; cbn.
    + intros lid. apply pydict_set_is_Some.
    + intros pid lid Hin. destruct (action_patient_id a) as [pid'|]; [|done].
      destruct (Py.truthy_str pid'); [|done].
      apply elem_of_listed_append_at. by left.
    + intros ag lid Hin. apply elem_of_listed_append_at. by left.
    + intros sid lid Hin. destruct session_id as [sid'|]; [|done].
      destruct (Py.truthy_str sid'); [|done].
      apply elem_of_listed_append_at. by left.
  - apply (keeps_marks_refresh s _ (refreshes_attach _ _ _)).
  - by split_and!.
  - unfold log_escalation. destruct (risk_of_value risk_level); by split_and!.
  - unfold update_log_outcome.
    destruct (Py.get lid (audit_logs s)) as [e|] eqn:He; [|by split_and!].
    apply keeps_marks_refresh. eapply refreshes_set; [exact He|done].
  - unfold record_human_override.
    destruct (Py.get lid (audit_logs s)) as [e|] eqn:He; [|by split_and!].
    apply keeps_marks_refresh. eapply refreshes_set; [exact He|done].
  - unfold resolve_escalation. destruct (escalation_logs s !! eid); by split_and!.
Qed.

(** What [log_action] itself leaves: the drawn id stored and listed. *)
Lemma log_action_marks st s a session_id user_id ip_address :
  logged_actions_are_indexed [LogAction st a session_id user_id ip_address]
    (fst (log_action st s a session_id user_id ip_address)).
Proof.
  intros st' a' sid' uid' ip' [= -> -> -> -> ->]%list_elem_of_singleton.
  unfold log_action. cbn. split_and!.
  - rewrite pydict_get_set_eq. eauto.
  - apply elem_of_listed_append_at. by right.
  - intros pid -> ->. apply elem_of_listed_append_at. by right.
  - intros sid -> ->. apply elem_of_listed_append_at. by right.
Qed.

Lemma run_marks ops : logged_actions_are_indexed ops (run ops).
Proof.
  induction ops as [|o ops IH] using rev_ind.
  - intros st a sid uid ip Hin. by apply elem_of_nil in Hin.
  - unfold run in *. rewrite fold_left_app. cbn [fold_left].
    intros st a sid uid ip [Hin|Hin%list_elem_of_singleton]%elem_of_app.
    + destruct (IH st a sid uid ip Hin) as (Hk & Ha & Hp & Hs).
      destruct (step_keeps_marks (fold_left step ops __init__) o)
        as (Kk & Kp & Ka & Ks).
      split_and!; [by apply Kk|by apply Ka| |].
      * intros pid Hpid Hty. by apply Kp, Hp.
      * intros sid' Hsid Hty. by apply Ks, Hs.
    + subst o. cbn [step].
      apply (log_action_marks st (fold_left step ops __init__) a sid uid ip
               st a sid uid ip).
      by apply list_elem_of_singleton.
Qed.

(** C10. After any sequence of the manager's operations from the empty
    manager: the three indices list only keys of [audit_logs]; every stored
    entry is listed under its agent type, under its patient id and under its
    session id (an id being a non-empty string, as [log_action] tests it);
    and every [log_action] call of the sequence has left the id of the entry
    it created as a key of [audit_logs], listed under the agent type, the
    patient id and the session id the entry was created with. *)
Theorem audit_indices_stay_consistent ops :
  index_integrity (run ops) ∧ logged_actions_are_indexed ops (run ops).
Proof.
  split; [|apply run_marks].
  unfold run. generalize init_integrity. generalize __init__ as s.
  induction ops as [|o ops IH]; intros s Hinv; cbn [fold_left]; [done|].
  apply IH. by apply step_integrity.
Qed.

(** On the sample sequence: the second entry was created for patient
    ["PAT001"] in session ["sess-1"] and is found under both. *)
Lemma audit_indices_stay_consistent_witness :
  is_Some (Py.get "log-2" (audit_logs Samples.busy_trail)) ∧
  "log-2" ∈ listed "PAT001" (_log_index_by_patient Samples.busy_trail) ∧
  "log-2" ∈ listed "sess-1" (_log_index_by_session Samples.busy_trail) ∧
  "log-2" ∈ listed DOCUMENTATION (_log_index_by_agent Samples.busy_trail).
Proof.
  destruct (proj2 (audit_indices_stay_consistent Samples.busy_ops)
              (mkStamp "log-2" 10)
              (Samples.new_action "a1b2c3d4-0012" DOCUMENTATION
                 "create_documentation" (Some "PAT001") LOW 0.9)
              (Some "sess-1") (Some "u-nurse") None)
    as (Hkey & Hagent & Hpatient & Hsession).
  { unfold Samples.busy_ops. apply elem_of_cons. right. by left. }
  split_and!; [exact Hkey|by apply Hpatient|by apply Hsession|exact Hagent].
Defined.

(** The invariant on the sample trail: its one entry is found through each
    of the three indices. *)
Lemma one_entry_trail_indexed :
  Py.keys (audit_logs Samples.one_entry_trail) = ["log-1"] ∧
  listed "PAT001" (_log_index_by_patient Samples.one_entry_trail) = ["log-1"] ∧
  listed SCHEDULING (_log_index_by_agent Samples.one_entry_trail) = ["log-1"] ∧
  listed "sess-1" (_log_index_by_session Samples.one_entry_trail) = ["log-1"].
Proof. split_and!; vm_compute; reflexivity. Qed.

End IndexIntegrity.

(** ** Bias monitoring *)

Section Bias.
Import BiasMonitor.

Variable stdev : list Q -> Py.result Q.
Variable format_3f : Py.pyfloat -> string.
Variable format_float : Q -> string.

Lemma split_step_fold dim p g records : ∀ prot ref,
  fold_left (split_step dim p g) records (prot, ref) =
  (prot ++ map value_of (samples_of dim p records),
   ref ++ map value_of
            (filter (fun r => Py.get dim (demographics r) ≠ Some p)
               (samples_of dim g records))).
Proof.
  unfold samples_of.
  induction records as [|r records IH]; intros prot ref; cbn [fold_left].
  - cbn. by rewrite !app_nil_r.
  - rewrite !filter_cons. unfold split_step at 2. case_bool_decide as Hp.
    + rewrite IH. rewrite decide_True by done. cbn [map].
      rewrite <- app_assoc. cbn [app]. f_equal.
      destruct (decide (Py.get dim (demographics r) = Some g)); [|done].
      rewrite filter_cons. by rewrite decide_False by tauto.
    + rewrite decide_False by done. case_bool_decide as Hg.
      * rewrite IH. rewrite decide_True by done. rewrite filter_cons.
        rewrite decide_True by done. cbn [map].
        by rewrite <- app_assoc.
      * rewrite IH. by rewrite decide_False by done.
Qed.

(** What the loop of [calculate_disparate_impact] collects: the values of the
    protected group's samples, and the values of those samples of the
    reference group that are not also samples of the protected group. *)
Lemma split_outcomes_spec dim p g records :
  split_outcomes dim p g records =
  (map value_of (samples_of dim p records),
   map value_of
     (filter (fun r => Py.get dim (demographics r) ≠ Some p)
        (samples_of dim g records))).
Proof. unfold split_outcomes. by rewrite split_step_fold. Qed.

Lemma split_outcomes_lengths dim p g records :
  length (fst (split_outcomes dim p g records))
  = length (samples_of dim p records) ∧
  (length (snd (split_outcomes dim p g records))
   ≤ length (samples_of dim g records))%nat.
Proof.
  rewrite split_outcomes_spec. cbn [fst snd]. rewrite !length_map.
  split; [done|]. apply length_filter.
Qed.

(** C8. [calculate_disparate_impact] returns [None], with the monitor (its
    metrics and compliance events included) unchanged, whenever the key has
    fewer than 10 records or either compared group has fewer than 5 samples
    among them. *)
Theorem too_few_samples_give_no_metric st_metric st_event s agent_type
    action_type_ dim p g :
  (length (default [] (action_records s !! record_key agent_type action_type_)) < 10
   ∨ length (samples_of dim p
               (default [] (action_records s !! record_key agent_type action_type_))) < 5
   ∨ length (samples_of dim g
               (default [] (action_records s !! record_key agent_type action_type_))) < 5)%nat →
  calculate_disparate_impact stdev format_3f format_float st_metric st_event s
    agent_type action_type_ dim p g
  = inr (s, None).
Proof.
  intros Hfew. unfold calculate_disparate_impact.
  set (records := default [] (action_records s !! _)) in *.
  destruct (Nat.ltb_spec (length records) 10) as [|Hten]; [done|].
  destruct (split_outcomes_lengths dim p g records) as [Hprot Href].
  destruct (split_outcomes dim p g records) as [prot ref]. cbn [fst snd] in *.
  destruct (Nat.ltb_spec (length prot) 5) as [|Hp]; [done|].
  destruct (Nat.ltb_spec (length ref) 5) as [|Hr]; [done|].
  lia.
Qed.

Lemma mean_total xs : (0 < length xs)%nat → ∃ m, Py.mean xs = inr m.
Proof. destruct xs; cbn; [lia|eauto]. Qed.

(** C7. [calculate_disparate_impact] never raises: the two means are taken
    of lists of at least five values and the division is reached only with
    a non-zero reference rate.  When both rates are 0 it returns a metric
    whose [disparity_ratio] is 1.0. *)
Theorem disparate_impact_division_is_guarded st_metric st_event s agent_type
    action_type_ dim p g :
  (∃ out, calculate_disparate_impact stdev format_3f format_float st_metric
            st_event s agent_type action_type_ dim p g = inr out) ∧
  (∀ prot ref protected_rate reference_rate,
     (10 ≤ length (default [] (action_records s
                                 !! record_key agent_type action_type_)))%nat →
     split_outcomes dim p g
       (default [] (action_records s !! record_key agent_type action_type_))
     = (prot, ref) →
     (5 ≤ length prot)%nat → (5 ≤ length ref)%nat →
     Py.mean prot = inr protected_rate → Py.mean ref = inr reference_rate →
     (protected_rate == 0)%Q → (reference_rate == 0)%Q →
     ∃ s' metric,
       calculate_disparate_impact stdev format_3f format_float st_metric
         st_event s agent_type action_type_ dim p g = inr (s', Some metric) ∧
       disparity_ratio metric = Py.Fin 1.0 ∧
       metrics s' !! metric_id metric = Some metric).
Proof.
  unfold calculate_disparate_impact.
  set (records := default [] (action_records s !! _)). split.
  - destruct (length records <? 10)%nat; [by eexists|].
    destruct (split_outcomes dim p g records) as [prot ref].
    destruct (Nat.ltb_spec (length prot) 5) as [|Hp]; [by eexists|].
    destruct (Nat.ltb_spec (length ref) 5) as [|Hr]; [by eexists|].
    cbn [orb].
    destruct (mean_total prot) as [mp ->]; [lia|].
    destruct (mean_total ref) as [mr ->]; [lia|]. cbn [Py.bind].
    destruct (Qeq_bool mr 0) eqn:Hz; cbn [Py.bind Py.ret].
    + by eexists.
    + unfold Py.fdiv. rewrite Hz. cbn [Py.bind Py.ret]. by eexists.
  - intros prot ref mp mr Hten Hsplit Hp Hr Hmp Hmr Hzp Hzr.
    destruct (Nat.ltb_spec (length records) 10) as [|_]; [lia|].
    rewrite Hsplit.
    destruct (Nat.ltb_spec (length prot) 5) as [|_]; [lia|].
    destruct (Nat.ltb_spec (length ref) 5) as [|_]; [lia|].
    cbn [orb]. rewrite Hmp, Hmr. cbn [Py.bind].
    apply Qeq_bool_iff in Hzp, Hzr. rewrite Hzp, Hzr. cbn [Py.bind Py.ret].
    do 2 eexists. split; [reflexivity|]. split; [reflexivity|].
    destruct (Py.flt _ _); cbn; apply lookup_insert_eq.
Qed.

End Bias.

Section BiasExamples.
Import BiasMonitor.

Lemma too_few_samples_give_no_metric_witness :
  length (samples_of "gender" "F"
            (default [] (action_records Samples.few_protected
                           !! record_key INTAKE "register_patient"))) = 4%nat ∧
  calculate_disparate_impact Samples.flat_stdev Samples.no_format_3f
    Samples.no_format (mkStamp "metric-1" 0) (mkStamp "event-1" 0)
    Samples.few_protected INTAKE "register_patient" "gender" "F" "M"
  = inr (Samples.few_protected, None).
Proof.
  assert (length (samples_of "gender" "F"
                    (default [] (action_records Samples.few_protected
                                   !! record_key INTAKE "register_patient")))
          = 4%nat) as Hfour by (vm_compute; reflexivity).
  split; [exact Hfour|].
  apply too_few_samples_give_no_metric. right; left. rewrite Hfour. lia.
Defined.

Lemma disparate_impact_division_is_guarded_witness :
  ∃ s' metric,
    calculate_disparate_impact Samples.flat_stdev Samples.no_format_3f
      Samples.no_format (mkStamp "metric-1" 0) (mkStamp "event-1" 0)
      Samples.all_negative INTAKE "register_patient" "gender" "F" "M"
    = inr (s', Some metric) ∧
    disparity_ratio metric = Py.Fin 1.0 ∧
    metrics s' !! metric_id metric = Some metric.
Proof.
  eapply (proj2 (disparate_impact_division_is_guarded Samples.flat_stdev
                   Samples.no_format_3f Samples.no_format
                   (mkStamp "metric-1" 0) (mkStamp "event-1" 0)
                   Samples.all_negative INTAKE "register_patient" "gender"
                   "F" "M")).
  - vm_compute. lia.
  - vm_compute. reflexivity.
  - vm_compute. lia.
  - vm_compute. lia.
  - vm_compute. reflexivity.
  - vm_compute. reflexivity.
  - reflexivity.
  - reflexivity.
Defined.

(** The scenario of twelve outcomes, six at 0.5 against six at 0.9: the ratio
    is the float nearest to 5/9 (0.5555555555555556), below the 0.8
    threshold, and one compliance event is stored. *)
Lemma skewed_outcomes_raise_one_event :
  ∃ s' metric,
    calculate_disparate_impact Samples.flat_stdev Samples.no_format_3f
      Samples.no_format (mkStamp "metric-1" 0) (mkStamp "event-1" 0)
      Samples.skewed INTAKE "register_patient" "gender" "F" "M"
    = inr (s', Some metric) ∧
    disparity_ratio metric = Py.Fin (2501999792983609 # 4503599627370496) ∧
    threshold_exceeded metric = true ∧
    size (compliance_events s') = 1%nat.
Proof.
  do 2 eexists. split; [vm_compute; reflexivity|].
  split_and!; [reflexivity|reflexivity|vm_compute; reflexivity].
Qed.

(** Rounding decides the flag.  Six outcomes at 0.72 against six at 0.9: the
    exact quotient is 4/5, the float quotient is 0.7999999999999999, and the
    metric is flagged against a threshold of 0.8. *)
Lemma quotient_is_rounded_before_the_test :
  ∃ s' metric,
    calculate_disparate_impact Samples.flat_stdev Samples.no_format_3f
      Samples.no_format (mkStamp "metric-1" 0) (mkStamp "event-1" 0)
      Samples.near_threshold INTAKE "register_patient" "gender" "F" "M"
    = inr (s', Some metric) ∧
    disparity_ratio metric = Py.Fin (7205759403792793 # 9007199254740992) ∧
    threshold_exceeded metric = true ∧
    size (compliance_events s') = 1%nat.
Proof.
  do 2 eexists. split; [vm_compute; reflexivity|].
  split_and!; [reflexivity|reflexivity|vm_compute; reflexivity].
Qed.

(** Four outcomes at 0.8 and three at 0.7999999999999999 against seven at
    1.0: the exact mean of the first group is below 0.8, its float mean is
    0.8, and the metric is not flagged. *)
Lemma mean_is_rounded_before_the_test :
  ∃ s' metric,
    calculate_disparate_impact Samples.flat_stdev Samples.no_format_3f
      Samples.no_format (mkStamp "metric-1" 0) (mkStamp "event-1" 0)
      Samples.rounded_up INTAKE "register_patient" "gender" "F" "M"
    = inr (s', Some metric) ∧
    observed_rate metric = Py.float_of 0.8 ∧
    disparity_ratio metric = Py.Fin (Py.float_of 0.8) ∧
    threshold_exceeded metric = false ∧
    compliance_events s' = ∅.
Proof.
  do 2 eexists. split; [vm_compute; reflexivity|].
  split_and!; vm_compute; reflexivity.
Qed.

End BiasExamples.

(** ** The engine's audit record *)

Section EngineAudit.
Import GovernanceEngine.

Context {FallbackManager EscalationTrigger : Type}.
Variable evaluate_action :
  FallbackManager -> AgentAction ->
  FallbackManager * AgentAction * (bool * option EscalationTrigger * option string).
Variable trigger_escalation :
  FallbackManager -> AgentAction -> EscalationTrigger -> string ->
  FallbackManager * AgentAction * string.

Implicit Types (s : t FallbackManager) (trail : AuditTrailManager.t).

(** Closes a branch that returns after appending the entry [e]. *)
Local Ltac returns_with e :=
  do 2 eexists; (split; [reflexivity|]); exists e; by split.

Lemma risk_of_value_risk_value r : risk_of_value (risk_value r) = inr r.
Proof. by destruct r. Qed.

(** With a fresh id, [log_action] appends one entry carrying the action's
    status, and leaves the access log alone. *)
Lemma log_action_fresh st trail a sid uid ip trail' e :
  AuditTrailManager.log_action st trail a sid uid ip = (trail', e) →
  Py.get (uuid st) (AuditTrailManager.audit_logs trail) = None →
  AuditTrailManager.audit_logs trail'
  = AuditTrailManager.audit_logs trail ++ [(log_id e, e)] ∧
  log_id e = uuid st ∧
  log_status e = action_status a.
Proof.
  unfold AuditTrailManager.log_action. intros [= <- <-] Hfresh. cbn.
  by rewrite (pydict_set_fresh _ _ _ Hfresh).
Qed.

(** On the entry just appended, [update_log_outcome] succeeds and rewrites
    that entry in place. *)
Lemma update_last_entry trail logs e out st trail' ok :
  AuditTrailManager.audit_logs trail = logs ++ [(log_id e, e)] →
  Py.get (log_id e) logs = None →
  AuditTrailManager.update_log_outcome trail (log_id e) out st None
  = (trail', ok) →
  ∃ e', AuditTrailManager.audit_logs trail' = logs ++ [(log_id e', e')] ∧
        log_status e' = st.
Proof.
  intros Hlogs Hfresh. unfold AuditTrailManager.update_log_outcome.
  rewrite Hlogs, (pydict_get_app_fresh _ _ _ Hfresh). intros [= <- _].
  cbn. rewrite (pydict_set_app_last _ _ _ _ Hfresh).
  by exists (AuditTrailManager.update_entry e (api_calls e) (human_override e)
               (override_by e) (override_reason e) out st (modifications e)).
Qed.

Lemma evaluate_gate_total st gates a :
  RiskGateManager.rules gates ≠ [] →
  ∃ gates' a' can_proceed request,
    RiskGateManager.evaluate_gate st gates a
    = inr (gates', a', (can_proceed, request)).
Proof.
  intros Hne. unfold RiskGateManager.evaluate_gate.
  destruct (get_rule_total gates
              (if truthy_risk (action_risk_level a) then action_risk_level a
               else RiskGateManager.classify_risk a) Hne) as [rule ->].
  cbn [Py.bind]. unfold RiskGateManager._create_approval_request.
  repeat (match goal with |- context [if ?c then _ else _] => destruct c end);
    by do 4 eexists.
Qed.

(** C1, as the code has it.  With a non-empty rule table and a log id that
    is not yet a key of the audit store, [process_action] returns, and:
    on permission denial, escalation, gate block and execution it has added
    exactly one audit entry, whose status is the status of the action it
    returns; on subject-access denial it has added no audit entry but one
    failed-access record, and returns the action REJECTED. *)
Theorem process_action_audit_record d s a uid session_id ip_address :
  RiskGateManager.rules (risk_gates s) ≠ [] →
  Py.get (uuid (d_log d)) (audit_entries s) = None →
  ∃ s' resp,
    process_action evaluate_action trigger_escalation d s a uid session_id
      ip_address = inr (s', resp) ∧
    if subject_access_denied s a uid
    then one_access_denial d s s' resp
    else one_matching_entry s s' resp.
Proof.
  intros Hrules Hfresh. unfold process_action, subject_access_denied.
  destruct (RBACManager.check_permission _ _ _ _ _ _) as [[] reason]; cbn [negb fst andb].
  2:{ destruct (AuditTrailManager.log_action _ _ _ _ _ _) as [trail e] eqn:Hlog.
      destruct (log_action_fresh _ _ _ _ _ _ _ _ Hlog Hfresh) as (Hlogs & _ & Hst).
      returns_with e. }
  destruct (patient_access_denial s a uid) as [[pid why]|].
  { do 2 eexists. split; [reflexivity|]. rewrite bool_decide_true by eauto.
    split_and!; [done..|]. eexists. by split. }
  rewrite bool_decide_false by (by intros [? [=]]).
  destruct (evaluate_action _ _) as [[fb a1] [[escalate trigger] why]].
  destruct escalate; [destruct trigger as [trg|]|].
  1:{ destruct (trigger_escalation _ _ _ _) as [[fb' a2] eid].
      unfold AuditTrailManager.log_escalation.
      rewrite risk_of_value_risk_value. cbn [Py.bind Py.ret].
      destruct (AuditTrailManager.log_action _ _ _ _ _ _) as [trail e] eqn:Hlog.
      destruct (log_action_fresh _ _ _ _ _ _ _ _ Hlog Hfresh) as (Hlogs & _ & Hst).
      returns_with e. }
  all: cbn [risk_gates set_fallback];
    destruct (evaluate_gate_total (d_request d) (risk_gates s) a1 Hrules)
      as (gates & a2 & can_proceed & request & ->); cbn [Py.bind];
    destruct (AuditTrailManager.log_action _ _ _ _ _ _) as [trail e] eqn:Hlog;
    destruct (log_action_fresh _ _ _ _ _ _ _ _ Hlog Hfresh) as (Hlogs & Hid & Hst);
    (destruct can_proceed; cbn [negb];
     [|destruct request; returns_with e]);
    destruct (_execute_action _ _) as [a3 res];
    destruct (fold_left _ _ (a3, res)) as [a4 res'];
    rewrite <- Hid in Hfresh;
    destruct (default true (hr_success res'));
    destruct (AuditTrailManager.update_log_outcome _ _ _ _ _) as [trail' ok] eqn:Hup;
    destruct (update_last_entry _ _ _ _ _ _ _ Hlogs Hfresh Hup) as (e' & Hlogs' & Hst');
    returns_with e'.
Qed.

End EngineAudit.

Section EngineExamples.
Import GovernanceEngine.

(** The terminal status and the stored audit statuses on each branch:
    permission denial (an unknown user), escalation, gate block, execution
    without a handler and with a handler that raises, and subject-access
    denial, which stores no audit entry. *)
Lemma process_action_branches :
  Samples.outcome_of Samples.engine Samples.schedule_appointment "u-nobody"
  = Some (REJECTED, [REJECTED]) ∧
  Samples.outcome_of Samples.engine Samples.unsure_appointment "u-nurse"
  = Some (ESCALATED, [ESCALATED]) ∧
  Samples.outcome_of Samples.engine Samples.medication_change "u-admin"
  = Some (AWAITING_APPROVAL, [AWAITING_APPROVAL]) ∧
  Samples.outcome_of Samples.engine Samples.schedule_appointment "u-nurse"
  = Some (COMPLETED, [COMPLETED]) ∧
  Samples.outcome_of Samples.engine_with_failing_handler
    Samples.schedule_appointment "u-nurse"
  = Some (FAILED, [FAILED]) ∧
  Samples.outcome_of Samples.engine Samples.submit_claim "u-bill"
  = Some (REJECTED, []).
Proof. split_and!; vm_compute; reflexivity. Qed.

Lemma process_action_audit_record_witness :
  ∃ s' resp,
    process_action Samples.evaluate_action Samples.trigger_escalation
      Samples.draws Samples.engine Samples.schedule_appointment "u-nurse"
      (Some "sess-1") None = inr (s', resp) ∧
    one_matching_entry Samples.engine s' resp.
Proof.
  assert (RiskGateManager.rules (risk_gates Samples.engine) ≠ []) as Hrules
    by (vm_compute; discriminate).
  assert (Py.get (uuid (d_log Samples.draws)) (audit_entries Samples.engine)
          = None) as Hfresh by reflexivity.
  destruct (process_action_audit_record Samples.evaluate_action
              Samples.trigger_escalation Samples.draws Samples.engine
              Samples.schedule_appointment "u-nurse" (Some "sess-1") None
              Hrules Hfresh) as (s' & resp & Hrun & Hprop).
  replace (subject_access_denied Samples.engine Samples.schedule_appointment
             "u-nurse") with false in Hprop by (vm_compute; reflexivity).
  exists s', resp. exact (conj Hrun Hprop).
Defined.

(** C1 fails as stated: the billing clerk may submit claims, but not write
    to a patient's data; [process_action] returns the action REJECTED, and
    the audit store, empty before, is empty after. *)
Lemma patient_denial_adds_no_audit_entry :
  ∃ s' resp,
    process_action Samples.evaluate_action Samples.trigger_escalation
      Samples.draws Samples.engine Samples.submit_claim "u-bill"
      (Some "sess-1") None = inr (s', resp) ∧
    action_status (action resp) = REJECTED ∧
    audit_entries s' = [] ∧
    ¬ one_matching_entry Samples.engine s' resp.
Proof.
  eexists _, _. split; [vm_compute; reflexivity|].
  split_and!; [reflexivity..|].
  intros (e & Happ & _). vm_compute in Happ. discriminate Happ.
Qed.

End EngineExamples.

(** * Further properties *)

(** ** The gate and its rule table *)

Section GateShape.
Import RiskGateManager Statements.

Lemma Qltb_false_le x y : Py.Qltb x y = false → (y <= x)%Q.
Proof.
  unfold Py.Qltb. intros H. apply Qle_bool_iff.
  by destruct (Qle_bool y x).
Qed.

(** What [_create_approval_request] leaves behind. *)
Lemma create_approval_request_spec st s a rule why s' a' r :
  _create_approval_request st s a rule why = (s', a', r) →
  action_status a' = AWAITING_APPROVAL ∧
  rules s' = rules s ∧
  pending_approvals s' = <[uuid st := r]> (pending_approvals s) ∧
  request_id r = uuid st ∧ request_status r = "PENDING" ∧
  current_approvals r = 0%Z ∧ approved_by r = [] ∧
  required_approvers r = rule_required_approvers rule ∧
  request_action_id r = action_id a ∧
  priority r = (if bool_decide (action_risk_level a = CRITICAL)
                then "URGENT" else "HIGH").
Proof. unfold _create_approval_request. by intros [= <- <- <-]. Qed.

(** The two shapes of a gate result.  Without a request the action proceeds:
    its level is LOW or MEDIUM, the rule in force asks for no approval, the
    confidence is not below the rule's threshold, the manager is unchanged
    and the action is APPROVED.  With a request the action does not proceed:
    the request is stored under the drawn id, PENDING with no approvals, and
    the action is AWAITING_APPROVAL.  [(False, None)] is never returned. *)
Theorem gate_returns_request_iff_blocked st s a s' a' can_proceed request :
  evaluate_gate st s a = inr (s', a', (can_proceed, request)) →
  match request with
  | None =>
      can_proceed = true ∧ s' = s ∧ action_status a' = APPROVED ∧
      (action_risk_level a' = LOW ∨ action_risk_level a' = MEDIUM) ∧
      ∃ rule, _get_rule_for_risk_level s (action_risk_level a') = inr rule ∧
              rule_requires_approval rule = false ∧
              (confidence_threshold rule <= action_confidence_score a)%Q
  | Some r =>
      can_proceed = false ∧ action_status a' = AWAITING_APPROVAL ∧
      rules s' = rules s ∧
      pending_approvals s' = <[uuid st := r]> (pending_approvals s) ∧
      request_id r = uuid st ∧ request_status r = "PENDING" ∧
      current_approvals r = 0%Z ∧ approved_by r = [] ∧
      request_action_id r = action_id a
  end.
Proof.
  unfold evaluate_gate. rewrite truthy_risk_true, set_action_risk_level_same.
  destruct (_get_rule_for_risk_level s (action_risk_level a)) as [e|rule] eqn:Hrule;
    [by intros [=]|]. cbn [Py.bind].
  destruct (Py.Qltb _ _) eqn:Hconf;
    [|destruct (rule_requires_approval rule) eqn:Hneeds;
      [|case_bool_decide as Hlow; [|case_bool_decide as Hmed]]].
  all: try (destruct (_create_approval_request _ _ _ _ _) as [[s1 a1] r1] eqn:Hmk;
            intros [= <- <- <- <-];
            destruct (create_approval_request_spec _ _ _ _ _ _ _ _ Hmk)
              as (? & ? & ? & ? & ? & ? & ? & _ & ? & _);
            by split_and!).
  - intros [= <- <- <- <-]. cbn. split_and!; [done..|by left|].
    exists rule. split_and!; [done..|]. by apply Qltb_false_le.
  - intros [= <- <- <- <-]. cbn. split_and!; [done..|by right|].
    exists rule. split_and!; [done..|]. by apply Qltb_false_le.
Qed.

Lemma gate_returns_request_iff_blocked_witness :
  ∃ s' a' r,
    evaluate_gate (mkStamp "req-2" 0) Samples.default_gates
      Samples.medication_change = inr (s', a', (false, Some r)) ∧
    pending_approvals s' !! "req-2" = Some r ∧
    action_status a' = AWAITING_APPROVAL.
Proof.
  destruct (evaluate_gate (mkStamp "req-2" 0) Samples.default_gates
              Samples.medication_change) as [e|[[s' a'] [cp [r|]]]] eqn:Hrun;
    [by vm_compute in Hrun|..].
  - destruct (gate_returns_request_iff_blocked _ _ _ _ _ _ _ Hrun)
      as (-> & Hst & _ & Hpend & _).
    exists s', a', r. split_and!; [done| |done].
    rewrite Hpend. apply lookup_insert_eq.
  - by vm_compute in Hrun.
Defined.

(** ** Adding rules *)

Lemma find_app_found {A} (p : A -> bool) l1 l2 x :
  List.find p l1 = Some x → List.find p (l1 ++ l2) = Some x.
Proof.
  induction l1 as [|y l1 IH]; cbn; [done|]. destruct (p y); [done|]. apply IH.
Qed.

Lemma values_app {V} (d1 d2 : Py.pydict V) :
  Py.values (d1 ++ d2) = Py.values d1 ++ Py.values d2.
Proof. unfold Py.values. apply map_app. Qed.

(** A level that has a rule keeps it when a rule is added under a new id:
    lookup takes the first rule of the level in insertion order, and a new id
    is stored last. *)
Lemma add_rule_keeps_lookup s rule risk found :
  Py.get (rule_id rule) (rules s) = None →
  List.find (fun r => bool_decide (rule_risk_level r = risk))
    (Py.values (rules s)) = Some found →
  _get_rule_for_risk_level (add_rule rule s) risk = inr found ∧
  List.find (fun r => bool_decide (rule_risk_level r = risk))
    (Py.values (rules (add_rule rule s))) = Some found.
Proof.
  intros Hfresh Hfound. unfold _get_rule_for_risk_level, add_rule. cbn [rules].
  rewrite (pydict_set_fresh _ _ _ Hfresh), values_app.
  by rewrite (find_app_found _ _ _ _ Hfound).
Qed.

Lemma get_set_other_none {V} (d : Py.pydict V) k k' v :
  k ≠ k' → Py.get k' d = None → Py.get k' (Py.set k v d) = None.
Proof. intros Hne Hnone. by rewrite pydict_get_set_ne. Qed.

(** The ids of [extra] are pairwise distinct and none is a key of [d]. *)
Fixpoint new_ids (d : Py.pydict GovernanceRule) (extra : list GovernanceRule)
  : Prop :=
  match extra with
  | [] => True
  | r :: rest =>
      Py.get (rule_id r) d = None ∧ new_ids (Py.set (rule_id r) r d) rest
  end.

(** Rules added under new ids never take over a level that already has a
    rule: after any number of [add_rule] calls the lookup for that level
    returns the rule it returned before. *)
Theorem added_rules_never_shadow extra : ∀ s risk found,
  new_ids (rules s) extra →
  List.find (fun r => bool_decide (rule_risk_level r = risk))
    (Py.values (rules s)) = Some found →
  _get_rule_for_risk_level (fold_left (fun s r => add_rule r s) extra s) risk
  = inr found.
Proof.
  induction extra as [|r extra IH]; intros s risk found Hnew Hfound.
  - cbn. unfold _get_rule_for_risk_level. by rewrite Hfound.
  - destruct Hnew as [Hfresh Hrest]. cbn [fold_left].
    destruct (add_rule_keeps_lookup s r risk found Hfresh Hfound) as [_ Hfound'].
    by apply IH.
Qed.

End GateShape.

Section GateExamples.
Import RiskGateManager Statements.

Lemma added_rules_never_shadow_witness :
  ∃ found,
    _get_rule_for_risk_level
      (add_rule Samples.lenient_low_rule Samples.default_gates) LOW
    = inr found ∧
    rule_name found = "low_risk_auto_execute" ∧
    confidence_threshold found = 0.7%Q.
Proof.
  eexists. split_and!.
  - apply (added_rules_never_shadow [Samples.lenient_low_rule]
             Samples.default_gates LOW).
    + split; [reflexivity|exact I].
    + vm_compute. reflexivity.
  - reflexivity.
  - reflexivity.
Defined.

End GateExamples.

(** ** Approval processing *)

Section ApprovalFrame.
Import RiskGateManager Statements.

(** [process_approval] addresses one request: an unknown id changes nothing
    and reports [False]; a known id leaves the rules, every other request
    and the set of stored ids as they were. *)
Theorem process_approval_touches_one_request s rid who approved why :
  (pending_approvals s !! rid = None →
   process_approval s rid who approved why = (s, false)) ∧
  rules (fst (process_approval s rid who approved why)) = rules s ∧
  (∀ rid', rid' ≠ rid →
     pending_approvals (fst (process_approval s rid who approved why)) !! rid'
     = pending_approvals s !! rid') ∧
  dom (pending_approvals (fst (process_approval s rid who approved why)))
  = dom (pending_approvals s).
Proof.
  unfold process_approval.
  destruct (pending_approvals s !! rid) as [req|] eqn:Hreq; [|done].
  split; [done|].
  destruct approved; [destruct (_ <=? _)%Z|]; cbn;
    (split_and!; [done|by intros; rewrite lookup_insert_ne|]);
    rewrite dom_insert_L; apply elem_of_dom_2 in Hreq;
    apply subseteq_union_1_L; by apply singleton_subseteq_l.
Qed.

(** The part of a request no decision can alter. *)
Definition request_subject (r : ApprovalRequest)
  : string * string * AgentType * string * option string * RiskLevel * Z * blob :=
  (request_id r, request_action_id r, request_agent_type r,
   request_action_type r, request_patient_id r, request_risk_level r,
   required_approvers r, details r).

(** Through any sequence of decisions on a stored request, the request stays
    stored, what it asks approval for and how many approvers it needs never
    change, and the counter moves in step with the approver list: their
    difference is constant, so a request created by the gate always has
    [current_approvals = len(approved_by)]. *)
Theorem decisions_keep_request_subject calls : ∀ s rid req,
  pending_approvals s !! rid = Some req →
  ∃ req', pending_approvals (process_approvals s rid calls) !! rid = Some req' ∧
          request_subject req' = request_subject req ∧
          (current_approvals req' - Z.of_nat (length (approved_by req'))
           = current_approvals req - Z.of_nat (length (approved_by req)))%Z.
Proof.
  induction calls as [|[[who approved] why] calls IH]; intros s rid req Hreq.
  - exists req. by split_and!.
  - unfold process_approvals. cbn [fold_left]. destruct approved.
    + rewrite (process_approval_approve _ _ _ _ _ Hreq). cbn [fst].
      match goal with |- context [fold_left _ calls ?s0] =>
        destruct (IH s0 rid _ (lookup_insert_eq _ _ _))
          as (req' & Hreq' & Hsub & Hcnt) end.
      exists req'. split; [exact Hreq'|]. rewrite Hsub, Hcnt. cbn.
      split; [done|]. rewrite length_app. cbn. lia.
    + rewrite (process_approval_reject _ _ _ _ _ Hreq). cbn [fst].
      match goal with |- context [fold_left _ calls ?s0] =>
        destruct (IH s0 rid _ (lookup_insert_eq _ _ _))
          as (req' & Hreq' & Hsub & Hcnt) end.
      exists req'. split; [exact Hreq'|]. by rewrite Hsub, Hcnt.
Qed.

(** The calls of a run of approvals by [whos], in order. *)
Definition approve_calls (whos : list string) : list decision :=
  map (fun who => (who, true, None)) whos.

Lemma approve_calls_state whos : ∀ s rid req,
  pending_approvals s !! rid = Some req →
  pending_approvals (process_approvals s rid (approve_calls whos)) !! rid
  = Some (update_request req
            (current_approvals req + Z.of_nat (length whos))
            (approved_by req ++ whos) (rejected_by req) (rejection_reason req)
            (if (0 <? length whos)%nat
                && (required_approvers req
                    <=? current_approvals req + Z.of_nat (length whos))%Z
             then "APPROVED" else request_status req)).
Proof.
  induction whos as [|who whos IH]; intros s rid req Hreq.
  - cbn. rewrite Hreq, Z.add_0_r, app_nil_r. by destruct req.
  - unfold approve_calls, process_approvals. cbn [map fold_left].
    rewrite (process_approval_approve _ _ _ _ _ Hreq). cbn [fst].
    fold (approve_calls whos).
    change (fold_left _ (approve_calls whos) ?s0)
      with (process_approvals s0 rid (approve_calls whos)).
    erewrite IH by apply lookup_insert_eq. cbn.
    rewrite <- app_assoc. cbn [app].
    replace (current_approvals req + 1 + Z.of_nat (length whos))%Z
      with (current_approvals req + Z.pos (Pos.of_succ_nat (length whos)))%Z by lia.
    do 2 f_equal.
    destruct whos as [|w whos]; cbn [length Nat.ltb Nat.leb andb].
    + done.
    + destruct (Z.leb_spec (required_approvers req) (current_approvals req + 1));
        repeat match goal with
               | |- context [(?x <=? ?y)%Z] => destruct (Z.leb_spec x y)
               end; try done; lia.
Qed.

(** Approvals only: after [k >= 1] approving calls the request holds all [k]
    approvers in order and a counter raised by [k], and it is APPROVED exactly
    when the counter has reached [required_approvers]; the call that follows
    reports "fully approved" exactly when its own increment reaches it. *)
Theorem approvals_accumulate_to_threshold s rid req whos next :
  pending_approvals s !! rid = Some req →
  whos ≠ [] →
  pending_approvals (process_approvals s rid (approve_calls whos)) !! rid
  = Some (update_request req
            (current_approvals req + Z.of_nat (length whos))
            (approved_by req ++ whos) (rejected_by req) (rejection_reason req)
            (if (required_approvers req
                 <=? current_approvals req + Z.of_nat (length whos))%Z
             then "APPROVED" else request_status req)) ∧
  snd (process_approval (process_approvals s rid (approve_calls whos)) rid
         next true None)
  = (required_approvers req
     <=? current_approvals req + Z.of_nat (length whos) + 1)%Z.
Proof.
  intros Hreq Hne.
  pose proof (approve_calls_state whos s rid req Hreq) as Hst.
  destruct whos as [|w whos]; [done|]. cbn [length Nat.ltb Nat.leb andb] in Hst.
  split; [exact Hst|].
  by rewrite (process_approval_approve _ _ _ _ _ Hst).
Qed.

End ApprovalFrame.

Section ApprovalFrameExamples.
Import RiskGateManager Statements.

Lemma decisions_keep_request_subject_witness :
  ∃ req',
    pending_approvals
      (process_approvals (Samples.gated "req-1" Samples.code_blue) "req-1"
         [("alice", true, None); ("bob", false, Some "unclear");
          ("carol", true, None)]) !! "req-1" = Some req' ∧
    required_approvers req' = 2%Z ∧
    current_approvals req' = Z.of_nat (length (approved_by req')).
Proof.
  destruct code_blue_request as (req & Hreq & Hneed & Hcur & _).
  destruct (decisions_keep_request_subject
              [("alice", true, None); ("bob", false, Some "unclear");
               ("carol", true, None)] _ _ _ Hreq)
    as (req' & Hreq' & Hsub & Hcnt).
  exists req'. split; [exact Hreq'|].
  assert (approved_by req = []) as Hby.
  { vm_compute in Hreq. by injection Hreq as <-. }
  split.
  - unfold request_subject in Hsub. injection Hsub as _ _ _ _ _ _ -> _.
    exact Hneed.
  - rewrite Hcur, Hby in Hcnt. cbn [length] in Hcnt. lia.
Defined.

Lemma approvals_accumulate_to_threshold_witness :
  status_of
    (process_approvals (Samples.gated "req-1" Samples.code_blue) "req-1"
       (approve_calls ["alice"; "bob"])) "req-1" = Some "APPROVED" ∧
  snd (process_approval
         (process_approvals (Samples.gated "req-1" Samples.code_blue) "req-1"
            (approve_calls ["alice"; "bob"])) "req-1" "carol" true None)
  = true.
Proof.
  destruct code_blue_request as (req & Hreq & Hneed & Hcur & _).
  destruct (approvals_accumulate_to_threshold _ _ _ ["alice"; "bob"] "carol"
              Hreq) as [Hst Hnext]; [done|].
  split.
  - unfold status_of. rewrite Hst, Hneed, Hcur. reflexivity.
  - rewrite Hnext, Hneed, Hcur. reflexivity.
Defined.

End ApprovalFrameExamples.

(** ** Overrides, activation and patient access *)

Section AccessAdministration.
Import RBACManager.

Lemma set_users_same s : set_users (users s) s = s.
Proof. by destruct s. Qed.

Lemma set_permissions_override_same u :
  set_permissions_override (permissions_override u) u = u.
Proof. by destruct u. Qed.

Lemma mem_app_last x xs : Py.mem x (xs ++ [x]) = true.
Proof.
  unfold Py.mem. rewrite existsb_app. cbn.
  rewrite String.eqb_refl. by rewrite orb_true_r.
Qed.

Lemma remove_first_app_last x xs :
  Py.mem x xs = false → Py.remove_first x (xs ++ [x]) = xs.
Proof.
  unfold Py.mem. induction xs as [|y xs IH]; cbn.
  - by rewrite String.eqb_refl.
  - destruct (String.eqb x y); [done|]. cbn. intros H. by rewrite IH.
Qed.

(** A grant succeeds exactly when both users are registered and the granter
    is a system administrator or a clinical director; whether either of them
    is active plays no part.  A refused grant changes nothing. *)
Theorem grant_succeeds_iff_granter_privileged s uid action_ granted_by :
  (snd (grant_permission_override s uid action_ granted_by) = true ↔
   ∃ user granter,
     users s !! uid = Some user ∧ users s !! granted_by = Some granter ∧
     (role granter = SYSTEM_ADMIN ∨ role granter = CLINICAL_DIRECTOR)) ∧
  (snd (grant_permission_override s uid action_ granted_by) = false →
   fst (grant_permission_override s uid action_ granted_by) = s).
Proof.
  unfold grant_permission_override.
  destruct (users s !! uid) as [user|]; [|split; [split|]; [done|by intros (?&?&[=]&_)|done]].
  destruct (users s !! granted_by) as [granter|];
    [|split; [split|]; [done|by intros (?&?&_&[=]&_)|done]].
  case_bool_decide as Hrole; cbn [negb].
  - split; [|by destruct (Py.mem _ _)]. split.
    + intros _. exists user, granter. split_and!; [done..|].
      apply elem_of_cons in Hrole as [->|Hrole]; [by left|].
      apply elem_of_cons in Hrole as [->|Hrole]; [by right|].
      by apply elem_of_nil in Hrole.
    + by destruct (Py.mem _ _).
  - split; [|done]. split; [done|].
    intros (? & g & _ & [= <-] & Hg). exfalso. apply Hrole.
    destruct Hg as [-> | ->]; [left|right; left].
Qed.

(** Once granted, an override lets the user, while active, pass
    [check_permission] for that action on every agent type and under every
    capability requirement: the permission matrix is not consulted. *)
Theorem granted_override_bypasses_matrix s uid user action_ granted_by
    agent_type require_write require_approve :
  users s !! uid = Some user →
  is_active user = true →
  snd (grant_permission_override s uid action_ granted_by) = true →
  check_permission (fst (grant_permission_override s uid action_ granted_by))
    uid agent_type action_ require_write require_approve
  = (true, "Permission granted via override").
Proof.
  intros Hu Hon. unfold grant_permission_override. rewrite Hu.
  destruct (users s !! granted_by) as [granter|]; [|done].
  destruct (negb _); [done|].
  destruct (Py.mem action_ (permissions_override user)) eqn:Hmem; cbn; intros _;
    unfold check_permission; cbn.
  - by rewrite Hu, Hon, Hmem.
  - rewrite lookup_insert_eq. cbn -[Py.mem]. by rewrite Hon, mem_app_last.
Qed.

(** Granting an override the user did not have and revoking it again gives
    back the manager as it was. *)
Theorem grant_then_revoke_restores s uid user action_ granted_by :
  users s !! uid = Some user →
  Py.mem action_ (permissions_override user) = false →
  snd (grant_permission_override s uid action_ granted_by) = true →
  revoke_permission_override
    (fst (grant_permission_override s uid action_ granted_by)) uid action_
  = (s, true).
Proof.
  intros Hu Hmem. unfold grant_permission_override. rewrite Hu, Hmem.
  destruct (users s !! granted_by) as [granter|]; [|done].
  destruct (negb _); [done|]. cbn. intros _.
  unfold revoke_permission_override. cbn. rewrite lookup_insert_eq.
  cbn -[Py.mem Py.remove_first].
  rewrite mem_app_last, (remove_first_app_last _ _ Hmem).
  rewrite insert_insert_eq.
  replace (set_permissions_override _ (set_permissions_override _ user))
    with user by (by destruct user).
  rewrite (insert_id _ _ _ Hu). by destruct s.
Qed.

(** Deactivating an active user and activating the account again gives back
    the manager as it was; in between, every check on the user fails. *)
Theorem deactivate_then_activate_restores s uid user :
  users s !! uid = Some user →
  is_active user = true →
  activate_user (fst (deactivate_user s uid)) uid = (s, true) ∧
  (∀ agent_type action_ require_write require_approve,
     fst (check_permission (fst (deactivate_user s uid)) uid agent_type action_
            require_write require_approve) = false) ∧
  (∀ patient_id access_type,
     fst (check_patient_access (fst (deactivate_user s uid)) uid patient_id
            access_type) = false).
Proof.
  intros Hu Hon. unfold deactivate_user, activate_user. rewrite Hu. cbn.
  split_and!.
  - rewrite lookup_insert_eq, insert_insert_eq.
    replace (set_is_active true (set_is_active false user)) with user
      by (destruct user; cbn in Hon; by subst).
    rewrite (insert_id _ _ _ Hu). by destruct s.
  - intros. unfold check_permission. cbn. by rewrite lookup_insert_eq.
  - intros. unfold check_patient_access. cbn. by rewrite lookup_insert_eq.
Qed.

(** For an active user, [check_patient_access] depends on the role and the
    access type alone, never on the patient: everyone but billing staff is
    let in for every access type (the family portal included, also for
    ["WRITE"]); billing staff only for ["VIEW"] and ["BILLING"]. *)
Theorem patient_access_depends_on_role_only s uid user patient_id access_type :
  users s !! uid = Some user →
  is_active user = true →
  fst (check_patient_access s uid patient_id access_type) = true ↔
  role user ≠ BILLING_STAFF ∨ access_type = "VIEW" ∨ access_type = "BILLING".
Proof.
  intros Hu Hon. unfold check_patient_access. rewrite Hu, Hon. cbn [negb].
  destruct (role user); cbn; try (split; [by left|done]).
  destruct (String.eqb_spec access_type "VIEW") as [->|Hv]; cbn;
    [split; [by right; left|done]|].
  destruct (String.eqb_spec access_type "BILLING") as [->|Hb]; cbn;
    [split; [by right; right|done]|].
  split; [done|]. by intros [?|[?|?]].
Qed.

End AccessAdministration.

Section AccessAdministrationExamples.
Import RBACManager.

Lemma nurse_is_registered :
  ∃ user, users Samples.registered_rbac !! "u-nurse" = Some user ∧
          is_active user = true ∧ role user = NURSE_MANAGER ∧
          permissions_override user = [].
Proof. eexists. split_and!; [vm_compute; reflexivity|reflexivity..]. Qed.

Lemma clerk_is_registered :
  ∃ user, users Samples.registered_rbac !! "u-bill" = Some user ∧
          is_active user = true ∧ role user = BILLING_STAFF.
Proof. eexists. split_and!; [vm_compute; reflexivity|reflexivity..]. Qed.

Lemma granted_override_bypasses_matrix_witness :
  fst (check_permission Samples.registered_rbac "u-nurse" BILLING
         "approve_discharge" true true) = false ∧
  check_permission
    (fst (grant_permission_override Samples.registered_rbac "u-nurse"
            "approve_discharge" "u-admin"))
    "u-nurse" BILLING "approve_discharge" true true
  = (true, "Permission granted via override").
Proof.
  split; [vm_compute; reflexivity|].
  destruct nurse_is_registered as (user & Hu & Hon & _).
  apply (granted_override_bypasses_matrix _ _ user); [exact Hu|exact Hon|].
  vm_compute. reflexivity.
Defined.

Lemma grant_then_revoke_restores_witness :
  revoke_permission_override
    (fst (grant_permission_override Samples.registered_rbac "u-nurse"
            "approve_discharge" "u-admin"))
    "u-nurse" "approve_discharge"
  = (Samples.registered_rbac, true).
Proof.
  destruct nurse_is_registered as (user & Hu & _ & _ & Hov).
  apply (grant_then_revoke_restores _ _ user); [exact Hu| |].
  - by rewrite Hov.
  - vm_compute. reflexivity.
Defined.

Lemma deactivate_then_activate_restores_witness :
  fst (check_permission (fst (deactivate_user Samples.registered_rbac "u-nurse"))
         "u-nurse" SCHEDULING "schedule_appointment" true false) = false ∧
  activate_user (fst (deactivate_user Samples.registered_rbac "u-nurse"))
    "u-nurse" = (Samples.registered_rbac, true).
Proof.
  destruct nurse_is_registered as (user & Hu & Hon & _).
  destruct (deactivate_then_activate_restores _ _ user Hu Hon)
    as (Hback & Hdenied & _).
  split; [apply Hdenied|exact Hback].
Defined.

Lemma patient_access_depends_on_role_only_witness :
  fst (check_patient_access Samples.registered_rbac "u-bill" "PAT001" "WRITE")
  = false.
Proof.
  destruct clerk_is_registered as (user & Hu & Hon & Hrole).
  destruct (fst (check_patient_access Samples.registered_rbac "u-bill"
                   "PAT001" "WRITE")) eqn:Hres; [|reflexivity].
  apply (patient_access_depends_on_role_only _ _ user "PAT001" "WRITE" Hu Hon)
    in Hres as [Hne|[Hv|Hb]]; [by destruct Hne|discriminate Hv|discriminate Hb].
Defined.

End AccessAdministrationExamples.

(** ** The default permission matrix *)

Section PermissionMatrix.
Import RBACManager.

(** What the matrix row of a role grants on an agent type. *)
Definition matrix_allows (r : UserRole) (agent_type : AgentType)
    (action_ : string) (require_write require_approve : bool) : bool :=
  existsb
    (fun '(r', row) =>
       bool_decide (r' = r) && bool_decide (agent_type ∈ row_agents row)
       && row_read row
       && implb require_write (row_write row)
       && implb require_approve (row_approve row)
       && (Py.mem "*" (row_actions row) || Py.mem action_ (row_actions row)))
    permission_matrix.

(** The capabilities cached for a role and an agent type. *)
Definition cached_grant (s : t) (r : UserRole) (agent_type : AgentType)
  : option (list string * bool * bool * bool) :=
  (fun p => (allowed_actions p, read_access p, write_access p, approve_access p))
    <$> _permission_cache s !! (r, agent_type).

(** The capabilities the matrix lists for a role and an agent type. *)
Definition matrix_grant (r : UserRole) (agent_type : AgentType)
  : option (list string * bool * bool * bool) :=
  (fun '(_, row) => (row_actions row, row_read row, row_write row, row_approve row))
    <$> List.find (fun '(r', row) => bool_decide (r' = r)
                                     && bool_decide (agent_type ∈ row_agents row))
          permission_matrix.

(** The cache built by [_initialize_default_permissions] holds, for every
    role and agent type, what the matrix lists, whatever ids were drawn. *)
Lemma default_cache_is_matrix draw r agent_type :
  cached_grant (__init__ draw) r agent_type = matrix_grant r agent_type.
Proof. destruct r, agent_type; vm_compute; reflexivity. Qed.

Lemma check_permission_by_cache s uid user agent_type action_ rw ra :
  users s !! uid = Some user → is_active user = true →
  Py.mem action_ (permissions_override user) = false →
  fst (check_permission s uid agent_type action_ rw ra)
  = match cached_grant s (role user) agent_type with
    | Some (actions, rd, wr, ap) =>
        rd && implb rw wr && implb ra ap
        && (Py.mem "*" actions || Py.mem action_ actions)
    | None => false
    end.
Proof.
  intros Hu Hon Hov. unfold check_permission, cached_grant.
  rewrite Hu, Hon, Hov. cbn [negb].
  destruct (_permission_cache s !! _) as [p|]; cbn -[Py.mem]; [|done].
  destruct (read_access p), rw, (write_access p), ra, (approve_access p),
    (Py.mem "*" (allowed_actions p)), (Py.mem action_ (allowed_actions p)); done.
Qed.

(** With the default permissions, an active user who holds no override for
    the action passes [check_permission] exactly when the matrix row of the
    user's role lists the agent type, grants read access and the required
    write and approve capabilities, and allows the action (by name or by
    ["*"]). *)
Theorem check_permission_follows_matrix draw s uid user agent_type action_
    require_write require_approve :
  _permission_cache s = _permission_cache (__init__ draw) →
  users s !! uid = Some user →
  is_active user = true →
  Py.mem action_ (permissions_override user) = false →
  fst (check_permission s uid agent_type action_ require_write require_approve)
  = matrix_allows (role user) agent_type action_ require_write require_approve.
Proof.
  intros Hcache Hu Hon Hov.
  rewrite (check_permission_by_cache _ _ _ _ _ _ _ Hu Hon Hov).
  unfold cached_grant. rewrite Hcache.
  fold (cached_grant (__init__ draw) (role user) agent_type).
  rewrite default_cache_is_matrix.
  destruct (role user), agent_type; cbn -[Py.mem];
    destruct require_write, require_approve; cbn -[Py.mem];
    rewrite ?orb_false_r, ?andb_true_r; reflexivity.
Qed.

(** With the default permissions and no override for the action: approval
    capability is held by system administrators and clinical directors only,
    and a family-portal user never passes a check that requires write
    access. *)
Theorem capabilities_follow_roles draw s uid user agent_type action_
    require_write require_approve :
  _permission_cache s = _permission_cache (__init__ draw) →
  users s !! uid = Some user →
  is_active user = true →
  Py.mem action_ (permissions_override user) = false →
  fst (check_permission s uid agent_type action_ require_write require_approve)
  = true →
  (require_approve = true →
   role user = SYSTEM_ADMIN ∨ role user = CLINICAL_DIRECTOR) ∧
  (require_write = true → role user ≠ FAMILY_PORTAL).
Proof.
  intros Hcache Hu Hon Hov.
  rewrite (check_permission_by_cache _ _ _ _ _ _ _ Hu Hon Hov).
  unfold cached_grant. rewrite Hcache.
  fold (cached_grant (__init__ draw) (role user) agent_type).
  rewrite default_cache_is_matrix.
  destruct (role user), agent_type, require_write, require_approve;
    cbn -[Py.mem]; intros H; split; intros ?; try done; auto.
Qed.

End PermissionMatrix.

Section PermissionMatrixExamples.
Import RBACManager.

Lemma registered_cache_is_default :
  _permission_cache Samples.registered_rbac
  = _permission_cache (__init__ Samples.permission_draw).
Proof. vm_compute. reflexivity. Qed.

Lemma check_permission_follows_matrix_witness :
  fst (check_permission Samples.registered_rbac "u-nurse" SCHEDULING
         "schedule_appointment" true false) = true ∧
  fst (check_permission Samples.registered_rbac "u-nurse" MEDICATION
         "schedule_appointment" true false) = false.
Proof.
  destruct nurse_is_registered as (user & Hu & Hon & Hrole & Hov).
  rewrite !(check_permission_follows_matrix Samples.permission_draw _ _ user _ _
              _ _ registered_cache_is_default Hu Hon)
    by (by rewrite Hov).
  rewrite Hrole. split; reflexivity.
Defined.

Lemma capabilities_follow_roles_witness :
  ∃ user, users Samples.registered_rbac !! "u-admin" = Some user ∧
          (role user = SYSTEM_ADMIN ∨ role user = CLINICAL_DIRECTOR).
Proof.
  assert (∃ user, users Samples.registered_rbac !! "u-admin" = Some user ∧
                  is_active user = true ∧ permissions_override user = [])
    as (user & Hu & Hon & Hov)
    by (eexists; split_and!; [vm_compute; reflexivity|reflexivity..]).
  exists user. split; [exact Hu|].
  refine (proj1 (capabilities_follow_roles Samples.permission_draw _ _ user
                   MEDICATION "approve" false true registered_cache_is_default
                   Hu Hon _ _) eq_refl).
  - by rewrite Hov.
  - vm_compute. reflexivity.
Defined.

End PermissionMatrixExamples.

(** ** Sorting *)

Section Sorting.
Context {A : Type}.
Implicit Types (before : A -> A -> bool) (l : list A).

Lemma insert_by_perm before x l : Py.insert_by before x l ≡ₚ x :: l.
Proof.
  induction l as [|y l IH]; cbn; [done|].
  destruct (before x y); [done|]. rewrite IH. apply Permutation_swap.
Qed.

Lemma sorted_by_perm before l : Py.sorted_by before l ≡ₚ l.
Proof.
  induction l as [|x l IH]; cbn; [done|].
  rewrite insert_by_perm. by rewrite IH.
Qed.

Lemma insert_by_sorted before x l :
  (∀ a b, before a b = false → before b a = true) →
  (∀ a b c, before a b = true → before b c = true → before a c = true) →
  StronglySorted (fun a b => before a b = true) l →
  StronglySorted (fun a b => before a b = true) (Py.insert_by before x l).
Proof.
  intros Htotal Htrans. induction 1 as [|y l Hl IH Hy]; cbn.
  - repeat constructor.
  - destruct (before x y) eqn:Hxy.
    + constructor; [by constructor|]. constructor; [done|].
      eapply Forall_impl; [exact Hy|]. cbn. eauto.
    + constructor; [exact IH|].
      rewrite (insert_by_perm before x l). constructor; [auto|done].
Qed.

Lemma sorted_by_sorted before l :
  (∀ a b, before a b = false → before b a = true) →
  (∀ a b c, before a b = true → before b c = true → before a c = true) →
  StronglySorted (fun a b => before a b = true) (Py.sorted_by before l).
Proof.
  intros Htotal Htrans. induction l as [|x l IH]; cbn; [constructor|].
  by apply insert_by_sorted.
Qed.

Lemma strongly_sorted_weaken (R R' : A -> A -> Prop) l :
  (∀ a b, R a b → R' a b) → StronglySorted R l → StronglySorted R' l.
Proof.
  intros HR. induction 1 as [|x l Hl IH Hx]; constructor; [done|].
  eapply Forall_impl; [exact Hx|]. cbn. auto.
Qed.

Lemma sorted_desc_sorted (key : A -> Z) l :
  StronglySorted (fun a b => (key b ≤ key a)%Z) (Py.sorted_desc key l).
Proof.
  eapply strongly_sorted_weaken; [|apply sorted_by_sorted].
  - intros a b. cbn. apply Z.leb_le.
  - intros a b. cbn. rewrite Z.leb_gt, Z.leb_le. lia.
  - intros a b c. cbn. rewrite !Z.leb_le. lia.
Qed.

Lemma sorted_asc_sorted (key : A -> Z) l :
  StronglySorted (fun a b => (key a ≤ key b)%Z) (Py.sorted_asc key l).
Proof.
  eapply strongly_sorted_weaken; [|apply sorted_by_sorted].
  - intros a b. cbn. apply Z.leb_le.
  - intros a b. cbn. rewrite Z.leb_gt, Z.leb_le. lia.
  - intros a b c. cbn. rewrite !Z.leb_le. lia.
Qed.

End Sorting.

(** ** Retrieval through the indices *)

Section Retrieval.
Import AuditTrailManager.

Lemma fold_step_integrity ops : ∀ s,
  index_integrity s → index_integrity (fold_left step ops s).
Proof.
  induction ops as [|o ops IH]; intros s Hinv; cbn [fold_left]; [done|].
  apply IH. by apply step_integrity.
Qed.

Lemma elem_of_entries_of s ids e :
  e ∈ entries_of s ids ↔ ∃ lid, lid ∈ ids ∧ Py.get lid (audit_logs s) = Some e.
Proof. unfold entries_of. apply list_elem_of_omap. Qed.

(** Retrieval misses nothing: every entry in the store is returned by
    [get_agent_audit_trail] for its agent type, by [get_patient_audit_trail]
    for its patient id and by [get_session_audit_trail] for its session id
    (an id being a non-empty string), after any sequence of operations, also
    when drawn ids repeat. *)
Theorem trails_return_every_stored_entry ops lid e :
  Py.get lid (audit_logs (run ops)) = Some e →
  e ∈ get_agent_audit_trail (run ops) (log_agent_type e) ∧
  (∀ pid, log_patient_id e = Some pid → Py.truthy_str pid = true →
     e ∈ get_patient_audit_trail (run ops) pid) ∧
  (∀ sid, log_session_id e = Some sid → Py.truthy_str sid = true →
     e ∈ get_session_audit_trail (run ops) sid).
Proof.
  intros Hget.
  destruct (fold_step_integrity ops __init__ init_integrity) as [_ Hidx].
  destruct (Hidx lid e Hget) as (_ & Hagent & Hpatient & Hsession).
  unfold get_agent_audit_trail, get_patient_audit_trail,
    get_session_audit_trail, Py.sorted_desc, Py.sorted_asc.
  split_and!; [|intros pid Hp Ht|intros sid Hs Ht];
    rewrite sorted_by_perm; apply elem_of_entries_of; exists lid; auto.
Qed.

(** The ids drawn by the [log_action] calls of a sequence. *)
Definition logged_ids (ops : list op) : list string :=
  omap (fun o => match o with
                 | LogAction st _ _ _ _ => Some (uuid st)
                 | _ => None
                 end) ops.

(** With no id drawn twice, an index lists under a key only entries of that
    key, each once. *)
Record indices_exact (s : t) (ids : list string) : Prop := {
  exact_keys : ∀ lid, is_Some (Py.get lid (audit_logs s)) → lid ∈ ids;
  exact_patient : ∀ pid lid, lid ∈ listed pid (_log_index_by_patient s) →
    ∃ e, Py.get lid (audit_logs s) = Some e ∧ log_patient_id e = Some pid;
  exact_agent : ∀ ag lid, lid ∈ listed ag (_log_index_by_agent s) →
    ∃ e, Py.get lid (audit_logs s) = Some e ∧ log_agent_type e = ag;
  exact_session : ∀ sid lid, lid ∈ listed sid (_log_index_by_session s) →
    ∃ e, Py.get lid (audit_logs s) = Some e ∧ log_session_id e = Some sid;
  nodup_patient : ∀ pid, NoDup (listed pid (_log_index_by_patient s));
  nodup_agent : ∀ ag, NoDup (listed ag (_log_index_by_agent s));
  nodup_session : ∀ sid, NoDup (listed sid (_log_index_by_session s))
}.

Lemma init_exact : indices_exact __init__ [].
Proof.
  split; cbn; try (intros k lid Hin; unfold listed in Hin;
                   rewrite lookup_empty in Hin; by apply elem_of_nil in Hin);
    try (intros k; unfold listed; rewrite lookup_empty; constructor).
  intros lid [? [=]].
Qed.

Lemma exact_refresh s s' ids :
  indices_exact s ids → refreshes (audit_logs s) (audit_logs s') →
  _log_index_by_patient s' = _log_index_by_patient s →
  _log_index_by_agent s' = _log_index_by_agent s →
  _log_index_by_session s' = _log_index_by_session s →
  indices_exact s' ids.
Proof.
  intros [Hk Hp Ha Hs Np Na Ns] Href Ep Ea Es.
  split; rewrite ?Ep, ?Ea, ?Es; try done.
  - intros lid [e' He'].
    destruct (proj2 (Href lid) e' He') as (e & He & _). apply Hk. eauto.
  - intros pid lid Hin. destruct (Hp pid lid Hin) as (e & He & Hpid).
    destruct (proj1 (Href lid)) as [e' He']; [eauto|].
    destruct (proj2 (Href lid) e' He') as (e0 & He0 & _ & _ & Hpat & _).
    exists e'. split; [done|]. congruence.
  - intros ag lid Hin. destruct (Ha ag lid Hin) as (e & He & Hag).
    destruct (proj1 (Href lid)) as [e' He']; [eauto|].
    destruct (proj2 (Href lid) e' He') as (e0 & He0 & _ & Hag' & _).
    exists e'. split; [done|]. congruence.
  - intros sid lid Hin. destruct (Hs sid lid Hin) as (e & He & Hsid).
    destruct (proj1 (Href lid)) as [e' He']; [eauto|].
    destruct (proj2 (Href lid) e' He') as (e0 & He0 & _ & _ & _ & Hses).
    exists e'. split; [done|]. congruence.
Qed.

Lemma refreshes_refl logs : refreshes logs logs.
Proof. intros lid. split; [done|]. intros e He. exists e. by split. Qed.

Lemma log_action_exact st s ids a session_id user_id ip_address :
  indices_exact s ids → uuid st ∉ ids →
  indices_exact (fst (log_action st s a session_id user_id ip_address))
    (ids ++ [uuid st]).
Proof.
  intros [Hk Hp Ha Hs Np Na Ns] Hnew. unfold log_action. cbn [fst].
  set (lid := uuid st) in *.
  assert (∀ l, is_Some (Py.get l (audit_logs s)) → l ≠ lid) as Hold
    by (intros l Hl ->; by apply Hnew, Hk).
  split; cbn.
  - intros l Hsome. apply elem_of_app.
    destruct (decide (lid = l)) as [<-|Hne]; [right; by left|left].
    rewrite pydict_get_set_ne in Hsome by done. auto.
  - intros pid l Hin.
    assert (l ∈ listed pid (_log_index_by_patient s)
            ∨ (l = lid ∧ action_patient_id a = Some pid)) as [Hl|[-> Hpid]].
    { destruct (action_patient_id a) as [p|]; [|by left].
      destruct (Py.truthy_str p); [|by left].
      apply elem_of_listed_append_at in Hin as [?|[-> ->]]; [by left|by right]. }
    + destruct (Hp pid l Hl) as (e & He & Hpid). exists e. split; [|done].
      rewrite pydict_get_set_ne; [done|]. intros <-. by apply (Hold lid); eauto.
    + rewrite pydict_get_set_eq. eauto.
  - intros ag l Hin.
    apply elem_of_listed_append_at in Hin as [Hl|[<- ->]].
    + destruct (Ha ag l Hl) as (e & He & Hag). exists e. split; [|done].
      rewrite pydict_get_set_ne; [done|]. intros <-. by apply (Hold lid); eauto.
    + rewrite pydict_get_set_eq. eauto.
  - intros sid l Hin.
    assert (l ∈ listed sid (_log_index_by_session s)
            ∨ (l = lid ∧ session_id = Some sid)) as [Hl|[-> Hsid]].
    { destruct session_id as [p|]; [|by left].
      destruct (Py.truthy_str p); [|by left].
      apply elem_of_listed_append_at in Hin as [?|[-> ->]]; [by left|by right]. }
    + destruct (Hs sid l Hl) as (e & He & Hsid). exists e. split; [|done].
      rewrite pydict_get_set_ne; [done|]. intros <-. by apply (Hold lid); eauto.
    + rewrite pydict_get_set_eq. eauto.
  - intros pid. destruct (action_patient_id a) as [p|]; [|done].
    destruct (Py.truthy_str p); [|done].
    destruct (decide (p = pid)) as [->|Hne].
    + rewrite listed_append_at_eq. apply NoDup_app. split_and!; [done| |].
      * intros x Hx ->%list_elem_of_singleton.
        destruct (Hp pid lid Hx) as (e & He & _). by apply (Hold lid); eauto.
      * apply NoDup_singleton.
    + by rewrite listed_append_at_ne.
  - intros ag. destruct (decide (action_agent_type a = ag)) as [->|Hne].
    + rewrite listed_append_at_eq. apply NoDup_app. split_and!; [done| |].
      * intros x Hx ->%list_elem_of_singleton.
        destruct (Ha _ lid Hx) as (e & He & _). by apply (Hold lid); eauto.
      * apply NoDup_singleton.
    + by rewrite listed_append_at_ne.
  - intros sid. destruct session_id as [p|]; [|done].
    destruct (Py.truthy_str p); [|done].
    destruct (decide (p = sid)) as [->|Hne].
    + rewrite listed_append_at_eq. apply NoDup_app. split_and!; [done| |].
      * intros x Hx ->%list_elem_of_singleton.
        destruct (Hs sid lid Hx) as (e & He & _). by apply (Hold lid); eauto.
      * apply NoDup_singleton.
    + by rewrite listed_append_at_ne.
Qed.

Lemma step_exact s ids o :
  indices_exact s ids → (∀ x, x ∈ logged_ids [o] → x ∉ ids) →
  indices_exact (step s o) (ids ++ logged_ids [o]).
Proof.
  intros Hex Hnew. destruct o; cbn [step logged_ids omap];
    rewrite ?app_nil_r.
  - apply log_action_exact; [done|]. apply Hnew. cbn. by left.
  - apply (exact_refresh s _ _ Hex); [apply refreshes_attach|done..].
  - apply (exact_refresh s _ _ Hex); [apply refreshes_refl|done..].
  - unfold log_escalation. destruct (risk_of_value risk_level); cbn;
      apply (exact_refresh s _ _ Hex); try done; apply refreshes_refl.
  - unfold update_log_outcome.
    destruct (Py.get lid (audit_logs s)) as [e|] eqn:He; [|done].
    apply (exact_refresh s _ _ Hex); [|done..].
    eapply refreshes_set; [exact He|done].
  - unfold record_human_override.
    destruct (Py.get lid (audit_logs s)) as [e|] eqn:He; [|done].
    apply (exact_refresh s _ _ Hex); [|done..].
    eapply refreshes_set; [exact He|done].
  - unfold resolve_escalation.
    destruct (escalation_logs s !! eid); cbn; [|done].
    apply (exact_refresh s _ _ Hex); [apply refreshes_refl|done..].
Qed.

Lemma run_exact ops : NoDup (logged_ids ops) → indices_exact (run ops) (logged_ids ops).
Proof.
  induction ops as [|o ops IH] using rev_ind; intros Hnd.
  - apply init_exact.
  - unfold run, logged_ids in *. rewrite fold_left_app, omap_app in *.
    apply NoDup_app in Hnd as (Hnd & Hdisj & _).
    apply step_exact; [by apply IH|].
    intros x Hx Hin. by apply (Hdisj x Hin).
Qed.

(** Every entry of [trail] is stored under its own id and has the property
    [P]; no entry is listed twice. *)
Definition sound_trail (s : t) (P : AuditLogEntry -> Prop)
    (trail : list AuditLogEntry) : Prop :=
  (∀ e, e ∈ trail → P e ∧ Py.get (log_id e) (audit_logs s) = Some e) ∧
  NoDup (log_id <$> trail).

Lemma entries_of_sound s ids P :
  logs_are_indexed s → NoDup ids →
  (∀ lid, lid ∈ ids → ∃ e, Py.get lid (audit_logs s) = Some e ∧ P e) →
  sound_trail s P (entries_of s ids).
Proof.
  intros Hidx Hnd Hall. split.
  - intros e (lid & Hin & He)%elem_of_entries_of.
    destruct (Hall lid Hin) as (e' & He' & HP).
    assert (e' = e) as -> by congruence.
    destruct (Hidx lid e He) as (<- & _). done.
  - assert (log_id <$> entries_of s ids = ids) as ->; [|done].
    unfold entries_of. clear Hnd.
    induction ids as [|lid ids IH]; cbn; [done|].
    destruct (Hall lid) as (e & He & _); [by left|]. rewrite He. cbn.
    destruct (Hidx lid e He) as (-> & _). f_equal.
    apply IH. intros l Hl. apply Hall. by right.
Qed.

Lemma sound_trail_perm s P l l' :
  l ≡ₚ l' → sound_trail s P l' → sound_trail s P l.
Proof.
  intros Hperm [Hin Hnd]. split.
  - intros e He. apply Hin. by rewrite <- Hperm.
  - by rewrite Hperm.
Qed.

(** When no log id was drawn twice, retrieval is exact and ordered: each of
    the three trails holds only stored entries of the key asked for, none
    twice; the patient and agent trails run from the newest entry to the
    oldest, the session trail from the oldest to the newest. *)
Theorem trails_are_exact_and_ordered ops pid ag sid :
  NoDup (logged_ids ops) →
  (sound_trail (run ops) (fun e => log_patient_id e = Some pid)
     (get_patient_audit_trail (run ops) pid) ∧
   StronglySorted (fun a b => (log_timestamp b ≤ log_timestamp a)%Z)
     (get_patient_audit_trail (run ops) pid)) ∧
  (sound_trail (run ops) (fun e => log_agent_type e = ag)
     (get_agent_audit_trail (run ops) ag) ∧
   StronglySorted (fun a b => (log_timestamp b ≤ log_timestamp a)%Z)
     (get_agent_audit_trail (run ops) ag)) ∧
  (sound_trail (run ops) (fun e => log_session_id e = Some sid)
     (get_session_audit_trail (run ops) sid) ∧
   StronglySorted (fun a b => (log_timestamp a ≤ log_timestamp b)%Z)
     (get_session_audit_trail (run ops) sid)).
Proof.
  intros Hnd. destruct (run_exact ops Hnd) as [_ Hp Ha Hs Np Na Ns].
  destruct (fold_step_integrity ops __init__ init_integrity) as [_ Hidx].
  fold (run ops) in Hidx.
  unfold get_patient_audit_trail, get_agent_audit_trail,
    get_session_audit_trail.
  split_and!; try apply sorted_desc_sorted; try apply sorted_asc_sorted;
    (eapply sound_trail_perm; [apply sorted_by_perm|]);
    apply entries_of_sound; auto.
Qed.

End Retrieval.

Section RetrievalExamples.
Import AuditTrailManager.

Lemma trails_return_every_stored_entry_witness :
  ∃ e, Py.get "log-2" (audit_logs Samples.busy_trail) = Some e ∧
       e ∈ get_patient_audit_trail Samples.busy_trail "PAT001" ∧
       e ∈ get_session_audit_trail Samples.busy_trail "sess-1".
Proof.
  assert (∃ e, Py.get "log-2" (audit_logs Samples.busy_trail) = Some e ∧
               log_patient_id e = Some "PAT001" ∧
               log_session_id e = Some "sess-1") as (e & He & Hp & Hs)
    by (eexists; split_and!; [vm_compute; reflexivity|reflexivity..]).
  exists e. split; [exact He|].
  destruct (trails_return_every_stored_entry Samples.busy_ops "log-2" e He)
    as (_ & Hpat & Hses).
  split; [by apply Hpat|by apply Hses].
Defined.

Lemma trails_are_exact_and_ordered_witness :
  log_id <$> get_patient_audit_trail Samples.busy_trail "PAT001"
  = ["log-1"; "log-2"] ∧
  sound_trail Samples.busy_trail (fun e => log_patient_id e = Some "PAT001")
    (get_patient_audit_trail Samples.busy_trail "PAT001").
Proof.
  split; [vm_compute; reflexivity|].
  refine (proj1 (proj1 (trails_are_exact_and_ordered Samples.busy_ops "PAT001"
                         SCHEDULING "sess-1" _))).
  apply (bool_decide_unpack _). vm_compute. reflexivity.
Defined.

End RetrievalExamples.

(** ** Statistics and export *)

Section Reports.
Import AuditTrailManager.

(** The counter a tallying loop builds from a list of keys. *)
Definition tallied (keys : list string) (d : Py.pydict nat) : Py.pydict nat :=
  fold_left (fun d k => Py.incr k d) keys d.

Definition count_of (k : string) (d : Py.pydict nat) : nat := default 0%nat (Py.get k d).

Definition total (d : Py.pydict nat) : nat := sum_list (Py.values d).

Lemma total_set k v (d : Py.pydict nat) :
  (total (Py.set k v d) + count_of k d = total d + v)%nat.
Proof.
  unfold total, count_of, Py.values.
  induction d as [|[k' v'] d IH]; cbn; [lia|].
  destruct (String.eqb k k'); cbn; lia.
Qed.

Lemma total_incr k d : total (Py.incr k d) = S (total d).
Proof.
  unfold Py.incr. pose proof (total_set k (default 0%nat (Py.get k d) + 1) d).
  unfold count_of in *. lia.
Qed.

Lemma count_of_incr k k' d :
  count_of k' (Py.incr k d)
  = (count_of k' d + (if decide (k = k') then 1 else 0))%nat.
Proof.
  unfold count_of, Py.incr. destruct (decide (k = k')) as [<-|Hne].
  - rewrite pydict_get_set_eq. cbn. lia.
  - rewrite pydict_get_set_ne by done. lia.
Qed.

Lemma tallied_spec keys : ∀ d,
  total (tallied keys d) = (total d + length keys)%nat ∧
  ∀ k, count_of k (tallied keys d)
       = (count_of k d + length (filter (fun k' => k' = k) keys))%nat.
Proof.
  induction keys as [|k0 keys IH]; intros d; cbn [tallied fold_left length].
  - split; [by rewrite Nat.add_0_r|]. intros k.
    by rewrite filter_nil, Nat.add_0_r.
  - destruct (IH (Py.incr k0 d)) as [Htot Hcnt]. split.
    + fold (tallied keys (Py.incr k0 d)). rewrite Htot, total_incr.
      by rewrite Nat.add_succ_r.
    + intros k. fold (tallied keys (Py.incr k0 d)).
      rewrite Hcnt, count_of_incr, filter_cons.
      destruct (decide (k0 = k)); cbn [length];
        by rewrite <- ?Nat.add_assoc, ?Nat.add_0_r.
Qed.

Lemma fold_tally logs : ∀ a b c n,
  fold_left tally logs (a, b, c, n)
  = (tallied ((fun e => agent_value (log_agent_type e)) <$> logs) a,
     tallied ((fun e => risk_value (log_risk_level e)) <$> logs) b,
     tallied ((fun e => status_value (log_status e)) <$> logs) c,
     (n + length (filter (fun e => human_override e = true) logs))%nat).
Proof.
  induction logs as [|e logs IH]; intros a b c n.
  - cbn. by rewrite Nat.add_0_r.
  - rewrite filter_cons. cbn [fold_left]. unfold tally at 2. rewrite IH.
    rewrite !fmap_cons. cbn [tallied fold_left]. f_equal.
    destruct (human_override e).
    + rewrite decide_True by done. cbn [length].
      by rewrite <- Nat.add_assoc.
    + by rewrite decide_False by done.
Qed.

Lemma length_filter_fmap_inj {A} (f : A -> string) (P : A -> Prop)
    `{∀ x, Decision (P x)} k (l : list A) :
  (∀ x, f x = k ↔ P x) →
  length (filter (fun k' => k' = k) (f <$> l)) = length (filter P l).
Proof.
  intros Hf. induction l as [|x l IH]; [done|].
  rewrite fmap_cons, !filter_cons.
  destruct (decide (f x = k)) as [Hk|Hk], (decide (P x)) as [Hp|Hp]; cbn;
    try (by rewrite IH); exfalso; [apply Hp, Hf, Hk|apply Hk, Hf, Hp].
Qed.

(** Every count of [get_statistics] is the number of stored entries it
    stands for: per agent type, per risk level and per status (a key that
    never occurred counts 0), each breakdown adding up to the number of
    entries; [human_overrides] counts the overridden entries and so never
    exceeds that number. *)
Theorem statistics_count_the_store s :
  total_audit_logs (get_statistics s) = length (audit_logs s) ∧
  total (by_agent_type (get_statistics s)) = length (audit_logs s) ∧
  total (by_risk_level (get_statistics s)) = length (audit_logs s) ∧
  total (by_status (get_statistics s)) = length (audit_logs s) ∧
  (∀ ag, count_of (agent_value ag) (by_agent_type (get_statistics s))
         = length (filter (fun e => log_agent_type e = ag)
                     (Py.values (audit_logs s)))) ∧
  (∀ r, count_of (risk_value r) (by_risk_level (get_statistics s))
        = length (filter (fun e => log_risk_level e = r)
                    (Py.values (audit_logs s)))) ∧
  (∀ st, count_of (status_value st) (by_status (get_statistics s))
         = length (filter (fun e => log_status e = st)
                     (Py.values (audit_logs s)))) ∧
  human_overrides (get_statistics s)
  = length (filter (fun e => human_override e = true)
              (Py.values (audit_logs s))) ∧
  (human_overrides (get_statistics s) ≤ total_audit_logs (get_statistics s))%nat.
Proof.
  unfold get_statistics. rewrite fold_tally.
  cbn [total_audit_logs by_agent_type by_risk_level by_status human_overrides].
  assert (length (Py.values (audit_logs s)) = length (audit_logs s)) as Hlen
    by apply length_map.
  assert (∀ keys, total (tallied keys []) = length keys) as Htot
    by (intros keys; by rewrite (proj1 (tallied_spec _ _))).
  assert (∀ keys k, count_of k (tallied keys [])
                    = length (filter (fun k' => k' = k) keys)) as Hcnt
    by (intros keys k; by rewrite (proj2 (tallied_spec _ _))).
  split_and!; try done.
  - by rewrite Htot, length_fmap.
  - by rewrite Htot, length_fmap.
  - by rewrite Htot, length_fmap.
  - intros ag. rewrite Hcnt.
    apply length_filter_fmap_inj. intros e. split; [|by intros ->].
    by destruct (log_agent_type e), ag.
  - intros r. rewrite Hcnt.
    apply length_filter_fmap_inj. intros e. split; [|by intros ->].
    by destruct (log_risk_level e), r.
  - intros st. rewrite Hcnt.
    apply length_filter_fmap_inj. intros e. split; [|by intros ->].
    by destruct (log_status e), st.
  - rewrite <- Hlen. apply length_filter.
Qed.

Lemma strongly_sorted_fmap {A B} (R : A -> A -> Prop) (R' : B -> B -> Prop)
    (f : A -> B) (l : list A) :
  (∀ a b, R a b → R' (f a) (f b)) →
  StronglySorted R l → StronglySorted R' (f <$> l).
Proof.
  intros HR. induction 1 as [|x l Hl IH Hx]; cbn; constructor; [done|].
  apply Forall_fmap. eapply Forall_impl; [exact Hx|]. cbn. auto.
Qed.

(** An entry passes the filters of an export. *)
Definition passes (start_date end_date : option Z) (patient_id : option string)
    (agent_type : option AgentType) (e : AuditLogEntry) : Prop :=
  (∀ d, start_date = Some d → (d ≤ log_timestamp e)%Z) ∧
  (∀ d, end_date = Some d → (log_timestamp e ≤ d)%Z) ∧
  (∀ p, patient_id = Some p → Py.truthy_str p = true →
        log_patient_id e = Some p) ∧
  (∀ ag, agent_type = Some ag → log_agent_type e = ag).

Lemma elem_of_opt_filter {B} (o : option B) (P : B -> AuditLogEntry -> Prop)
    `{∀ d x, Decision (P d x)} (l : list AuditLogEntry) e :
  e ∈ match o with Some d => filter (P d) l | None => l end ↔
  e ∈ l ∧ ∀ d, o = Some d → P d e.
Proof.
  destruct o as [d|]; [rewrite list_elem_of_filter|]; split.
  - intros [HP Hin]. split; [done|]. by intros ? [= <-].
  - intros [Hin HP]. split; [by apply HP|done].
  - intros Hin. split; [done|]. by intros ? [=].
  - by intros [Hin _].
Qed.

Lemma elem_of_patient_filter (o : option string) (l : list AuditLogEntry) e :
  e ∈ match o with
      | Some pid =>
          if Py.truthy_str pid
          then filter (fun x => log_patient_id x = Some pid) l else l
      | None => l
      end ↔
  e ∈ l ∧ ∀ p, o = Some p → Py.truthy_str p = true → log_patient_id e = Some p.
Proof.
  destruct o as [pid|]; [destruct (Py.truthy_str pid) eqn:Hp|];
    rewrite ?list_elem_of_filter; split.
  - intros [HP Hin]. split; [done|]. by intros ? [= <-].
  - intros [Hin HP]. split; [by apply HP|done].
  - intros Hin. split; [done|]. intros ? [= <-]. by rewrite Hp.
  - by intros [Hin _].
  - intros Hin. split; [done|]. by intros ? [=].
  - by intros [Hin _].
Qed.

Lemma elem_of_exported_logs s start_date end_date patient_id agent_type e :
  e ∈ exported_logs s start_date end_date patient_id agent_type ↔
  e ∈ Py.values (audit_logs s) ∧
  passes start_date end_date patient_id agent_type e.
Proof.
  unfold exported_logs, passes.
  rewrite (elem_of_opt_filter agent_type (fun ag x => log_agent_type x = ag)).
  rewrite elem_of_patient_filter.
  rewrite (elem_of_opt_filter end_date (fun d x => (log_timestamp x ≤ d)%Z)).
  rewrite (elem_of_opt_filter start_date (fun d x => (d ≤ log_timestamp x)%Z)).
  tauto.
Qed.

(** An export lists exactly the stored entries that pass its filters, from
    the oldest to the newest, and [total_entries] is their number.  An empty
    patient id filters nothing. *)
Theorem export_lists_what_passes now s start_date end_date patient_id agent_type :
  (∀ row,
     row ∈ entries (export_audit_report now s start_date end_date patient_id
                      agent_type) ↔
     ∃ e, row = export_row e ∧ e ∈ Py.values (audit_logs s) ∧
          passes start_date end_date patient_id agent_type e) ∧
  StronglySorted (fun a b => (row_timestamp a ≤ row_timestamp b)%Z)
    (entries (export_audit_report now s start_date end_date patient_id
                agent_type)) ∧
  total_entries (export_audit_report now s start_date end_date patient_id
                   agent_type)
  = length (entries (export_audit_report now s start_date end_date patient_id
                       agent_type)) ∧
  (total_entries (export_audit_report now s start_date end_date patient_id
                    agent_type) ≤ length (audit_logs s))%nat.
Proof.
  unfold export_audit_report. cbn [entries total_entries].
  set (logs := exported_logs s start_date end_date patient_id agent_type).
  assert (Py.sorted_asc log_timestamp logs ≡ₚ logs) as Hperm
    by apply sorted_by_perm.
  split_and!.
  - intros row. rewrite list_elem_of_fmap.
    split.
    + intros (e & -> & He). rewrite Hperm in He.
      apply elem_of_exported_logs in He. eauto.
    + intros (e & -> & He). exists e. split; [done|]. rewrite Hperm.
      by apply elem_of_exported_logs.
  - apply (strongly_sorted_fmap
             (fun a b => (log_timestamp a ≤ log_timestamp b)%Z)); [done|].
    apply sorted_asc_sorted.
  - by rewrite length_fmap, Hperm.
  - subst logs. unfold exported_logs.
    assert (∀ (P : AuditLogEntry -> Prop) `{∀ x, Decision (P x)} l n,
              (length l ≤ n)%nat → (length (filter P l) ≤ n)%nat) as Hle
      by (intros P ? l n Hn; pose proof (length_filter P l); lia).
    destruct agent_type, patient_id as [p|], end_date, start_date;
      try destruct (Py.truthy_str p);
      repeat apply Hle; unfold Py.values; by rewrite length_map.
Qed.

End Reports.

(** ** API calls and matching by action id *)

Section ActionIdMatching.
Import AuditTrailManager.

(** The test [log_api_call] applies to each entry. *)
Definition matches (aid : string) (e : AuditLogEntry) : bool :=
  Py.contains aid (agent_id e) || String.eqb (log_id e) aid.

(** The number of API-call records held by the entries of a store. *)
Definition api_call_total (logs : Py.pydict AuditLogEntry) : nat :=
  sum_list_with (fun kv => length (api_calls kv.2)) logs.

Lemma attach_api_call_spec call aid logs :
  Py.keys (attach_api_call call aid logs) = Py.keys logs ∧
  api_call_total (attach_api_call call aid logs)
  = (api_call_total logs
     + (if existsb (matches aid) (Py.values logs) then 1 else 0))%nat ∧
  (existsb (matches aid) (Py.values logs) = false →
   attach_api_call call aid logs = logs).
Proof.
  unfold Py.keys, Py.values, api_call_total, matches.
  induction logs as [|[k e] logs (IHk & IHt & IHn)]; cbn; [done|].
  destruct (Py.contains aid (agent_id e) || String.eqb (log_id e) aid); cbn.
  - split_and!; [done| |done]. rewrite length_app. cbn. lia.
  - rewrite IHk, IHt. split_and!; [done|lia|]. intros H. by rewrite IHn.
Qed.

(** [log_api_call] always stores the call under its id and returns that id.
    The audit store keeps its keys and their order, the indices are
    untouched, and the call record is appended to exactly one entry when
    some entry matches the action id, to none otherwise. *)
Theorem api_call_is_recorded_once s api_call aid :
  snd (log_api_call s api_call aid) = call_id api_call ∧
  api_call_logs (fst (log_api_call s api_call aid)) !! call_id api_call
  = Some api_call ∧
  Py.keys (audit_logs (fst (log_api_call s api_call aid)))
  = Py.keys (audit_logs s) ∧
  api_call_total (audit_logs (fst (log_api_call s api_call aid)))
  = (api_call_total (audit_logs s)
     + (if existsb (matches aid) (Py.values (audit_logs s)) then 1 else 0))%nat ∧
  _log_index_by_patient (fst (log_api_call s api_call aid))
  = _log_index_by_patient s ∧
  _log_index_by_agent (fst (log_api_call s api_call aid))
  = _log_index_by_agent s ∧
  _log_index_by_session (fst (log_api_call s api_call aid))
  = _log_index_by_session s.
Proof.
  unfold log_api_call. cbn.
  destruct (attach_api_call_spec
              [("call_id", VStr (call_id api_call));
               ("service", VStr (service_name api_call));
               ("endpoint", VStr (endpoint api_call));
               ("status_code", VInt (status_code api_call));
               ("latency_ms", VFloat (latency_ms api_call));
               ("timestamp", VIso (call_timestamp api_call))]
              aid (audit_logs s)) as (Hk & Ht & _).
  split_and!; try done. apply lookup_insert_eq.
Qed.

Lemma length_append (a b : string) :
  String.length (a +:+ b) = (String.length a + String.length b)%nat.
Proof. induction a as [|c a IH]; [done|]. exact (f_equal S IH). Qed.

Lemma length_take_str n (x : string) :
  (String.length (Py.take_str n x) ≤ n)%nat ∧
  ((String.length x ≤ n)%nat → Py.take_str n x = x).
Proof.
  unfold Py.take_str. revert x.
  induction n as [|n IH]; intros [|c x]; cbn; try (split; [lia|done]).
  - split; [lia|]. lia.
  - destruct (IH x) as [Hle Heq]. split; [lia|].
    intros Hx. rewrite Heq; [done|lia].
Qed.

Lemma prefix_length (p x : string) :
  String.prefix p x = true → (String.length p ≤ String.length x)%nat.
Proof.
  revert x. induction p as [|c p IH]; intros [|d x]; cbn; try lia; try done.
  destruct (Ascii.ascii_dec c d); [|done]. intros H. apply IH in H. lia.
Qed.

Lemma contains_length (needle hay : string) :
  Py.contains needle hay = true →
  (String.length needle ≤ String.length hay)%nat.
Proof.
  induction hay as [|c hay IH]; cbn [Py.contains].
  - rewrite orb_false_r. apply prefix_length.
  - intros [H|H]%orb_true_iff.
    + by apply prefix_length in H.
    + apply IH in H. cbn. lia.
Qed.

Lemma prefix_refl (x : string) : String.prefix x x = true.
Proof.
  induction x as [|c x IH]; cbn; [done|].
  by destruct (Ascii.ascii_dec c c).
Qed.

Lemma contains_refl (x : string) : Py.contains x x = true.
Proof. destruct x; cbn [Py.contains]; by rewrite prefix_refl. Qed.

Lemma contains_append (a x y : string) :
  Py.contains x y = true → Py.contains x (a +:+ y) = true.
Proof.
  intros Hy. induction a as [|c a IH]; [done|].
  change (String c a +:+ y) with (String c (a +:+ y)).
  cbn [Py.contains]. rewrite IH. apply orb_true_r.
Qed.

(** Every stored entry sits under its own [log_id] and has an [agent_id] of
    the form [log_action] gives it: at most 29 characters. *)
Definition entries_as_logged (logs : Py.pydict AuditLogEntry) : Prop :=
  Forall (fun kv => log_id kv.2 = kv.1 ∧ (String.length (agent_id kv.2) ≤ 29)%nat)
    logs.

Lemma Forall_pydict_set {V} (P : string * V -> Prop) k v (d : Py.pydict V) :
  P (k, v) → Forall P d → Forall P (Py.set k v d).
Proof.
  intros Hnew. induction 1 as [|[k' v'] d Hkv Hd IH]; cbn.
  - by repeat constructor.
  - destruct (String.eqb k k'); by constructor.
Qed.

Lemma pydict_get_elem {V} k v (d : Py.pydict V) :
  Py.get k d = Some v → (k, v) ∈ d.
Proof.
  induction d as [|[k' v'] d IH]; cbn; [done|].
  destruct (String.eqb_spec k k') as [->|Hne].
  - intros [= ->]. by left.
  - intros H. right. by apply IH.
Qed.

Lemma pydict_elem_get {V} k v (d : Py.pydict V) :
  (k, v) ∈ d → is_Some (Py.get k d).
Proof.
  induction d as [|[k' v'] d IH]; cbn; [by intros ?%elem_of_nil|].
  intros [[= <- <-]|Hin]%elem_of_cons.
  - rewrite String.eqb_refl. eauto.
  - destruct (String.eqb k k'); eauto.
Qed.

Lemma agent_value_length ag : (String.length (agent_value ag) ≤ 20)%nat.
Proof. destruct ag; cbn; lia. Qed.

Lemma step_entries_as_logged s o :
  entries_as_logged (audit_logs s) → entries_as_logged (audit_logs (step s o)).
Proof.
  intros Hall. destruct o; cbn [step].
  - unfold log_action. cbn. apply Forall_pydict_set; [|done]. cbn.
    split; [done|]. rewrite !length_append. cbn.
    pose proof (agent_value_length (action_agent_type a)).
    pose proof (proj1 (length_take_str 8 (action_id a))). lia.
  - unfold log_api_call. cbn. unfold entries_as_logged in *.
    induction Hall as [|[k e] logs Hkv Hl IH]; cbn; [constructor|].
    destruct (_ || _); by constructor.
  - done.
  - unfold log_escalation. by destruct (risk_of_value risk_level).
  - unfold update_log_outcome.
    destruct (Py.get lid (audit_logs s)) as [e|] eqn:He; [|done]. cbn.
    apply Forall_pydict_set; [|done].
    apply pydict_get_elem in He.
    by apply (proj1 (Forall_forall _ _) Hall) in He.
  - unfold record_human_override.
    destruct (Py.get lid (audit_logs s)) as [e|] eqn:He; [|done]. cbn.
    apply Forall_pydict_set; [|done].
    apply pydict_get_elem in He.
    by apply (proj1 (Forall_forall _ _) Hall) in He.
  - unfold resolve_escalation. by destruct (escalation_logs s !! eid).
Qed.

Lemma run_entries_as_logged ops : entries_as_logged (audit_logs (run ops)).
Proof.
  unfold run. assert (entries_as_logged (audit_logs __init__)) as Hinit
    by constructor.
  revert Hinit. generalize __init__ as s.
  induction ops as [|o ops IH]; intros s Hs; cbn [fold_left]; [done|].
  by apply IH, step_entries_as_logged.
Qed.

(** An action id of more than 29 characters is contained in no logged
    [agent_id]. *)
Lemma long_id_not_contained logs aid :
  entries_as_logged logs → (29 < String.length aid)%nat →
  ∀ kv, kv ∈ logs → Py.contains aid (agent_id kv.2) = false.
Proof.
  intros Hall Hlong kv Hin.
  apply (proj1 (Forall_forall _ _) Hall) in Hin as [_ Hlen].
  destruct (Py.contains aid (agent_id kv.2)) eqn:Hc; [|done].
  apply contains_length in Hc. lia.
Qed.

(** An action id as [uuid4] draws it (36 characters; anything beyond 29)
    attaches an API call to no audit entry: [agent_id] keeps only the first
    eight characters of the action id, so the containment test fails on every
    logged entry.  Only an id that is itself a log id is matched. *)
Theorem api_calls_miss_long_action_ids ops api_call aid :
  (29 < String.length aid)%nat →
  Py.get aid (audit_logs (run ops)) = None →
  audit_logs (fst (log_api_call (run ops) api_call aid)) = audit_logs (run ops).
Proof.
  intros Hlong Hnone. unfold log_api_call. cbn.
  apply attach_api_call_spec.
  pose proof (run_entries_as_logged ops) as Hall.
  apply not_true_iff_false. intros Hex. apply existsb_exists in Hex as (e & Hin & Hm).
  unfold Py.values in Hin. apply in_map_iff in Hin as ([k e'] & <- & Hin).
  apply list_elem_of_In in Hin. unfold matches in Hm. cbn in Hm.
  pose proof (long_id_not_contained _ _ Hall Hlong _ Hin) as Hc. cbn in Hc.
  rewrite Hc in Hm. cbn in Hm.
  apply String.eqb_eq in Hm.
  pose proof (proj1 (Forall_forall _ _) Hall _ Hin) as [Hid _]. cbn in Hid.
  apply pydict_elem_get in Hin as [? Hsome]. congruence.
Qed.

End ActionIdMatching.

(** ** Human override through the engine *)

Section HumanOverride.
Import AuditTrailManager.
Context {FallbackManager : Type}.
Implicit Types s : GovernanceEngine.t FallbackManager.

Lemma find_contains_none aid (logs : Py.pydict AuditLogEntry) :
  (∀ kv, kv ∈ logs → Py.contains aid (agent_id kv.2) = false) →
  List.find (fun kv => Py.contains aid (agent_id kv.2)) logs = None.
Proof.
  induction logs as [|kv logs IH]; intros Hall; cbn; [done|].
  rewrite (Hall kv) by by left. apply IH. intros kv' Hin. apply Hall. by right.
Qed.

Lemma find_contains_some aid (logs : Py.pydict AuditLogEntry) kv :
  kv ∈ logs → Py.contains aid (agent_id kv.2) = true →
  ∃ lid e, List.find (fun kv => Py.contains aid (agent_id kv.2)) logs
           = Some (lid, e) ∧ (lid, e) ∈ logs.
Proof.
  induction logs as [|[k e] logs IH]; [by intros ?%elem_of_nil|].
  intros Hin Hc. cbn.
  destruct (Py.contains aid (agent_id e)) eqn:He.
  - exists k, e. split; [done|by left].
  - apply elem_of_cons in Hin as [->|Hin]; [cbn in Hc; congruence|].
    destruct (IH Hin Hc) as (lid & e' & Hf & Hin'). exists lid, e'.
    split; [done|by right].
Qed.

Lemma pydict_set_elem {V} k v (d : Py.pydict V) : (k, v) ∈ Py.set k v d.
Proof.
  induction d as [|[k' v'] d IH]; cbn; [by left|].
  destruct (String.eqb k k'); [by left|by right].
Qed.

(** [human_override] called with an action id of more than 29 characters,
    such as the 36-character ids [uuid4] gives to actions, finds no audit
    entry: it returns [False] and the engine is unchanged.  The entries'
    [agent_id] holds only the first eight characters of the action id. *)
Theorem human_override_misses_long_ids s now aid by_ reason :
  entries_as_logged (audit_logs (GovernanceEngine.audit_trail s)) →
  (29 < String.length aid)%nat →
  GovernanceEngine.Oversight.human_override now s aid by_ reason = (s, false).
Proof.
  intros Hall Hlong. unfold GovernanceEngine.Oversight.human_override.
  by rewrite (find_contains_none _ _ (long_id_not_contained _ _ Hall Hlong)).
Qed.

(** After an action whose id has at most eight characters was logged,
    [human_override] with that id returns [True], and the entry it marked
    carries the override, its author and its reason. *)
Theorem human_override_marks_short_ids s st a sid uid ip now by_ reason :
  (String.length (action_id a) ≤ 8)%nat →
  let logged :=
    GovernanceEngine.set_audit_trail
      (fst (log_action st (GovernanceEngine.audit_trail s) a sid uid ip)) s in
  let after :=
    GovernanceEngine.Oversight.human_override now logged (action_id a) by_
      reason in
  snd after = true ∧
  ∃ lid e,
    Py.get lid (audit_logs (GovernanceEngine.audit_trail (fst after))) = Some e ∧
    human_override e = true ∧ override_by e = Some by_ ∧
    override_reason e = Some reason.
Proof.
  intros Hshort logged after. subst after logged.
  unfold GovernanceEngine.Oversight.human_override.
  cbn [GovernanceEngine.audit_trail GovernanceEngine.set_audit_trail].
  set (trail := fst (log_action st (GovernanceEngine.audit_trail s) a sid uid ip)).
  assert (∃ kv, kv ∈ audit_logs trail ∧
                Py.contains (action_id a) (agent_id kv.2) = true)
    as (kv & Hin & Hc).
  { eexists (_, _). split; [apply pydict_set_elem|]. cbn.
    rewrite (proj2 (length_take_str 8 (action_id a)) Hshort).
    do 2 apply contains_append. apply contains_refl. }
  destruct (find_contains_some _ _ _ Hin Hc) as (lid & e & -> & Hin').
  unfold record_human_override.
  destruct (pydict_elem_get _ _ _ Hin') as [e' ->]. cbn.
  split; [done|]. eexists lid, _. split; [apply pydict_get_set_eq|done].
Qed.

End HumanOverride.

(** ** Escalations *)

Section Escalations.
Import AuditTrailManager.

Lemma statistics_escalations s :
  pending_escalations (get_statistics s) = pending_escalation_count s ∧
  total_escalations (get_statistics s) = size (escalation_logs s).
Proof.
  unfold get_statistics.
  by destruct (fold_left tally _ _) as [[[? ?] ?] ?].
Qed.

Lemma pending_insert_unresolved (m : gmap string EscalationLog) k log :
  m !! k = None → resolved log = false →
  size (filter (fun kv => resolved kv.2 = false) (<[k := log]> m))
  = S (size (filter (fun kv => resolved kv.2 = false) m)).
Proof.
  intros Hk Hr. rewrite map_filter_insert_True by done.
  apply map_size_insert_None, map_lookup_filter_None. by left.
Qed.

Lemma pending_insert_resolved (m : gmap string EscalationLog) k old log :
  m !! k = Some old → resolved log = true →
  (size (filter (fun kv => resolved kv.2 = false) (<[k := log]> m))
   + (if resolved old then 0 else 1))%nat
  = size (filter (fun kv => resolved kv.2 = false) m).
Proof.
  intros Hk Hr.
  rewrite map_filter_insert_False by (cbn; congruence).
  rewrite map_filter_delete.
  destruct (resolved old) eqn:Hold.
  - rewrite Nat.add_0_r. f_equal. apply delete_id.
    apply map_lookup_filter_None. right. intros x Hx. cbn. congruence.
  - assert (filter (fun kv => resolved kv.2 = false) m !! k = Some old) as Hin
      by by apply map_lookup_filter_Some.
    rewrite map_size_delete_Some by eauto.
    assert (size (filter (fun kv : string * EscalationLog => resolved kv.2 = false) m)
            ≠ 0%nat) as Hne.
    { intros H0%map_size_empty_iff. by rewrite H0 in Hin. }
    lia.
Qed.

(** An escalation logged under a fresh id and with a risk level that names a
    member of [RiskLevel] is stored unresolved: the statistics count one
    escalation more, and one more pending.  The audit entries and the access
    and API-call logs are untouched. *)
Theorem logged_escalation_is_pending st s src aid why conf risk who s1 log :
  escalation_logs s !! uuid st = None →
  log_escalation st s src aid why conf risk who = inr (s1, log) →
  escalation_logs s1 !! uuid st = Some log ∧ resolved log = false ∧
  total_escalations (get_statistics s1)
  = S (total_escalations (get_statistics s)) ∧
  pending_escalations (get_statistics s1)
  = S (pending_escalations (get_statistics s)) ∧
  audit_logs s1 = audit_logs s ∧ access_logs s1 = access_logs s ∧
  api_call_logs s1 = api_call_logs s.
Proof.
  intros Hfresh Hlog. unfold log_escalation in Hlog.
  destruct (risk_of_value risk) as [?|r]; [done|].
  cbn in Hlog. injection Hlog as <- <-.
  destruct (statistics_escalations s) as [-> ->].
  match goal with
  | |- context [get_statistics ?s1] =>
      destruct (statistics_escalations s1) as [-> ->]
  end.
  unfold pending_escalation_count. cbn.
  split_and!; try done.
  - apply lookup_insert_eq.
  - by apply map_size_insert_None.
  - by apply pending_insert_unresolved.
Qed.

(** Resolving a stored escalation returns [True], leaves the number of
    escalations as it is and takes one off the pending count exactly when the
    escalation was not resolved before; the stored record then carries the
    resolver, the resolution and the time.  Resolving is not guarded: a
    record that was already resolved is overwritten with the new resolver. *)
Theorem resolve_escalation_counts_down now s eid by_ act log :
  escalation_logs s !! eid = Some log →
  let after := resolve_escalation now s eid by_ act in
  snd after = true ∧
  total_escalations (get_statistics (fst after))
  = total_escalations (get_statistics s) ∧
  (pending_escalations (get_statistics (fst after))
   + (if resolved log then 0 else 1))%nat
  = pending_escalations (get_statistics s) ∧
  (∃ log', escalation_logs (fst after) !! eid = Some log' ∧
           resolved log' = true ∧ resolved_by log' = Some by_ ∧
           resolution_action log' = Some act ∧
           resolution_timestamp log' = Some now ∧
           escalation_action_id log' = escalation_action_id log) ∧
  audit_logs (fst after) = audit_logs s.
Proof.
  intros Hlog after. subst after. unfold resolve_escalation. rewrite Hlog.
  cbn [fst snd].
  destruct (statistics_escalations s) as [-> ->].
  match goal with
  | |- context [get_statistics ?s1] =>
      destruct (statistics_escalations s1) as [-> ->]
  end.
  unfold pending_escalation_count. cbn.
  split_and!; try done.
  - apply map_size_insert_Some. eauto.
  - by apply pending_insert_resolved.
  - eexists. split; [apply lookup_insert_eq|done].
Qed.

End Escalations.

(** ** Bias metrics *)

Section BiasReports.
Import BiasMonitor.

Variable stdev : list Q -> Py.result Q.
Variable format_3f : Py.pyfloat -> string.
Variable format_float : Q -> string.

Lemma record_key_inj ag at_ ag' at_' :
  record_key ag at_ = record_key ag' at_' → ag = ag' ∧ at_ = at_'.
Proof.
  unfold record_key.
  destruct ag, ag'; cbn; intros H; simplify_eq; done.
Qed.

Lemma no_reference_left dim g (records : list record) :
  filter (fun r => Py.get dim (demographics r) ≠ Some g)
    (samples_of dim g records) = [].
Proof.
  unfold samples_of. induction records as [|r records IH]; [done|].
  rewrite filter_cons. destruct (decide _) as [Hg|Hg]; [|done].
  rewrite filter_cons. by destruct (decide _).
Qed.

(** Comparing a group with itself gives no metric, however many samples
    it has: the loop puts every sample on the protected side ([if] before
    [elif]), so the reference side stays empty.  The monitor is unchanged. *)
Theorem same_group_gives_no_metric st_metric st_event s agent_type
    action_type_ dim g :
  calculate_disparate_impact stdev format_3f format_float st_metric st_event s
    agent_type action_type_ dim g g
  = inr (s, None).
Proof.
  unfold calculate_disparate_impact.
  destruct (length _ <? 10)%nat; [done|].
  rewrite (split_outcomes_spec stdev), no_reference_left. cbn [map length].
  by rewrite orb_true_r.
Qed.

Lemma Qltb_lt (x y : Q) : Py.Qltb x y = true ↔ (x < y)%Q.
Proof.
  unfold Py.Qltb. rewrite negb_true_iff. split.
  - intros H. apply Qnot_le_lt. intros Hle%Qle_bool_iff. congruence.
  - intros Hlt. apply not_true_iff_false. intros Hle%Qle_bool_iff.
    by apply Qlt_not_le in Hlt.
Qed.

(** What a returned metric says.  It is stored under its id and the records
    are untouched.  Its two rates are [statistics.mean] of the two groups'
    sample values.  With a non-zero reference rate the ratio is the float
    quotient of the protected rate by the reference rate; with a zero
    reference rate and a non-zero protected rate it is [float('inf')].  The
    metric is flagged exactly when the ratio compares below the threshold as
    floats do: it is [-inf], or finite and below the float the threshold
    stands for; [inf] and NaN are never flagged.  A compliance event
    ["BIAS_DETECTED"] with remediation ["PENDING"] is added exactly when the
    metric is flagged. *)
Theorem metric_flag_follows_ratio st_metric st_event s agent_type action_type_
    dim p g s' m :
  calculate_disparate_impact stdev format_3f format_float st_metric st_event s
    agent_type action_type_ dim p g
  = inr (s', Some m) →
  let records :=
    default [] (action_records s !! record_key agent_type action_type_) in
  metrics s' = <[uuid st_metric := m]> (metrics s) ∧
  action_records s' = action_records s ∧
  Py.mean (fst (split_outcomes dim p g records)) = inr (observed_rate m) ∧
  Py.mean (snd (split_outcomes dim p g records)) = inr (baseline_rate m) ∧
  (¬ (baseline_rate m == 0)%Q →
   Py.fdiv (observed_rate m) (baseline_rate m) = inr (disparity_ratio m)) ∧
  ((baseline_rate m == 0)%Q → ¬ (observed_rate m == 0)%Q →
   disparity_ratio m = Py.Inf) ∧
  threshold_exceeded m
  = Py.flt (disparity_ratio m) (disparate_impact_threshold s) ∧
  (threshold_exceeded m = true ↔
   disparity_ratio m = Py.NegInf ∨
   ∃ q, disparity_ratio m = Py.Fin q ∧
        (q < Py.float_of (disparate_impact_threshold s))%Q) ∧
  (if threshold_exceeded m then
     ∃ ev, compliance_events s' = <[uuid st_event := ev]> (compliance_events s) ∧
           event_type ev = "BIAS_DETECTED" ∧
           remediation_status ev = Some "PENDING" ∧
           affected_agents ev = [agent_type]
   else compliance_events s' = compliance_events s).
Proof.
  unfold calculate_disparate_impact.
  set (records := default [] (action_records s !! _)). intros H. cbn zeta.
  destruct (length records <? 10)%nat; [done|].
  destruct (split_outcomes dim p g records) as [prot ref].
  destruct (_ || _); [done|]. cbn [fst snd].
  destruct (Py.mean prot) as [?|mp]; [done|].
  destruct (Py.mean ref) as [?|mr]; [done|]. cbn [Py.bind] in H.
  assert (∃ ratio,
    (if Qeq_bool mr 0
     then Py.ret (if Qeq_bool mp 0 then Py.Fin 1.0 else Py.Inf)
     else Py.fdiv mp mr) = inr ratio ∧
    (¬ (mr == 0)%Q → Py.fdiv mp mr = inr ratio) ∧
    ((mr == 0)%Q → ¬ (mp == 0)%Q → ratio = Py.Inf)) as (ratio & Hr & Hfin & Hinf).
  { destruct (Qeq_bool mr 0) eqn:Hz.
    - apply Qeq_bool_iff in Hz. eexists. split; [done|]. split; [done|].
      intros _ Hmp. destruct (Qeq_bool mp 0) eqn:Hp; [|done].
      by apply Qeq_bool_iff in Hp.
    - unfold Py.fdiv. rewrite Hz. eexists. split; [done|].
      split; [done|by intros ?%Qeq_bool_iff; congruence]. }
  rewrite Hr in H. cbn [Py.bind Py.ret] in H.
  assert (Py.flt ratio (disparate_impact_threshold s) = true ↔
          ratio = Py.NegInf ∨
          ∃ q, ratio = Py.Fin q ∧
               (q < Py.float_of (disparate_impact_threshold s))%Q)
    as Hflag.
  { destruct ratio as [q| | |]; cbn.
    - rewrite Qltb_lt. split; [eauto|]. by intros [?|(q' & [= <-] & ?)].
    - split; [done|]. by intros [?|(q' & ? & ?)].
    - split; [by left|done].
    - split; [done|]. by intros [?|(q' & ? & ?)]. }
  destruct (Py.flt ratio (disparate_impact_threshold s)) eqn:Hx;
    injection H as <- <-; cbn; split_and!; try done.
  eexists. split; [done|]. done.
Qed.

(** The records of one (agent, action type) pair are kept apart from those
    of every other pair: [record_action_outcome] appends one record to its
    own key, and the records and the demographic-parity rates of another pair
    are what they were.  The key [f"{agent}_{action_type}"] identifies the
    pair because no agent name is a prefix of another.  Metrics and
    compliance events are not touched by recording. *)
Theorem outcomes_are_kept_per_pair now s ag at_ demo outcome_ value md ag' at_' dim :
  (ag, at_) ≠ (ag', at_') →
  let s' := record_action_outcome now s ag at_ demo outcome_ value md in
  (∃ r, action_records s' !! record_key ag at_
        = Some (default [] (action_records s !! record_key ag at_) ++ [r]) ∧
        demographics r = demo ∧ rec_outcome r = outcome_ ∧
        outcome_value r = value) ∧
  action_records s' !! record_key ag' at_'
  = action_records s !! record_key ag' at_' ∧
  calculate_demographic_parity s' ag' at_' dim
  = calculate_demographic_parity s ag' at_' dim ∧
  metrics s' = metrics s ∧ compliance_events s' = compliance_events s.
Proof.
  intros Hne s'. subst s'. unfold calculate_demographic_parity.
  unfold record_action_outcome. cbn. unfold Py.append_at.
  assert (record_key ag at_ ≠ record_key ag' at_') as Hk.
  { intros [-> ->]%record_key_inj. done. }
  rewrite lookup_insert_eq, (lookup_insert_ne _ _ _ _ Hk).
  split_and!; try done. eexists. split; [done|]. done.
Qed.

(** ** Demographic parity *)

Lemma pydict_get_none_keys {V} k (d : Py.pydict V) :
  Py.get k d = None ↔ k ∉ Py.keys d.
Proof.
  unfold Py.keys. induction d as [|[k' v] d IH]; cbn.
  - split; [intros _; apply not_elem_of_nil|done].
  - rewrite not_elem_of_cons. destruct (String.eqb_spec k k') as [->|Hne].
    + split; [done|]. by intros [? _].
    + rewrite IH. tauto.
Qed.

Lemma pydict_keys_set {V} k v (d : Py.pydict V) :
  NoDup (Py.keys d) → NoDup (Py.keys (Py.set k v d)).
Proof.
  intros Hnd. destruct (Py.get k d) as [v0|] eqn:Hk.
  - assert (Py.keys (Py.set k v d) = Py.keys d) as ->; [|done].
    clear Hnd. unfold Py.keys. induction d as [|[k' v'] d IH]; [done|].
    cbn in *. destruct (String.eqb_spec k k') as [->|Hne]; [done|].
    cbn. f_equal. by apply IH.
  - rewrite pydict_set_fresh by done. unfold Py.keys. rewrite map_app. cbn.
    apply NoDup_app. split; [done|]. split; [|apply NoDup_singleton].
    intros x Hx ->%list_elem_of_singleton.
    by apply pydict_get_none_keys in Hk.
Qed.

Lemma pydict_get_app_ne {V} k k' (v : V) (d : Py.pydict V) :
  k ≠ k' → Py.get k (d ++ [(k', v)]) = Py.get k d.
Proof.
  intros Hne. induction d as [|[k0 v0] d IH]; cbn.
  - by destruct (String.eqb_spec k k').
  - by rewrite IH.
Qed.

(** The values of the samples of a group, in the order recorded. *)
Definition values_of_group (dim g : string) (records : list record) : list Q :=
  map value_of (samples_of dim g records).

Lemma group_outcomes_snoc dim records r :
  group_outcomes dim (records ++ [r]) =
  match Py.get dim (demographics r) with
  | Some group =>
      if Py.truthy_str group
      then Py.push group (value_of r) (group_outcomes dim records)
      else group_outcomes dim records
  | None => group_outcomes dim records
  end.
Proof. unfold group_outcomes. by rewrite fold_left_app. Qed.

Lemma values_of_group_snoc dim g records r :
  values_of_group dim g (records ++ [r]) =
  values_of_group dim g records
  ++ (if decide (Py.get dim (demographics r) = Some g) then [value_of r] else []).
Proof.
  unfold values_of_group, samples_of. rewrite filter_app, map_app.
  f_equal. rewrite filter_cons. by destruct (decide _).
Qed.

Lemma group_outcomes_spec dim records :
  NoDup (Py.keys (group_outcomes dim records)) ∧
  ∀ g, Py.get g (group_outcomes dim records) =
       if Py.truthy_str g
       then match values_of_group dim g records with
            | [] => None
            | vs => Some vs
            end
       else None.
Proof.
  induction records as [|r records [IHnd IH]] using rev_ind.
  - split; [constructor|]. intros g. by destruct (Py.truthy_str g).
  - rewrite group_outcomes_snoc.
    assert (∀ g, Py.get dim (demographics r) ≠ Some g →
                 values_of_group dim g (records ++ [r])
                 = values_of_group dim g records) as Hsame.
    { intros g Hg. rewrite values_of_group_snoc.
      destruct (decide _); [done|]. apply app_nil_r. }
    destruct (Py.get dim (demographics r)) as [group|] eqn:Hgroup.
    2:{ split; [done|]. intros g. by rewrite Hsame. }
    destruct (Py.truthy_str group) eqn:Htruthy.
    2:{ split; [done|]. intros g. destruct (decide (g = group)) as [->|Hne].
        - by rewrite Htruthy, IH, Htruthy.
        - rewrite Hsame by congruence. apply IH. }
    split; [by apply pydict_keys_set|].
    intros g. unfold Py.push. destruct (decide (g = group)) as [->|Hne].
    + rewrite pydict_get_set_eq, Htruthy, values_of_group_snoc.
      rewrite decide_True by done. rewrite IH, Htruthy.
      by destruct (values_of_group dim group records).
    + rewrite pydict_get_set_ne by done. rewrite Hsame by congruence. apply IH.
Qed.

Lemma rates_of_snoc groups g vs :
  rates_of (groups ++ [(g, vs)]) =
  let* rates := rates_of groups in
  match vs with
  | [] => Py.ret rates
  | _ => let* m := Py.mean vs in Py.ret (Py.set g m rates)
  end.
Proof. unfold rates_of. by rewrite fold_left_app. Qed.

Lemma rates_of_spec groups :
  NoDup (Py.keys groups) →
  (∀ g, Py.get g groups ≠ Some []) →
  ∃ rates, rates_of groups = inr rates ∧
    ∀ g, match Py.get g groups with
         | Some vs => ∃ rate, Py.get g rates = Some rate ∧ Py.mean vs = inr rate
         | None => Py.get g rates = None
         end.
Proof.
  induction groups as [|[k vs] groups IH] using rev_ind; intros Hnd Hne.
  - by exists [].
  - unfold Py.keys in Hnd. rewrite map_app in Hnd. cbn in Hnd.
    apply NoDup_app in Hnd as (Hnd & Hk & _).
    assert (Py.get k groups = None) as Hfresh.
    { apply pydict_get_none_keys. intros Hin. by apply (Hk k), list_elem_of_singleton. }
    destruct IH as (rates & Hrates & Hget); [done| |].
    { intros g Hg. destruct (decide (g = k)) as [->|Hgk]; [congruence|].
      apply (Hne g). by rewrite pydict_get_app_ne. }
    rewrite rates_of_snoc, Hrates. cbn [Py.bind].
    pose proof (Hne k) as Hvs. rewrite pydict_get_app_fresh in Hvs by done.
    destruct vs as [|v vs]; [done|].
    destruct (mean_total (v :: vs)) as [m Hm]; [cbn; lia|].
    rewrite Hm. cbn [Py.bind Py.ret]. eexists. split; [done|].
    intros g. destruct (decide (g = k)) as [->|Hgk].
    + rewrite pydict_get_app_fresh by done. exists m.
      split; [apply pydict_get_set_eq|done].
    + rewrite pydict_get_app_ne by done. rewrite pydict_get_set_ne by done.
      apply Hget.
Qed.

(** [calculate_demographic_parity] never raises, and it gives a rate to
    exactly the non-empty groups that have a sample among the key's records;
    the rate is the mean of the values of the group's samples. *)
Theorem demographic_parity_is_group_mean s agent_type action_type_ dim :
  ∃ rates,
    calculate_demographic_parity s agent_type action_type_ dim = inr rates ∧
    ∀ g,
      let vs :=
        values_of_group dim g
          (default [] (action_records s !! record_key agent_type action_type_)) in
      match Py.get g rates with
      | Some rate => Py.truthy_str g = true ∧ Py.mean vs = inr rate
      | None => Py.truthy_str g = false ∨ vs = []
      end.
Proof.
  unfold calculate_demographic_parity.
  set (records := default [] (action_records s !! _)).
  destruct (group_outcomes_spec dim records) as [Hnd Hspec].
  destruct (rates_of_spec _ Hnd) as (rates & Hrates & Hget).
  { intros g. rewrite Hspec. destruct (Py.truthy_str g); [|done].
    by destruct (values_of_group dim g records). }
  exists rates. split; [done|]. intros g. cbn zeta.
  specialize (Hget g). rewrite Hspec in Hget.
  destruct (Py.truthy_str g); [|by rewrite Hget; left].
  destruct (values_of_group dim g records) as [|v vs] eqn:Hvs.
  - rewrite Hget. by right.
  - destruct Hget as (rate & -> & Hmean). done.
Qed.

End BiasReports.

(** ** Responses of the engine *)

Section EngineResponses.
Import GovernanceEngine.

Context {FallbackManager EscalationTrigger : Type}.
Variable evaluate_action :
  FallbackManager -> AgentAction ->
  FallbackManager * AgentAction * (bool * option EscalationTrigger * option string).
Variable trigger_escalation :
  FallbackManager -> AgentAction -> EscalationTrigger -> string ->
  FallbackManager * AgentAction * string.
Implicit Types s : t FallbackManager.

(** A gate that blocks hands back the request it queued. *)
Lemma gate_blocks_with_request st gates a gates' a' :
  RiskGateManager.evaluate_gate st gates a ≠ inr (gates', a', (false, None)).
Proof.
  unfold RiskGateManager.evaluate_gate.
  destruct (RiskGateManager._get_rule_for_risk_level _ _); [done|].
  cbn [Py.bind]. unfold RiskGateManager._create_approval_request.
  repeat (match goal with |- context [if ?c then _ else _] => destruct c end);
    by intros [=].
Qed.

(** What a response of [process_action] tells.  A successful response is an
    executed action: its status is COMPLETED, it is not an escalation and
    carries the handler's result and no error.  An escalation is never a
    success.  An error is reported on the two denial branches only, where the
    action is REJECTED and neither the fallback manager nor the risk gates
    were consulted; the message ["Action blocked by risk gate"] is never
    returned, since a gate that blocks always queues a request.  The access
    rules, the bias monitor, the configuration, the handlers and the hooks
    are never changed by processing an action. *)
Theorem process_action_response_shape d s a uid session_id ip_address s' resp :
  process_action evaluate_action trigger_escalation d s a uid session_id
    ip_address = inr (s', resp) →
  (success resp = true →
   action_status (action resp) = COMPLETED ∧ escalation_required resp = false ∧
   error resp = None ∧ ∃ r, result resp = Some (ExecutionResult r)) ∧
  (escalation_required resp = true →
   success resp = false ∧ ∃ eid, result resp = Some (EscalationResult eid)) ∧
  (is_Some (error resp) →
   success resp = false ∧ action_status (action resp) = REJECTED ∧
   result resp = None ∧
   risk_gates s' = risk_gates s ∧ fallback s' = fallback s) ∧
  error resp ≠ Some "Action blocked by risk gate" ∧
  rbac s' = rbac s ∧ bias_monitor s' = bias_monitor s ∧ config s' = config s ∧
  _action_handlers s' = _action_handlers s ∧
  _pre_execution_hooks s' = _pre_execution_hooks s ∧
  _post_execution_hooks s' = _post_execution_hooks s.
Proof.
  unfold process_action.
  destruct (RBACManager.check_permission _ _ _ _ _ _) as [[] reason]; cbn [negb].
  2:{ destruct (AuditTrailManager.log_action _ _ _ _ _ _) as [trail e].
      intros [= <- <-]. cbn. by split_and!. }
  destruct (patient_access_denial s a uid) as [[pid why]|].
  { intros [= <- <-]. cbn. by split_and!. }
  destruct (evaluate_action _ _) as [[fb a1] [[escalate trigger] why]].
  destruct escalate; [destruct trigger as [trg|]|].
  1:{ destruct (trigger_escalation _ _ _ _) as [[fb' a2] eid].
      destruct (AuditTrailManager.log_escalation _ _ _ _ _ _ _ _)
        as [?|[trail l]]; [done|]. cbn [Py.bind].
      destruct (AuditTrailManager.log_action _ _ _ _ _ _) as [trail' e].
      intros [= <- <-]. cbn. split_and!; try done; try by intros [? [=]].
      intros _. split; [done|]. by eexists. }
  all: destruct (RiskGateManager.evaluate_gate _ _ _)
         as [?|[[gates a2] [can_proceed request]]] eqn:Hgate; [done|];
       cbn [Py.bind];
       destruct (AuditTrailManager.log_action _ _ _ _ _ _) as [trail e];
       (destruct can_proceed; cbn [negb];
        [|destruct request as [request|];
          [|by apply gate_blocks_with_request in Hgate];
          intros [= <- <-]; cbn; split_and!; try done; by intros [? [=]]]);
       destruct (_execute_action _ _) as [a3 res];
       destruct (fold_left _ _ (a3, res)) as [a4 res'];
       destruct (default true (hr_success res'));
       destruct (AuditTrailManager.update_log_outcome _ _ _ _ _) as [trail' ok];
       intros [= <- <-]; cbn; split_and!; try done; try (by intros [? [=]]);
       intros _; split_and!; try done; by eexists.
Qed.

End EngineResponses.

(** ** Resolving approvals through the engine *)

Section EngineApprovals.
Import GovernanceEngine GovernanceEngine.Oversight.

Context {FallbackManager : Type}.
Implicit Types s : t FallbackManager.

(** [process_approval] writes nothing to the audit trail: neither the
    decision nor the execution of an approved action leaves an audit entry.
    It changes the pending requests only; the rules, the access rules, the
    fallback manager, the bias monitor and the handlers stay as they are. *)
Theorem approval_resolution_is_not_audited st s rid approver approved reason :
  let after := fst (process_approval st s rid approver approved reason) in
  audit_trail after = audit_trail s ∧
  RiskGateManager.rules (risk_gates after) = RiskGateManager.rules (risk_gates s) ∧
  rbac after = rbac s ∧ fallback after = fallback s ∧
  bias_monitor after = bias_monitor s ∧
  _action_handlers after = _action_handlers s.
Proof.
  unfold process_approval.
  destruct (_check_approver_permission s approver rid) as [[] why]; cbn [negb];
    [|done].
  assert (RiskGateManager.rules
            (fst (RiskGateManager.process_approval (risk_gates s) rid approver
                    approved reason))
          = RiskGateManager.rules (risk_gates s)) as Hrules.
  { unfold RiskGateManager.process_approval.
    destruct (RiskGateManager.pending_approvals _ !! rid); [|done].
    destruct approved; [|done]. by destruct (_ <=? _)%Z. }
  destruct (RiskGateManager.process_approval _ _ _ _ _) as [gates fully].
  cbn in Hrules. cbn [risk_gates set_risk_gates].
  destruct (RiskGateManager.pending_approvals gates !! rid) as [r|]; [|done].
  destruct (String.eqb _ _); [|done].
  by destruct (_execute_action _ _).
Qed.

(** With the default permissions, a decision by a user who is neither a
    system administrator nor a clinical director, and who holds no override
    for ["approve"], is refused whatever the request: the engine is unchanged
    (the request keeps its approvals and its status) and the response is a
    failure that names the reason. *)
Theorem approvals_need_approve_capability draw st s rid approver user approved
    reason :
  RBACManager._permission_cache (rbac s)
  = RBACManager._permission_cache (RBACManager.__init__ draw) →
  RBACManager.users (rbac s) !! approver = Some user →
  Py.mem "approve" (permissions_override user) = false →
  role user ≠ SYSTEM_ADMIN → role user ≠ CLINICAL_DIRECTOR →
  ∃ why,
    process_approval st s rid approver approved reason
    = (s, mkAgentResponse false (placeholder_action st) None
            (Some ("Approver not authorized: " +:+ why)) false None).
Proof.
  intros Hcache Hu Hov Hadmin Hdirector. unfold process_approval.
  destruct (_check_approver_permission s approver rid) as [ok why] eqn:Hcheck.
  exists why. destruct ok; [exfalso|done].
  unfold _check_approver_permission in Hcheck.
  destruct (RiskGateManager.pending_approvals _ !! rid) as [r|]; [|done].
  destruct (is_active user) eqn:Hon.
  - pose proof (check_permission_by_cache (rbac s) approver user
                  (request_agent_type r) "approve" false true Hu Hon Hov) as Hc.
    rewrite Hcheck in Hc. unfold cached_grant in Hc. rewrite Hcache in Hc.
    fold (cached_grant (RBACManager.__init__ draw) (role user)
            (request_agent_type r)) in Hc.
    rewrite default_cache_is_matrix in Hc.
    destruct (role user), (request_agent_type r); by cbn in Hc.
  - unfold RBACManager.check_permission in Hcheck. by rewrite Hu, Hon in Hcheck.
Qed.

(** The status a request has after a decision. *)
Definition status_after (r : ApprovalRequest) (approved : bool) : string :=
  if approved then
    if (required_approvers r <=? current_approvals r + 1)%Z then "APPROVED"
    else request_status r
  else "REJECTED".

(** A decision by an authorised approver on a stored request.  When the
    request is APPROVED afterwards, the action is rebuilt from the request
    and handed to its handler, and the response is the handler's result;
    otherwise the response reports the request's status.  The status the
    request had before is not examined: an approval that reaches the
    threshold executes the action also when the request was REJECTED before,
    and executes it again when it was APPROVED already. *)
Theorem authorised_decision_outcome st s rid approver approved reason r :
  fst (_check_approver_permission s approver rid) = true →
  RiskGateManager.pending_approvals (risk_gates s) !! rid = Some r →
  let resp := snd (process_approval st s rid approver approved reason) in
  let after := fst (process_approval st s rid approver approved reason) in
  (∃ r', RiskGateManager.pending_approvals (risk_gates after) !! rid = Some r' ∧
         request_status r' = status_after r approved) ∧
  if String.eqb (status_after r approved) "APPROVED" then
    let run := _execute_action s (original_action st r) in
    action resp = fst run ∧
    result resp = Some (ExecutionResult (snd run)) ∧
    success resp = default true (hr_success (snd run))
  else
    result resp
    = Some (ApprovalDecision rid (status_after r approved) approved) ∧
    success resp = false ∧ action resp = placeholder_action st.
Proof.
  intros Hok Hr resp after. subst resp after. unfold process_approval.
  destruct (_check_approver_permission s approver rid) as [ok why].
  cbn in Hok. subst ok. cbn [negb]. unfold status_after.
  destruct approved.
  - rewrite (process_approval_approve _ _ _ _ _ Hr).
    cbn [risk_gates set_risk_gates RiskGateManager.pending_approvals].
    rewrite lookup_insert_eq. cbn [request_status RiskGateManager.update_request].
    destruct (required_approvers r <=? current_approvals r + 1)%Z eqn:Hthr.
    + cbn [String.eqb Ascii.eqb Bool.eqb andb].
      unfold _execute_action. cbn.
      destruct (_action_handlers s !! _) as [h|]; cbn.
      * destruct (h _) as [a' [msg|res]]; cbn; rewrite lookup_insert_eq;
          (split; [by eexists|done]).
      * rewrite lookup_insert_eq. split; [by eexists|done].
    + destruct (String.eqb (request_status r) "APPROVED") eqn:Hst.
      * unfold _execute_action. cbn.
        destruct (_action_handlers s !! _) as [h|]; cbn.
        -- destruct (h _) as [a' [msg|res]]; cbn; rewrite lookup_insert_eq;
             (split; [by eexists|done]).
        -- rewrite lookup_insert_eq. split; [by eexists|done].
      * cbn. rewrite lookup_insert_eq. split; [by eexists|done].
  - rewrite (process_approval_reject _ _ _ _ _ Hr).
    cbn [risk_gates set_risk_gates RiskGateManager.pending_approvals].
    rewrite lookup_insert_eq. cbn. rewrite lookup_insert_eq.
    split; [by eexists|done].
Qed.

End EngineApprovals.

(** ** Examples *)

Section ActionIdExamples.
Import AuditTrailManager.

Lemma api_calls_miss_long_action_ids_witness :
  audit_logs (fst (log_api_call Samples.busy_trail Samples.eligibility_call
                     Samples.action_uuid))
  = audit_logs Samples.busy_trail.
Proof.
  apply (api_calls_miss_long_action_ids Samples.busy_ops).
  - cbn. lia.
  - vm_compute. reflexivity.
Defined.

Lemma human_override_misses_long_ids_witness :
  GovernanceEngine.Oversight.human_override 60 Samples.audited_engine
    Samples.action_uuid "u-admin" "reviewed"
  = (Samples.audited_engine, false).
Proof.
  apply human_override_misses_long_ids.
  - apply (run_entries_as_logged Samples.busy_ops).
  - cbn. lia.
Defined.

Lemma human_override_marks_short_ids_witness :
  snd (GovernanceEngine.Oversight.human_override 60
         (GovernanceEngine.set_audit_trail
            (fst (log_action (mkStamp "log-9" 55)
                    (GovernanceEngine.audit_trail Samples.audited_engine)
                    Samples.walk_in None (Some "u-nurse") None))
            Samples.audited_engine)
         "a-17" "u-admin" "second opinion")
  = true.
Proof.
  refine (proj1 (human_override_marks_short_ids Samples.audited_engine
                   (mkStamp "log-9" 55) Samples.walk_in None (Some "u-nurse")
                   None 60 "u-admin" "second opinion" _)).
  cbn. lia.
Defined.

Lemma logged_escalation_is_pending_witness :
  ∃ s1 log,
    log_escalation (mkStamp "esc-1" 70) Samples.busy_trail SCHEDULING
      "a1b2c3d4-0013" "Confidence below threshold" 0.6 "MEDIUM" None
    = inr (s1, log) ∧
    pending_escalations (get_statistics s1) = 1%nat.
Proof.
  destruct (log_escalation (mkStamp "esc-1" 70) Samples.busy_trail SCHEDULING
              "a1b2c3d4-0013" "Confidence below threshold" 0.6 "MEDIUM" None)
    as [e|[s1 log]] eqn:Hlog; [by vm_compute in Hlog|].
  exists s1, log. split; [done|].
  assert (escalation_logs Samples.busy_trail !! uuid (mkStamp "esc-1" 70) = None)
    as Hfresh by (vm_compute; reflexivity).
  destruct (logged_escalation_is_pending _ _ _ _ _ _ _ _ _ _ Hfresh Hlog)
    as (_ & _ & _ & -> & _).
  vm_compute. reflexivity.
Defined.

Lemma resolve_escalation_counts_down_witness :
  pending_escalations (get_statistics Samples.escalated_trail) = 1%nat ∧
  pending_escalations
    (get_statistics (fst (resolve_escalation 90 Samples.escalated_trail "esc-1"
                            "u-admin" "called the physician")))
  = 0%nat.
Proof.
  assert (pending_escalations (get_statistics Samples.escalated_trail) = 1%nat)
    as Hone by (vm_compute; reflexivity).
  split; [exact Hone|].
  assert (∃ log, escalation_logs Samples.escalated_trail !! "esc-1" = Some log ∧
                 resolved log = false) as (log & Hlog & Hopen)
    by (eexists; split; [vm_compute; reflexivity|reflexivity]).
  destruct (resolve_escalation_counts_down 90 Samples.escalated_trail "esc-1"
              "u-admin" "called the physician" log Hlog)
    as (_ & _ & Hcount & _).
  rewrite Hopen, Hone in Hcount. lia.
Defined.

End ActionIdExamples.

Section BiasReportExamples.
Import BiasMonitor.

Lemma metric_flag_follows_ratio_witness :
  ∃ s' m,
    calculate_disparate_impact Samples.flat_stdev Samples.no_format_3f
      Samples.no_format (mkStamp "metric-1" 0) (mkStamp "event-1" 0)
      Samples.near_threshold INTAKE "register_patient" "gender" "F" "M"
    = inr (s', Some m) ∧
    disparity_ratio m = Py.Fin (7205759403792793 # 9007199254740992) ∧
    threshold_exceeded m = true ∧
    is_Some (compliance_events s' !! "event-1").
Proof.
  assert (∃ s' m,
            calculate_disparate_impact Samples.flat_stdev Samples.no_format_3f
              Samples.no_format (mkStamp "metric-1" 0) (mkStamp "event-1" 0)
              Samples.near_threshold INTAKE "register_patient" "gender" "F" "M"
            = inr (s', Some m) ∧
            disparity_ratio m = Py.Fin (7205759403792793 # 9007199254740992))
    as (s' & m & Hrun & Hratio)
    by (vm_compute; eexists _, _; split; reflexivity).
  exists s', m. split; [exact Hrun|]. split; [exact Hratio|].
  destruct (metric_flag_follows_ratio _ _ _ _ _ _ _ _ _ _ _ _ _ Hrun)
    as (_ & _ & _ & _ & _ & _ & _ & Hflag & Hevent).
  assert (threshold_exceeded m = true) as Hyes.
  { apply Hflag. right. eexists. split; [exact Hratio|]. by vm_compute. }
  split; [exact Hyes|].
  rewrite Hyes in Hevent. destruct Hevent as (ev & -> & _).
  rewrite lookup_insert_eq. by eexists.
Defined.

Lemma outcomes_are_kept_per_pair_witness :
  action_records
    (record_action_outcome 5 Samples.skewed BILLING "submit_claim"
       [("gender", "F")] "POSITIVE" None None)
  !! record_key INTAKE "register_patient"
  = action_records Samples.skewed !! record_key INTAKE "register_patient".
Proof.
  refine (proj1 (proj2 (outcomes_are_kept_per_pair 5 Samples.skewed BILLING
                          "submit_claim" [("gender", "F")] "POSITIVE" None None
                          INTAKE "register_patient" "gender" _))).
  by intros [=].
Defined.

End BiasReportExamples.

Section EngineResponseExamples.
Import GovernanceEngine GovernanceEngine.Oversight.

Lemma process_action_response_shape_witness :
  ∃ s' resp,
    process_action Samples.evaluate_action Samples.trigger_escalation
      Samples.draws Samples.engine Samples.schedule_appointment "u-nurse"
      (Some "sess-1") None = inr (s', resp) ∧
    action_status (action resp) = COMPLETED ∧ error resp = None.
Proof.
  assert (∃ s' resp,
            process_action Samples.evaluate_action Samples.trigger_escalation
              Samples.draws Samples.engine Samples.schedule_appointment
              "u-nurse" (Some "sess-1") None = inr (s', resp) ∧
            success resp = true)
    as (s' & resp & Hrun & Hok)
    by (vm_compute; eexists _, _; split; reflexivity).
  exists s', resp. split; [exact Hrun|].
  destruct (process_action_response_shape _ _ _ _ _ _ _ _ _ _ Hrun)
    as (Hsuccess & _).
  destruct (Hsuccess Hok) as (Hstatus & _ & Herror & _).
  exact (conj Hstatus Herror).
Defined.

Lemma approvals_need_approve_capability_witness :
  ∃ why,
    process_approval (mkStamp "act-1" 80) Samples.engine_awaiting_approval
      "req-2" "u-nurse" true None
    = (Samples.engine_awaiting_approval,
       mkAgentResponse false (placeholder_action (mkStamp "act-1" 80)) None
         (Some ("Approver not authorized: " +:+ why)) false None).
Proof.
  assert (RBACManager._permission_cache (rbac Samples.engine_awaiting_approval)
          = RBACManager._permission_cache
              (RBACManager.__init__ Samples.permission_draw)) as Hcache
    by (vm_compute; reflexivity).
  assert (∃ user,
            RBACManager.users (rbac Samples.engine_awaiting_approval)
            !! "u-nurse" = Some user ∧
            role user = NURSE_MANAGER ∧
            permissions_override user = ["approve_discharge"])
    as (user & Hu & Hrole & Hov)
    by (eexists; split_and!; [vm_compute; reflexivity|reflexivity..]).
  apply (approvals_need_approve_capability Samples.permission_draw _ _ _ _ user
           _ _ Hcache Hu).
  - by rewrite Hov.
  - by rewrite Hrole.
  - by rewrite Hrole.
Defined.

Lemma authorised_decision_outcome_witness :
  success (snd (process_approval (mkStamp "act-1" 80)
                  Samples.engine_awaiting_approval "req-2" "u-admin" true None))
  = true ∧
  ∃ r, RiskGateManager.pending_approvals
         (risk_gates (fst (process_approval (mkStamp "act-1" 80)
                             Samples.engine_awaiting_approval "req-2" "u-admin"
                             true None)))
       !! "req-2" = Some r ∧
       request_status r = "APPROVED".
Proof.
  assert (fst (_check_approver_permission Samples.engine_awaiting_approval
                 "u-admin" "req-2") = true) as Hok by (vm_compute; reflexivity).
  assert (∃ r, RiskGateManager.pending_approvals
                 (risk_gates Samples.engine_awaiting_approval) !! "req-2"
               = Some r ∧
               status_after r true = "APPROVED" ∧
               hr_success (snd (_execute_action Samples.engine_awaiting_approval
                                  (original_action (mkStamp "act-1" 80) r)))
               = Some true)
    as (r & Hr & Hafter & Hrun)
    by (eexists; split_and!; [vm_compute; reflexivity|reflexivity..]).
  destruct (authorised_decision_outcome (mkStamp "act-1" 80)
              Samples.engine_awaiting_approval "req-2" "u-admin" true None r
              Hok Hr) as ((r' & Hr' & Hst) & Hresp).
  rewrite Hafter in Hresp, Hst. cbn [String.eqb Ascii.eqb Bool.eqb andb] in Hresp.
  cbn zeta in Hresp. destruct Hresp as (_ & _ & ->).
  rewrite Hrun. split; [reflexivity|]. exists r'. by split.
Defined.

End EngineResponseExamples.
